(** * Backyard Ultra Training Plan Generator: validation and schedule generation

    A shallow embedding of the two versions of the form logic:

    - [SingleTier]: [src/app.js] ([validateDataInput], flat
      [buildPlaceholderPlan]);
    - [TwoTier]: the average/peak version ([validate], ramp-and-taper
      [buildPlaceholderPlan], [interpolate]).

    JavaScript numbers are IEEE 754 binary64 values and are modelled by
    Rocq's primitive [float]s, whose operations are the same binary64
    operations.  [Date] objects are modelled by their local time value in
    milliseconds; what the [Date] constructor and [setDate] store goes
    through the time zone of the host and the range of time values, and
    [weeks.push] throws once the array is full.  Reading the form ([collectFormData]) is outside the
    model: the functions below take the record that [collectFormData]
    builds.  What the handlers write to the page ([showErrors],
    [clearMessages], [renderPlan], the instructions toggle) is modelled
    on the few element properties they assign. *)

From Stdlib Require Import ZArith Reals Lra Zfloor List String Ascii Bool Lia.
From Stdlib Require Import DecimalString DecimalZ DecimalPos Floats.
Import ListNotations.

Set Warnings "-inexact-float".

Local Open Scope Z_scope.

(* ================================================================== *)
(** * Part I.  The embedding                                           *)
(* ================================================================== *)

(** ** JavaScript numbers *)

Module JsNumber.

(** The Number whose mathematical value is the integer [z] (rounded to
    nearest when [z] needs more than 53 bits). *)
Definition of_Z (z : Z) : float :=
  SF2Prim (binary_normalize prec emax z 0 false).

(** [arr.length] of an array with [n] elements. *)
Definition of_nat (n : nat) : float := of_Z (Z.of_nat n).

(** The mantissa of a finite value, with its sign. *)
Definition signed (s : bool) (m : positive) : Z :=
  if s then Z.neg m else Z.pos m.

(** [Some n] when [x] is a finite Number whose value is the integer [n],
    [None] for fractions, infinities and NaN. *)
Definition to_Z (x : float) : option Z :=
  match Prim2SF x with
  | S754_zero _ => Some 0
  | S754_finite s m e =>
      if 0 <=? e then Some (Z.shiftl (signed s m) e)
      else if Z.land (Z.pos m) (Z.ones (- e)) =? 0
           then Some (Z.shiftl (signed s m) e)
           else None
  | _ => None
  end.

(** [ToIntegerOrInfinity] on a finite Number: the fraction is dropped,
    towards zero.  [None] for the infinities and NaN, which the callers
    below turn into NaN. *)
Definition truncate (x : float) : option Z :=
  match Prim2SF x with
  | S754_zero _ => Some 0
  | S754_finite s m e =>
      let magnitude := Z.shiftl (Z.pos m) e in
      Some (if s then - magnitude else magnitude)
  | _ => None
  end.

(** The global [isNaN] applied to a Number. *)
Definition isNaN (x : float) : bool := PrimFloat.is_nan x.

(** The SameValueZero comparison used by [Array.prototype.includes]. *)
Definition SameValueZero (x y : float) : bool :=
  (x =? y)%float || (PrimFloat.is_nan x && PrimFloat.is_nan y).

(** [arr.includes(x)] for an array of Numbers. *)
Definition includes (arr : list float) (x : float) : bool :=
  existsb (SameValueZero x) arr.

(** [Math.floor]: NaN, the infinities, the zeros and the integers are
    returned unchanged; a fraction [m * 2^e] ([e < 0]) goes to the
    largest integer below it ([Z.shiftl _ e] with a negative [e] is
    the flooring right shift). *)
Definition Math_floor (x : float) : float :=
  match Prim2SF x with
  | S754_finite s m e =>
      if 0 <=? e then x else of_Z (Z.shiftl (signed s m) e)
  | _ => x
  end.

(** [Math.round]: the integer closest to [x], ties going towards
    +Infinity, that is [floor (x + 1/2)] computed exactly; a result of
    zero keeps the sign of [x]. *)
Definition Math_round (x : float) : float :=
  match Prim2SF x with
  | S754_finite s m e =>
      if 0 <=? e then x
      else
        let n := Z.shiftl (2 * signed s m + Z.shiftl 1 (- e)) (e - 1) in
        if n =? 0 then (if s then neg_zero else zero) else of_Z n
  | _ => x
  end.

(** [Math.max] of two Numbers: NaN when either is NaN, and +0 is
    larger than -0. *)
Definition Math_max (a b : float) : float :=
  if PrimFloat.is_nan a || PrimFloat.is_nan b then nan
  else if (a <? b)%float then b
  else if (b <? a)%float then a
  else if get_sign a then b else a.

(** A reference [Math.pow] for non-negative integer exponents, by
    repeated multiplication.  ECMAScript leaves the result of
    [Math.pow] implementation-approximated, so the generator below takes
    the function as a parameter; this one is used to run it. *)
Definition pow_by_multiplication (b e : float) : float :=
  match to_Z e with
  | Some n => if 0 <=? n then Nat.iter (Z.to_nat n) (fun y => (y * b)%float) 1%float
              else nan
  | None => nan
  end.

End JsNumber.

(** ** The real-number reading of binary64

    The definitions below give the binary64 operations their meaning
    over the reals: a finite value [m * 2^e] is a real number, and each
    operation returns the exact result rounded to nearest, ties to even.
    [SpecFloat] computes that rounding with a round bit and a sticky bit;
    [bracket] and [cbracket] say what those bits mean, and [Rounds] is
    the resulting relation between an exact real and its rounding. *)

(** [2^e] *)
Definition bpow (e : Z) : R := powerRZ 2 e.

(** [m * 2^e] *)
Definition F2R (m e : Z) : R := (IZR m * bpow e)%R.

(** The position of [u] in the unit interval starting at the integer [m]:
    on [m], below the middle, on the middle, above the middle. *)
Definition inbetween_int (m : Z) (l : location) (u : R) : Prop :=
  match l with
  | loc_Exact => u = IZR m
  | loc_Inexact Lt => (IZR m < u < IZR m + / 2)%R
  | loc_Inexact Eq => u = (IZR m + / 2)%R
  | loc_Inexact Gt => (IZR m + / 2 < u < IZR m + 1)%R
  end.

(** [x] lies in [[m * 2^e, (m + 1) * 2^e)] at location [l]. *)
Definition bracket (x : R) (m e : Z) (l : location) : Prop :=
  inbetween_int m l (x * bpow (- e))%R.

(** The same for a mantissa with its round and sticky bits. *)
Definition inbetween_rec (mrs : shr_record) (u : R) : Prop :=
  inbetween_int (shr_m mrs) (loc_of_shr_record mrs) u.

(** The exponent of the binary64 values with [e] binary digits before
    the point: [max (e - 53) (-1074)]. *)
Abbreviation fexp := (SpecFloat.fexp prec emax).

(** A bracket of [x] at the exponent binary64 gives to [x]. *)
Definition cbracket (x : R) (mrs : shr_record) (E : Z) : Prop :=
  inbetween_rec mrs (x * bpow (- E))%R
  /\ 0 <= shr_m mrs
  /\ E = fexp (Zdigits2 (shr_m mrs) + E).

(** The mantissa rounded to nearest, ties to even. *)
Definition rnd (mrs : shr_record) : Z :=
  round_nearest_even (shr_m mrs) (loc_of_shr_record mrs).

(** The second half of [SpecFloat.binary_round_aux] for the sign [+]:
    round the truncated mantissa, renormalise, and overflow to
    [+Infinity]. *)
Definition finish (mrs : shr_record) (E : Z) : spec_float :=
  let '(mrs'', e'') := shr_fexp prec emax (rnd mrs) E loc_Exact in
  match shr_m mrs'' with
  | Z0 => S754_zero false
  | Zpos m =>
      if e'' <=? emax - prec then S754_finite false m e''
      else S754_infinity false
  | Zneg _ => S754_nan
  end.

(** [f] is the binary64 rounding of the non-negative real [x]. *)
Definition Rounds (x : R) (f : spec_float) : Prop :=
  exists mrs E, cbracket x mrs E /\ f = finish mrs E.

(** The rank of a non-negative value in the order of the binary64
    values: [+0] has rank 0, consecutive values have consecutive ranks,
    and [+Infinity] has rank [ordTop]. *)
Definition ordTop : Z := (971 + 1074) * 2 ^ 52 + 2 ^ 53.

Definition sford (f : spec_float) : Z :=
  match f with
  | S754_zero _ => 0
  | S754_finite _ m e => (e + 1074) * 2 ^ 52 + Z.pos m
  | S754_infinity _ => ordTop
  | S754_nan => -1
  end.

(** The rank that [finish] reaches, before overflow. *)
Definition ordOf (mrs : shr_record) (E : Z) : Z :=
  (E + 1074) * 2 ^ 52 + rnd mrs.

(** [+0], the positive finite values and [+Infinity]. *)
Definition nonneg_valid (f : spec_float) : Prop :=
  match f with
  | S754_zero s => s = false
  | S754_finite s m e => s = false /\ valid_binary (S754_finite s m e) = true
  | S754_infinity s => s = false
  | S754_nan => False
  end.

(** [+0] and the positive finite values. *)
Definition nnf (f : spec_float) : Prop :=
  match f with
  | S754_zero s => s = false
  | S754_finite s m e => s = false /\ valid_binary (S754_finite s m e) = true
  | _ => False
  end.

(** The real value of a finite binary64 value. *)
Definition SF2R (f : spec_float) : R :=
  match f with
  | S754_finite s m e => F2R (if s then Z.neg m else Z.pos m) e
  | _ => 0%R
  end.

(** The same notions on Numbers: [nn a] when [a] is [+0], positive or
    [+Infinity]; [nf a] when moreover [a] is finite; [B2R a] the real
    value of [a]; [ford a] its rank. *)
Definition nn (a : float) : Prop := nonneg_valid (Prim2SF a).
Definition nf (a : float) : Prop := nnf (Prim2SF a).
Definition B2R (a : float) : R := SF2R (Prim2SF a).
Definition ford (a : float) : Z := sford (Prim2SF a).

(** The integer [floor (x + 1/2)] that [Math.round] returns on a finite
    value [x = m * 2^e], computed as [JsNumber.Math_round] does. *)
Definition roundZ (f : spec_float) : Z :=
  match f with
  | S754_finite s m e =>
      if 0 <=? e then JsNumber.signed s m * 2 ^ e
      else Z.shiftl (2 * JsNumber.signed s m + Z.shiftl 1 (- e)) (e - 1)
  | _ => 0
  end.

(** ** JavaScript dates *)

Module JsDate.

(** A valid [Date], by its local time value: the milliseconds since
    the epoch that [LocalTime] gives for its time value.  The calendar
    fields read by [getFullYear], [getMonth] and [getDate] are
    functions of [Day t]; the time of day is [TimeWithinDay t]. *)
Record t := mk { timeValue : Z }.

Definition msPerDay : Z := 86400000.
Definition Day (tv : Z) : Z := tv / msPerDay.
Definition TimeWithinDay (tv : Z) : Z := tv mod msPerDay.
Definition MakeDate (day time : Z) : Z := day * msPerDay + time.

(** [new Date(d.getTime())]. *)
Definition copy (d : t) : t := mk (timeValue d).

(** The start of the calendar day of [d]: the local time value of its
    day number at time of day zero.  (The midnights that [validate]
    builds come from the [Date] constructor, [JsDateFields.ofFields]
    below, which agrees with this for years outside 0 to 99 only.) *)
Definition atMidnight (d : t) : t := mk (MakeDate (Day (timeValue d)) 0).

(** The comparison of the local time values of two dates. *)
Definition leb (a b : t) : bool := timeValue a <=? timeValue b.

(** The time zone of the host: the offset of local time from UTC in
    milliseconds, found for a time value ([LocalTZA(t, true)]) and
    for a local time ([LocalTZA(t, false)]).  For a local time that a
    forward transition skips, ECMAScript has the second give the offset
    in force before the transition. *)
Record TimeZone := mkZone {
  offsetAtUTC : Z -> Z;
  offsetAtLocal : Z -> Z
}.

(** [LocalTime(t)] and [UTC(t)] *)
Definition LocalTime (zone : TimeZone) (u : Z) : Z := u + offsetAtUTC zone u.
Definition UTC (zone : TimeZone) (tl : Z) : Z := tl - offsetAtLocal zone tl.

(** [TimeClip]: a time value is at most 8.64e15 milliseconds away from
    the epoch; beyond that the date is the Invalid Date, [None]. *)
Definition TimeClip (u : Z) : option Z :=
  if Z.abs u <=? 8640000000000000 then Some u else None.

(** [a <= b] on two [Date]s: both are converted to their time values,
    and a comparison with NaN, [None], is false. *)
Definition valueLeb (a b : option Z) : bool :=
  match a, b with
  | Some x, Some y => x <=? y
  | _, _ => false
  end.

(** The date that a setter stores for the local time [tl] it has
    computed: [TimeClip(UTC(tl))], read back as a local time.  The
    Numbers of this computation are integers below [2^53] whenever the
    result is in range, so that integer arithmetic is exact. *)
Definition ofLocal (zone : TimeZone) (tl : Z) : option t :=
  match TimeClip (UTC zone tl) with
  | Some u => Some (mk (LocalTime zone u))
  | None => None
  end.

(** The zone of UTC itself, and a zone at a fixed offset from it. *)
Definition utc : TimeZone := mkZone (fun _ => 0) (fun _ => 0).

(** A zone one hour ahead of UTC that goes two hours ahead at 01:00 UTC
    on 31 March 2024, as the zones of Central European Time do: the
    local times from 02:00 to 03:00 of that day do not exist. *)
Definition springForward2024 : TimeZone :=
  let transition := 1711846800000 in
  mkZone (fun u => if u <? transition then 3600000 else 7200000)
         (fun tl => if tl <? transition + 7200000 then 3600000 else 7200000).

End JsDate.

(** ** Calendar fields

    ECMAScript's day-number functions.  They are stated there on time
    values and depend on the time value only through its day number
    [Day t], on which they are defined here. *)

Module JsCalendar.

(** [DaysInYear(y)] *)
Definition DaysInYear (y : Z) : Z :=
  if negb (y mod 4 =? 0) then 365
  else if negb (y mod 100 =? 0) then 366
  else if negb (y mod 400 =? 0) then 365
  else 366.

(** [DayFromYear(y)]: the day number of the first day of year [y]. *)
Definition DayFromYear (y : Z) : Z :=
  365 * (y - 1970) + (y - 1969) / 4 - (y - 1901) / 100 + (y - 1601) / 400.

(** [YearFromTime]: the largest [y] with [DayFromYear y <= day],
    computed by counting whole cycles of 400, 100, 4 and 1 years from
    the first day of 1601. *)
Definition YearFromDay (day : Z) : Z :=
  let n := day - DayFromYear 1601 in
  let n400 := n / 146097 in
  let r400 := n mod 146097 in
  let n100 := Z.min (r400 / 36524) 3 in
  let r100 := r400 - n100 * 36524 in
  let n4 := r100 / 1461 in
  let r4 := r100 mod 1461 in
  let n1 := Z.min (r4 / 365) 3 in
  1601 + 400 * n400 + 100 * n100 + 4 * n4 + n1.

(** [DayWithinYear] *)
Definition DayWithinYear (day : Z) : Z :=
  day - DayFromYear (YearFromDay day).

(** [InLeapYear]: 1 in a leap year, 0 otherwise. *)
Definition InLeapYear (day : Z) : Z :=
  if DaysInYear (YearFromDay day) =? 366 then 1 else 0.

(** The day within the year on which month [m] (0 to 11) starts;
    [leap] is 1 in a leap year. *)
Definition monthStart (m leap : Z) : Z :=
  match m with
  | 0 => 0
  | 1 => 31
  | 2 => 59 + leap
  | 3 => 90 + leap
  | 4 => 120 + leap
  | 5 => 151 + leap
  | 6 => 181 + leap
  | 7 => 212 + leap
  | 8 => 243 + leap
  | 9 => 273 + leap
  | 10 => 304 + leap
  | _ => 334 + leap
  end.

(** [MonthFromTime]: 0 for January to 11 for December. *)
Definition MonthFromDay (day : Z) : Z :=
  let d := DayWithinYear day in
  let leap := InLeapYear day in
  if d <? 31 then 0
  else if d <? 59 + leap then 1
  else if d <? 90 + leap then 2
  else if d <? 120 + leap then 3
  else if d <? 151 + leap then 4
  else if d <? 181 + leap then 5
  else if d <? 212 + leap then 6
  else if d <? 243 + leap then 7
  else if d <? 273 + leap then 8
  else if d <? 304 + leap then 9
  else if d <? 334 + leap then 10
  else 11.

(** [DateFromTime]: the day of the month, from 1. *)
Definition DateFromDay (day : Z) : Z :=
  let d := DayWithinYear day in
  let leap := InLeapYear day in
  match MonthFromDay day with
  | 0 => d + 1
  | 1 => d - 30
  | 2 => d - 58 - leap
  | 3 => d - 89 - leap
  | 4 => d - 119 - leap
  | 5 => d - 150 - leap
  | 6 => d - 180 - leap
  | 7 => d - 211 - leap
  | 8 => d - 242 - leap
  | 9 => d - 272 - leap
  | 10 => d - 303 - leap
  | _ => d - 333 - leap
  end.

(** [MakeDay(year, month, date)] on integers: the day number of the
    first day of the month [month mod 12] of the year
    [year + floor (month / 12)], moved by [date - 1] days. *)
Definition MakeDay (year month date : Z) : Z :=
  let ym := year + month / 12 in
  let mn := month mod 12 in
  let leap := if DaysInYear ym =? 366 then 1 else 0 in
  DayFromYear ym + monthStart mn leap + date - 1.

End JsCalendar.

(** ** Reading and building dates *)

Module JsDateFields.

(** [d.getFullYear()], [d.getMonth()], [d.getDate()] *)
Definition getFullYear (d : JsDate.t) : Z :=
  JsCalendar.YearFromDay (JsDate.Day (JsDate.timeValue d)).
Definition getMonth (d : JsDate.t) : Z :=
  JsCalendar.MonthFromDay (JsDate.Day (JsDate.timeValue d)).
Definition getDate (d : JsDate.t) : Z :=
  JsCalendar.DateFromDay (JsDate.Day (JsDate.timeValue d)).

(** The local time that [new Date(year, month, date)] computes on
    integers, [MakeDate(MakeDay(yr, month, date), 0)]: a year from 0 to
    99 is read as a year of the twentieth century, and the time of day
    is zero. *)
Definition ofFields (year month date : Z) : JsDate.t :=
  let yr := if (0 <=? year) && (year <=? 99) then 1900 + year else year in
  JsDate.mk (JsDate.MakeDate (JsCalendar.MakeDay yr month date) 0).

(** The time value of [new Date(year, month, date)] in the time zone
    [zone]: the local time computed, stored through [TimeClip(UTC(...))];
    [None] is NaN, the time value of the Invalid Date. *)
Definition construct (zone : JsDate.TimeZone) (year month date : Z)
  : option Z :=
  JsDate.TimeClip
    (JsDate.UTC zone (JsDate.timeValue (ofFields year month date))).

(** [d.setDate(date)] in the time zone [zone]: the Invalid Date when
    [date] is NaN or infinite; otherwise the day is rebuilt from the
    year and the month of [d] and the integer part of [date], the time
    of day is kept, and the local time obtained is stored through
    [TimeClip(UTC(...))]. *)
Definition setDate (zone : JsDate.TimeZone) (d : JsDate.t) (date : float)
  : option JsDate.t :=
  let t := JsDate.timeValue d in
  match JsNumber.truncate date with
  | None => None
  | Some dt =>
      let newDate :=
        JsDate.MakeDate
          (JsCalendar.MakeDay (JsCalendar.YearFromDay (JsDate.Day t))
                              (JsCalendar.MonthFromDay (JsDate.Day t))
                              dt)
          (JsDate.TimeWithinDay t) in
      JsDate.ofLocal zone newDate
  end.

End JsDateFields.

(** The test [targetMidnight <= todayMidnight] of [validate] on the
    local times that the two calls of the [Date] constructor compute
    from the fields of the two dates. *)
Definition targetNotAfterToday (now target : JsDate.t) : bool :=
  let todayMidnight :=
    JsDateFields.ofFields (JsDateFields.getFullYear now)
                          (JsDateFields.getMonth now)
                          (JsDateFields.getDate now) in
  let targetMidnight :=
    JsDateFields.ofFields (JsDateFields.getFullYear target)
                          (JsDateFields.getMonth target)
                          (JsDateFields.getDate target) in
  JsDate.leb targetMidnight todayMidnight.

(** ** Shared vocabulary *)

(** How a call ends: it returns, it throws, or the model ran out of
    fuel before the loop finished. *)
Inductive completion (A : Type) : Type :=
| Returned (a : A)
| Threw (error : string)
| OutOfFuel.
Arguments Returned {A} a.
Arguments Threw {A} error.
Arguments OutOfFuel {A}.

(** One row of the plan: [{ weekNumber, plannedHours }]. *)
Record WeekEntry := mkWeek { weekNumber : float; plannedHours : float }.

(** The plan: [{ startDate, weeks }]; [startDate = None] is an Invalid
    Date. *)
Record Plan := mkPlan { startDate : option JsDate.t; weeks : list WeekEntry }.

(** [errors.push(msg)] *)
Definition push (errors : list string) (msg : string) : list string :=
  errors ++ [msg].

(** [weeks.push(entry)]: an array holds at most [2^32 - 1] elements,
    and the push that would bring its length to [2^32] throws a
    RangeError, [None]. *)
Definition pushWeek (weeks : list WeekEntry) (entry : WeekEntry)
  : option (list WeekEntry) :=
  if Z.of_nat (List.length weeks) <? 4294967295 then Some (weeks ++ [entry])
  else None.

(** [Math.round(v * 10) / 10], identical in both files. *)
Definition round1 (v : float) : float :=
  (JsNumber.Math_round (v * 10) / 10)%float.

(** [xs] keeps some of the elements of [ys], in the order of [ys]. *)
Inductive Subsequence {A : Type} : list A -> list A -> Prop :=
| Subsequence_nil : Subsequence [] []
| Subsequence_skip x xs ys : Subsequence xs ys -> Subsequence xs (x :: ys)
| Subsequence_keep x xs ys : Subsequence xs ys -> Subsequence (x :: xs) (x :: ys).

(** ** The single-tier version ([src/app.js]) *)

Module SingleTier.

Local Open Scope string_scope.

(** The record built by [collectFormData]; [targetDate = None] is
    [null]. *)
Record FormData := mkFormData {
  targetDate : option JsDate.t;
  planLengthWeeks : float;
  avgHours : float;
  selectedDays : list string
}.

Definition msgTargetDate :=
  "Please select a target backyard ultra date.".
Definition msgPlanLength :=
  "Please select a training plan length (8, 12, or 16 weeks).".
Definition msgAvgPositive :=
  "Average weekly training hours must be a positive number.".
Definition msgAvgMinimum :=
  "Average weekly training is lower than the minimum of 6 hrs.".
Definition msgNoDay :=
  "Select at least one training day.".
Definition msgMinDays :=
  "Number of selected days is lower than the minimum of 3.".
Definition msgLongRun :=
  "Please include one between Tuesday, Saturday or Sunday as a training day to accommodate long runs.".
Definition msgPerDayLow :=
  "The desired average running time per running day should be at least 1.5. Consider adjusting days or hours.".
Definition msgPerDayHigh :=
  "The desired average running time per running day should be at less than 3.5. Consider adjusting days or hours.".

(** [data.selectedDays.includes(day)] *)
Definition includesDay (days : list string) (day : string) : bool :=
  existsb (String.eqb day) days.

Definition validateDataInput (data : FormData) : list string :=
  let errors := [] in
  (* Target date must exist *)
  let errors :=
    match targetDate data with
    | None => push errors msgTargetDate
    | Some _ => errors
    end in
  (* Plan length must be one of expected values *)
  let errors :=
    if negb (JsNumber.includes [8; 12; 16]%float (planLengthWeeks data))
    then push errors msgPlanLength else errors in
  (* Average hours numeric and logical *)
  let errors :=
    if JsNumber.isNaN (avgHours data) || (avgHours data <=? 0)%float
    then push errors msgAvgPositive
    else if (avgHours data <? 6)%float
    then push errors msgAvgMinimum else errors in
  (* At least one day selected *)
  let errors :=
    if (List.length (selectedDays data) =? 0)%nat
    then push errors msgNoDay
    else if (List.length (selectedDays data) <? 3)%nat
    then push errors msgMinDays
    else if negb (includesDay (selectedDays data) "Thu")
            && negb (includesDay (selectedDays data) "Sat")
            && negb (includesDay (selectedDays data) "Sun")
    then push errors msgLongRun else errors in
  (* Rough feasibility: average vs number of days *)
  let errors :=
    if negb (List.length (selectedDays data) =? 0)%nat
       && negb (JsNumber.isNaN (avgHours data))
    then
      let perDayAvg :=
        (avgHours data / JsNumber.of_nat (List.length (selectedDays data)))%float in
      if (perDayAvg <? 1.5)%float then push errors msgPerDayLow
      else if (3.5 <? perDayAvg)%float then push errors msgPerDayHigh
      else errors
    else errors in
  errors.

(** The [for] loop of [buildPlaceholderPlan], entered with the loop
    variable at [w]. *)
Fixpoint weeksLoop (fuel : nat) (data : FormData) (w : float)
         (weeks : list WeekEntry) : completion (list WeekEntry) :=
  if (w <? planLengthWeeks data)%float then
    match fuel with
    | O => OutOfFuel
    | S fuel' =>
        match pushWeek weeks (mkWeek (w + 1)%float (round1 (avgHours data))) with
        | Some weeks' => weeksLoop fuel' data (w + 1)%float weeks'
        | None => Threw "RangeError"
        end
    end
  else Returned weeks.

(** [buildPlaceholderPlan(data)] on a host in the time zone [zone]. *)
Definition buildPlaceholderPlan (zone : JsDate.TimeZone) (fuel : nat)
           (data : FormData) : completion Plan :=
  match targetDate data with
  | None => Threw "TypeError"
  | Some target =>
      let startDate := JsDate.copy target in
      let startDate :=
        JsDateFields.setDate
          zone startDate
          (JsNumber.of_Z (JsDateFields.getDate startDate)
           - planLengthWeeks data * 7)%float in
      match weeksLoop fuel data 0%float [] with
      | Returned weeks => Returned (mkPlan startDate weeks)
      | Threw error => Threw error
      | OutOfFuel => OutOfFuel
      end
  end.

End SingleTier.


(** ** The two-tier (average / peak) version *)

Module TwoTier.

Local Open Scope string_scope.

(** The record built by [collectFormData]; [targetDate = None] is
    [null]. *)
Record FormData := mkFormData {
  targetDate : option JsDate.t;
  planLengthWeeks : float;
  avgHours : float;
  peakHours : float;
  selectedDays : list string
}.

Definition msgTargetDate :=
  "Please select a target backyard ultra date.".
Definition msgFuture :=
  "Target date must be in the future.".
Definition msgPlanLength :=
  "Please select a training plan length (8, 12, or 16 weeks).".
Definition msgAvgPositive :=
  "Average weekly training hours must be a positive number.".
Definition msgPeakPositive :=
  "Peak weekly training hours must be a positive number.".
Definition msgPeakBelowAvg :=
  "Peak weekly hours should be greater than or equal to average weekly hours.".
Definition msgNoDay :=
  "Select at least one training day.".
Definition msgPerDayLow :=
  "Average hours per selected training day is very low (<0.25h). Consider adjusting days or hours.".

(** [validate(data)] on a host in the time zone [zone], with the value
    [now] of [new Date()] read at its second line passed in.  The two
    midnights are built by the [Date] constructor from the year, the
    month and the day of the month of each date. *)
Definition validate (zone : JsDate.TimeZone) (now : JsDate.t)
           (data : FormData) : list string :=
  let errors := [] in
  (* Target date must exist and be in the future *)
  let errors :=
    match targetDate data with
    | None => push errors msgTargetDate
    | Some target =>
        let todayMidnight :=
          JsDateFields.construct zone (JsDateFields.getFullYear now)
                                 (JsDateFields.getMonth now)
                                 (JsDateFields.getDate now) in
        let targetMidnight :=
          JsDateFields.construct zone (JsDateFields.getFullYear target)
                                 (JsDateFields.getMonth target)
                                 (JsDateFields.getDate target) in
        if JsDate.valueLeb targetMidnight todayMidnight
        then push errors msgFuture else errors
    end in
  (* Plan length must be one of expected values *)
  let errors :=
    if negb (JsNumber.includes [8; 12; 16]%float (planLengthWeeks data))
    then push errors msgPlanLength else errors in
  (* Hours numeric and logical *)
  let errors :=
    if JsNumber.isNaN (avgHours data) || (avgHours data <=? 0)%float
    then push errors msgAvgPositive else errors in
  let errors :=
    if JsNumber.isNaN (peakHours data) || (peakHours data <=? 0)%float
    then push errors msgPeakPositive else errors in
  let errors :=
    if negb (JsNumber.isNaN (avgHours data))
       && negb (JsNumber.isNaN (peakHours data))
       && (peakHours data <? avgHours data)%float
    then push errors msgPeakBelowAvg else errors in
  (* At least one day selected *)
  let errors :=
    if (List.length (selectedDays data) =? 0)%nat
    then push errors msgNoDay else errors in
  (* Rough feasibility: average vs number of days *)
  let errors :=
    if negb (List.length (selectedDays data) =? 0)%nat
       && negb (JsNumber.isNaN (avgHours data))
    then
      let perDayAvg :=
        (avgHours data / JsNumber.of_nat (List.length (selectedDays data)))%float in
      if (perDayAvg <? 0.25)%float then push errors msgPerDayLow else errors
    else errors in
  errors.

(** Utility linear interpolation *)
Definition interpolate (x x0 x1 y0 y1 : float) : float :=
  if (x1 =? x0)%float then y0
  else (y0 + (y1 - y0) * ((x - x0) / (x1 - x0)))%float.

Section Generator.

(** [Math.pow], whose result ECMAScript leaves to the implementation. *)
Variable Math_pow : float -> float -> float.

(** The time zone of the host. *)
Variable zone : JsDate.TimeZone.

(** [Math.floor(totalWeeks * 0.65)] *)
Definition peakWeekIndexOf (totalWeeks : float) : float :=
  JsNumber.Math_floor (totalWeeks * 0.65)%float.

(** The value assigned to [plannedHours] in iteration [w], before
    rounding. *)
Definition hoursOfWeek (data : FormData) (peakWeekIndex w : float) : float :=
  if (w <? peakWeekIndex)%float then
    (* Linear ramp *)
    interpolate w 0%float peakWeekIndex (avgHours data) (peakHours data)
  else if (w =? peakWeekIndex)%float then
    peakHours data
  else
    (* Taper down 20% each week after peak until not below avgHours *)
    let taperFactor := Math_pow 0.8%float (w - peakWeekIndex)%float in
    JsNumber.Math_max (avgHours data) (peakHours data * taperFactor)%float.

(** The [for] loop of [buildPlaceholderPlan], entered with the loop
    variable at [w]. *)
Fixpoint weeksLoop (fuel : nat) (data : FormData)
         (totalWeeks peakWeekIndex w : float)
         (weeks : list WeekEntry) : completion (list WeekEntry) :=
  if (w <? totalWeeks)%float then
    match fuel with
    | O => OutOfFuel
    | S fuel' =>
        let plannedHours := hoursOfWeek data peakWeekIndex w in
        match pushWeek weeks (mkWeek (w + 1)%float (round1 plannedHours)) with
        | Some weeks' =>
            weeksLoop fuel' data totalWeeks peakWeekIndex (w + 1)%float weeks'
        | None => Threw "RangeError"
        end
    end
  else Returned weeks.

Definition buildPlaceholderPlan (fuel : nat) (data : FormData)
  : completion Plan :=
  match targetDate data with
  | None => Threw "TypeError"
  | Some target =>
      let startDate := JsDate.copy target in
      let startDate :=
        JsDateFields.setDate
          zone startDate
          (JsNumber.of_Z (JsDateFields.getDate startDate)
           - planLengthWeeks data * 7)%float in
      let totalWeeks := planLengthWeeks data in
      let peakWeekIndex := peakWeekIndexOf totalWeeks in
      match weeksLoop fuel data totalWeeks peakWeekIndex 0%float [] with
      | Returned weeks => Returned (mkPlan startDate weeks)
      | Threw error => Threw error
      | OutOfFuel => OutOfFuel
      end
  end.

End Generator.

(** The eight message texts of the external interface, in rule order
    (presence, futurity, plan length, average positivity, peak
    positivity, peak >= average, day non-empty, per-day intensity). *)
Definition interfaceMessages : list string :=
  [ "Please select a target backyard ultra date.";
    "Target date must be in the future.";
    "Please select a training plan length (8, 12, or 16 weeks).";
    "Average weekly training hours must be a positive number.";
    "Peak weekly training hours must be a positive number.";
    "Peak weekly hours should be greater than or equal to average weekly hours.";
    "Select at least one training day.";
    "Average hours per selected training day is very low (<0.25h). Consider adjusting days or hours." ].

End TwoTier.


(** ** Vocabulary of the statements *)

(** The messages whose guard holds, in the order of the list. *)
Definition selectMessages (guarded : list (bool * string)) : list string :=
  map snd (filter fst guarded).

(** [weeks[w]] for a Number [w]. *)
Definition entryAt (weeks : list WeekEntry) (w : float) : option WeekEntry :=
  match JsNumber.to_Z w with
  | Some n => if 0 <=? n then nth_error weeks (Z.to_nat n) else None
  | None => None
  end.

(** The values [0, 1, ..., n-1] of the loop variable [w]. *)
Definition weekIndices (n : nat) : list float :=
  map JsNumber.of_nat (seq 0 n).

(** [ws] lists the values taken by the variable of the loop
    [for (w = w0; w < totalWeeks; w++)], in order: the test succeeds at
    each of them and fails after the last increment. *)
Fixpoint loopValues (totalWeeks w0 : float) (ws : list float) : Prop :=
  match ws with
  | [] => (w0 <? totalWeeks)%float = false
  | w :: ws' =>
      w = w0 /\ (w0 <? totalWeeks)%float = true
      /\ loopValues totalWeeks (w0 + 1)%float ws'
  end.

(** The exponents [w - peakWeekIndex] that the taper passes to
    [Math.pow] for the plan lengths 8, 12 and 16. *)
Definition taperExponents : list float := [1; 2; 3; 4; 5]%float.

(** The factors [Math.pow(0.8, k)] for [k = 1 .. 5] are positive and at
    most 1. *)
Definition taperFactorsBounded (Math_pow : float -> float -> float) : Prop :=
  forallb (fun c => (0 <? c)%float && (c <=? 1)%float)
          (map (Math_pow 0.8%float) taperExponents) = true.



(** The local time [tl] is a time of the zone inside the range of time
    values: stored through [TimeClip(UTC(tl))] and read back, it is
    [tl] again. *)
Definition localTimeExists (zone : JsDate.TimeZone) (tl : Z) : Prop :=
  JsDate.ofLocal zone tl = Some (JsDate.mk tl).

(** The shape of a returned plan for the record fields [target] and
    [planLength]: the call returns; there are [planLength] entries,
    numbered [1 .. planLength] in order; the start date is what the
    zone makes of the local time of the target date moved back by
    [planLength * 7] days; and where that local time exists, the start
    date is the target date moved back by [planLength * 7] days. *)
Definition planShape (zone : JsDate.TimeZone) (target : option JsDate.t)
           (planLength : float) (result : completion Plan) : Prop :=
  exists (plan : Plan) (t : JsDate.t) (n : Z),
    result = Returned plan
    /\ target = Some t
    /\ JsNumber.of_nat (List.length (weeks plan)) = planLength
    /\ map weekNumber (weeks plan)
       = map JsNumber.of_nat (seq 1 (List.length (weeks plan)))
    /\ JsNumber.to_Z planLength = Some n
    /\ startDate plan
       = JsDate.ofLocal zone (JsDate.timeValue t - n * 7 * JsDate.msPerDay)
    /\ (localTimeExists zone (JsDate.timeValue t - n * 7 * JsDate.msPerDay) ->
        exists start : JsDate.t,
          startDate plan = Some start
          /\ JsDate.timeValue start + n * 7 * JsDate.msPerDay
             = JsDate.timeValue t
          /\ JsDate.Day (JsDate.timeValue start) + n * 7
             = JsDate.Day (JsDate.timeValue t)
          /\ JsDate.TimeWithinDay (JsDate.timeValue start)
             = JsDate.TimeWithinDay (JsDate.timeValue t)).

(** [x] is neither NaN nor an infinity. *)
Definition finite (x : float) : Prop := PrimFloat.is_finite x = true.

(** [x <= y] and [x < y] on Numbers, as propositions. *)
Definition fle (x y : float) : Prop := (x <=? y)%float = true.
Definition flt (x y : float) : Prop := (x <? y)%float = true.


(** None of the long-run days Thu, Sat, Sun is selected. *)
Definition noLongRunDay (days : list string) : Prop :=
  ~ In "Thu"%string days /\ ~ In "Sat"%string days /\ ~ In "Sun"%string days.

(** Each [errors.push] of [SingleTier.validateDataInput] with the guard
    under which it runs, in source order. *)
Definition singleTierPushes (data : SingleTier.FormData) : list (bool * string) :=
  let avg := SingleTier.avgHours data in
  let days := SingleTier.selectedDays data in
  let n := List.length days in
  let avgInvalid := JsNumber.isNaN avg || (avg <=? 0)%float in
  let perDayAvg := (avg / JsNumber.of_nat n)%float in
  let perDayChecked := negb (n =? 0)%nat && negb (JsNumber.isNaN avg) in
  [ (match SingleTier.targetDate data with None => true | Some _ => false end,
     SingleTier.msgTargetDate);
    (negb (JsNumber.includes [8; 12; 16]%float (SingleTier.planLengthWeeks data)),
     SingleTier.msgPlanLength);
    (avgInvalid, SingleTier.msgAvgPositive);
    (negb avgInvalid && (avg <? 6)%float, SingleTier.msgAvgMinimum);
    ((n =? 0)%nat, SingleTier.msgNoDay);
    (negb (n =? 0)%nat && (n <? 3)%nat, SingleTier.msgMinDays);
    (negb (n =? 0)%nat && negb (n <? 3)%nat
       && (negb (SingleTier.includesDay days "Thu")
           && negb (SingleTier.includesDay days "Sat")
           && negb (SingleTier.includesDay days "Sun")),
     SingleTier.msgLongRun);
    (perDayChecked && (perDayAvg <? 1.5)%float, SingleTier.msgPerDayLow);
    (perDayChecked && negb (perDayAvg <? 1.5)%float && (3.5 <? perDayAvg)%float,
     SingleTier.msgPerDayHigh) ].

(** The test [targetMidnight <= todayMidnight] of [validate]. *)
Definition midnightTest (zone : JsDate.TimeZone) (now target : JsDate.t)
  : bool :=
  let todayMidnight :=
    JsDateFields.construct zone (JsDateFields.getFullYear now)
                           (JsDateFields.getMonth now)
                           (JsDateFields.getDate now) in
  let targetMidnight :=
    JsDateFields.construct zone (JsDateFields.getFullYear target)
                           (JsDateFields.getMonth target)
                           (JsDateFields.getDate target) in
  JsDate.valueLeb targetMidnight todayMidnight.

(** Each offset of the zone from UTC is at most a day, and any two of
    them differ by less than a day. *)
Definition offsetsWithinADay (zone : JsDate.TimeZone) : Prop :=
  forall a b : Z,
    Z.abs (JsDate.offsetAtLocal zone a) <= JsDate.msPerDay
    /\ Z.abs (JsDate.offsetAtLocal zone a - JsDate.offsetAtLocal zone b)
       < JsDate.msPerDay.

(** [d] is at least two days inside the range of time values. *)
Definition wellInRange (d : JsDate.t) : Prop :=
  Z.abs (JsDate.timeValue d) + 2 * JsDate.msPerDay <= 8640000000000000.

(** Each [errors.push] of [TwoTier.validate] with the guard under which
    it runs, in source order. *)
Definition twoTierPushes (zone : JsDate.TimeZone) (now : JsDate.t)
           (data : TwoTier.FormData) : list (bool * string) :=
  let avg := TwoTier.avgHours data in
  let peak := TwoTier.peakHours data in
  let n := List.length (TwoTier.selectedDays data) in
  [ (match TwoTier.targetDate data with None => true | Some _ => false end,
     TwoTier.msgTargetDate);
    (match TwoTier.targetDate data with
     | None => false
     | Some target => midnightTest zone now target
     end, TwoTier.msgFuture);
    (negb (JsNumber.includes [8; 12; 16]%float (TwoTier.planLengthWeeks data)),
     TwoTier.msgPlanLength);
    (JsNumber.isNaN avg || (avg <=? 0)%float, TwoTier.msgAvgPositive);
    (JsNumber.isNaN peak || (peak <=? 0)%float, TwoTier.msgPeakPositive);
    (negb (JsNumber.isNaN avg) && negb (JsNumber.isNaN peak) && (peak <? avg)%float,
     TwoTier.msgPeakBelowAvg);
    ((n =? 0)%nat, TwoTier.msgNoDay);
    (negb (n =? 0)%nat && negb (JsNumber.isNaN avg)
       && (avg / JsNumber.of_nat n <? 0.25)%float,
     TwoTier.msgPerDayLow) ].

(** The rules of the single-tier validator, as the specification words
    them: the record passes every one of them. *)
Definition singleTierPasses (data : SingleTier.FormData) : Prop :=
  let avg := SingleTier.avgHours data in
  let days := SingleTier.selectedDays data in
  let perDayAvg := (avg / JsNumber.of_nat (List.length days))%float in
  (* target date presence *)
  SingleTier.targetDate data <> None
  (* plan length membership *)
  /\ (SingleTier.planLengthWeeks data = 8%float
      \/ SingleTier.planLengthWeeks data = 12%float
      \/ SingleTier.planLengthWeeks data = 16%float)
  (* average hours positivity and floor *)
  /\ flt 0 avg /\ ~ flt avg 6
  (* day selection non-empty, minimum day count, long-run-day coverage *)
  /\ days <> [] /\ (3 <= List.length days)%nat /\ ~ noLongRunDay days
  (* per-day intensity band *)
  /\ ~ flt perDayAvg 1.5 /\ ~ flt 3.5 perDayAvg.

(** The records on which no guard of [TwoTier.validate] holds. *)
Definition twoTierAccepts (zone : JsDate.TimeZone) (now : JsDate.t)
           (data : TwoTier.FormData) : Prop :=
  let avg := TwoTier.avgHours data in
  let peak := TwoTier.peakHours data in
  let days := TwoTier.selectedDays data in
  (exists target,
      TwoTier.targetDate data = Some target
      /\ midnightTest zone now target = false)
  /\ (TwoTier.planLengthWeeks data = 8%float
      \/ TwoTier.planLengthWeeks data = 12%float
      \/ TwoTier.planLengthWeeks data = 16%float)
  /\ flt 0 avg /\ flt 0 peak /\ fle avg peak
  /\ days <> []
  /\ ~ flt (avg / JsNumber.of_nat (List.length days)) 0.25.

(** The year of [d] is not one that the [Date] constructor reads as a
    year of the twentieth century. *)
Definition yearAsWritten (d : JsDate.t) : Prop :=
  ~ 0 <= JsDateFields.getFullYear d <= 99.



(** ** Texts

    JavaScript strings are modelled by Rocq strings, one character per
    code unit; the code units above 255, which the functions below
    would copy unchanged, are not represented. *)

Module JsString.

Local Open Scope string_scope.

(** The double quote character. *)
Definition dquote : ascii := "034"%char.

(** The line feed character. *)
Definition lf : ascii := "010"%char.

(** [arr.join(sep)] for an array of strings. *)
Definition join (sep : string) (arr : list string) : string :=
  String.concat sep arr.

(** [str.replace(re, fn)] for a global regular expression [re] that
    matches exactly one character at a time, the characters on which
    [matches] holds: every such character [ch] is replaced by [fn ch],
    every other character is kept. *)
Fixpoint replaceEach (matches : ascii -> bool) (fn : ascii -> string)
         (str : string) : string :=
  match str with
  | EmptyString => EmptyString
  | String ch rest =>
      (if matches ch then fn ch else String ch EmptyString)
      ++ replaceEach matches fn rest
  end.

(** [fill] repeated and cut to [n] characters ([fill] is not empty). *)
Fixpoint repeatTo (fuel : nat) (fill : string) (n : nat) : string :=
  match fuel with
  | O => EmptyString
  | S fuel' =>
      if (n <=? String.length fill)%nat then String.substring 0 n fill
      else fill ++ repeatTo fuel' fill (n - String.length fill)
  end.

(** [str.padStart(maxLength, fillString)] *)
Definition padStart (str : string) (maxLength : nat) (fillString : string)
  : string :=
  if (maxLength <=? String.length str)%nat then str
  else if (String.length fillString =? 0)%nat then str
  else
    let fillLen := (maxLength - String.length str)%nat in
    repeatTo fillLen fillString fillLen ++ str.

(** [String(n)] for a Number whose value is the integer [n] (of
    magnitude below [10^21]): its decimal digits, after a minus sign
    when it is negative. *)
Definition ofInteger (n : Z) : string :=
  NilZero.string_of_int (Z.to_int n).

End JsString.

Local Open Scope string_scope.

(** ** Escaping markup (identical in both files) *)

(** The character class of the regular expression: the ampersand, the
    two angle brackets, the double quote and the single quote. *)
Definition markupChars : list ascii :=
  ["&"; "<"; ">"; JsString.dquote; "'"]%char.

Definition isMarkupChar (ch : ascii) : bool :=
  existsb (Ascii.eqb ch) markupChars.

(** The object literal of the callback, as the list of its properties:
    each character of the class with its entity. *)
Definition entities : list (ascii * string) :=
  [ ("&"%char, "&amp;"); ("<"%char, "&lt;"); (">"%char, "&gt;");
    (JsString.dquote, "&quot;"); ("'"%char, "&#39;") ].

(** [obj[ch]]: the value of the first property named [ch], [None]
    ([undefined]) when there is none. *)
Fixpoint lookupProperty (obj : list (ascii * string)) (ch : ascii)
  : option string :=
  match obj with
  | [] => None
  | (key, value) :: rest =>
      if Ascii.eqb key ch then Some value else lookupProperty rest ch
  end.

(** The callback [ch => ({...}[ch])]; [replace] converts its result to
    a string, so [undefined] would become the text [undefined]. *)
Definition entityOf (ch : ascii) : string :=
  match lookupProperty entities ch with
  | Some entity => entity
  | None => "undefined"
  end.

(** [escapeHtml(str)] *)
Definition escapeHtml (str : string) : string :=
  JsString.replaceEach isMarkupChar entityOf str.

(** The five entities, each after its ampersand. *)
Definition entityTails : list string :=
  ["amp;"; "lt;"; "gt;"; "quot;"; "#39;"].

(** ** The page

    The two elements the handlers write to.  An element is modelled by
    its class tokens and by the markup last assigned to [innerHTML];
    [focusCalls] counts the calls of [messagesEl.focus()]. *)

Record Element := mkElement {
  classTokens : list string;
  innerHTML : string
}.

Record Page := mkPage {
  messagesEl : Element;
  outputEl : Element;
  focusCalls : nat
}.

(** [el.classList.remove(token)] and [el.classList.add(token)] *)
Definition classList_remove (token : string) (el : Element) : Element :=
  mkElement (filter (fun t => negb (String.eqb t token)) (classTokens el))
            (innerHTML el).

Definition classList_add (token : string) (el : Element) : Element :=
  if existsb (String.eqb token) (classTokens el) then el
  else mkElement (classTokens el ++ [token]) (innerHTML el).

(** [el.innerHTML = markup] *)
Definition setInnerHTML (markup : string) (el : Element) : Element :=
  mkElement (classTokens el) markup.

(** [showErrors(errors)], identical in both files. *)
Definition showErrors (errors : list string) (page : Page) : Page :=
  let el := messagesEl page in
  let el := classList_remove "success" el in
  let el := classList_add "error" el in
  let items :=
    JsString.join "" (map (fun e => "<li>" ++ escapeHtml e ++ "</li>") errors) in
  let el := setInnerHTML ("<ul>" ++ items ++ "</ul>") el in
  mkPage el (outputEl page) (focusCalls page).

(** [clearMessages()]: [className = 'messages'] leaves the one token
    [messages]. *)
Definition clearMessages (page : Page) : Page :=
  mkPage (mkElement ["messages"] "") (outputEl page) (focusCalls page).

(** [focusMessages()] *)
Definition focusMessages (page : Page) : Page :=
  mkPage (messagesEl page) (outputEl page) (S (focusCalls page)).

(** [String(n).padStart(2, '0')] for an integer [n]. *)
Definition twoDigits (n : Z) : string :=
  JsString.padStart (JsString.ofInteger n) 2 "0".

(** The double quote and the line feed as texts. *)
Definition quote : string := String JsString.dquote "".
Definition lineFeed : string := String JsString.lf "".

(** *** The two-tier page *)

Module TwoTierPage.

(** [formatDate(d)] on a Date object; [None] is the Invalid Date, whose
    fields are all NaN. *)
Definition formatDate (d : option JsDate.t) : string :=
  match d with
  | Some d =>
      let y := JsString.ofInteger (JsDateFields.getFullYear d) in
      let m := twoDigits (JsDateFields.getMonth d + 1) in
      let da := twoDigits (JsDateFields.getDate d) in
      y ++ "-" ++ m ++ "-" ++ da
  | None =>
      let y := "NaN" in
      let m := JsString.padStart "NaN" 2 "0" in
      let da := JsString.padStart "NaN" 2 "0" in
      y ++ "-" ++ m ++ "-" ++ da
  end.

Section Rendering.

(** The conversion of a Number to a string inside a template literal,
    a parameter of the rendering: the statements below do not depend on
    the digits it produces. *)
Variable Number_toString : float -> string.

Definition weekRow (w : WeekEntry) : string :=
  "<tr><td>Week " ++ Number_toString (weekNumber w) ++ "</td><td>"
  ++ Number_toString (plannedHours w) ++ " h</td></tr>".

(** [renderPlan(plan, data)]; [formatDate(data.targetDate)] throws when
    the target date is [null]. *)
Definition renderPlan (plan : Plan) (data : TwoTier.FormData) (page : Page)
  : completion Page :=
  let startStr := formatDate (startDate plan) in
  match TwoTier.targetDate data with
  | None => Threw "TypeError"
  | Some target =>
      let targetStr := formatDate (Some target) in
      let weeksHtml := JsString.join "" (map weekRow (weeks plan)) in
      let markup :=
        JsString.join lineFeed
          [ "";
            "    <div class=" ++ quote ++ "plan-summary" ++ quote ++ ">";
            "      <p><strong>Target race:</strong> " ++ targetStr ++ "</p>";
            "      <p><strong>Plan length:</strong> "
              ++ Number_toString (TwoTier.planLengthWeeks data)
              ++ " weeks (starts " ++ startStr ++ ")</p>";
            "      <p><strong>Training days selected:</strong> "
              ++ JsString.join ", " (TwoTier.selectedDays data) ++ "</p>";
            "      <p><strong>Avg / Peak weekly hours:</strong> "
              ++ Number_toString (TwoTier.avgHours data) ++ " / "
              ++ Number_toString (TwoTier.peakHours data) ++ "</p>";
            "    </div>";
            "    <table class=" ++ quote ++ "plan-table" ++ quote
              ++ " aria-describedby=" ++ quote ++ "plan-output-heading" ++ quote ++ ">";
            "      <thead><tr><th scope=" ++ quote ++ "col" ++ quote
              ++ ">Week</th><th scope=" ++ quote ++ "col" ++ quote
              ++ ">Planned Hours</th></tr></thead>";
            "      <tbody>" ++ weeksHtml ++ "</tbody>";
            "    </table>";
            "    <p class=" ++ quote ++ "placeholder-note" ++ quote
              ++ ">Placeholder distribution. Will refine algorithm later.</p>";
            "  " ] in
      Returned (mkPage (messagesEl page)
                       (setInnerHTML markup (outputEl page))
                       (focusCalls page))
  end.

(** [Math.pow] and the time zone of the host, as in the generator. *)
Variable Math_pow : float -> float -> float.
Variable zone : JsDate.TimeZone.

(** [handleGenerate()], with the record that [collectFormData] returns
    and the clock reading of [validate] passed in. *)
Definition handleGenerate (fuel : nat) (now : JsDate.t)
           (data : TwoTier.FormData) (page : Page) : completion Page :=
  let page := clearMessages page in
  let errors := TwoTier.validate zone now data in
  if negb (List.length errors =? 0)%nat then
    Returned (showErrors errors page)
  else
    match TwoTier.buildPlaceholderPlan Math_pow zone fuel data with
    | Returned plan =>
        match renderPlan plan data page with
        | Returned page => Returned (focusMessages page)
        | Threw error => Threw error
        | OutOfFuel => OutOfFuel
        end
    | Threw error => Threw error
    | OutOfFuel => OutOfFuel
    end.

End Rendering.

End TwoTierPage.

(** *** The single-tier page ([src/app.js]) *)

Module SingleTierPage.

(** [formatDate(d)]: the same three fields, the day first. *)
Definition formatDate (d : option JsDate.t) : string :=
  match d with
  | Some d =>
      let y := JsString.ofInteger (JsDateFields.getFullYear d) in
      let m := twoDigits (JsDateFields.getMonth d + 1) in
      let da := twoDigits (JsDateFields.getDate d) in
      da ++ "-" ++ m ++ "-" ++ y
  | None =>
      let y := "NaN" in
      let m := JsString.padStart "NaN" 2 "0" in
      let da := JsString.padStart "NaN" 2 "0" in
      da ++ "-" ++ m ++ "-" ++ y
  end.

Section Rendering.

Variable Number_toString : float -> string.

Definition weekRow (w : WeekEntry) : string :=
  "<tr><td>Week " ++ Number_toString (weekNumber w) ++ "</td><td>"
  ++ Number_toString (plannedHours w) ++ " h</td></tr>".

Definition renderPlan (plan : Plan) (data : SingleTier.FormData) (page : Page)
  : completion Page :=
  let startStr := formatDate (startDate plan) in
  match SingleTier.targetDate data with
  | None => Threw "TypeError"
  | Some target =>
      let targetStr := formatDate (Some target) in
      let weeksHtml := JsString.join "" (map weekRow (weeks plan)) in
      let markup :=
        JsString.join lineFeed
          [ "";
            "    <div class=" ++ quote ++ "plan-summary" ++ quote ++ ">";
            "      <p><strong>Target race:</strong> " ++ targetStr ++ "</p>";
            "      <p><strong>Plan length:</strong> "
              ++ Number_toString (SingleTier.planLengthWeeks data)
              ++ " weeks (starts " ++ startStr ++ ")</p>";
            "      <p><strong>Training days selected:</strong> "
              ++ JsString.join ", " (SingleTier.selectedDays data) ++ "</p>";
            "      <p><strong>Avg weekly hours:</strong> "
              ++ Number_toString (SingleTier.avgHours data) ++ "</p>";
            "    </div>";
            "    <table class=" ++ quote ++ "plan-table" ++ quote
              ++ " aria-describedby=" ++ quote ++ "plan-output-heading" ++ quote ++ ">";
            "      <thead><tr><th scope=" ++ quote ++ "col" ++ quote
              ++ ">Week</th><th scope=" ++ quote ++ "col" ++ quote
              ++ ">Planned Hours</th></tr></thead>";
            "      <tbody>" ++ weeksHtml ++ "</tbody>";
            "    </table>";
            "    <p class=" ++ quote ++ "placeholder-note" ++ quote
              ++ ">All weeks use the same average weekly hours. Will refine algorithm later.</p>";
            "  " ] in
      Returned (mkPage (messagesEl page)
                       (setInnerHTML markup (outputEl page))
                       (focusCalls page))
  end.

(** The time zone of the host, as in the generator. *)
Variable zone : JsDate.TimeZone.

(** [handleGenerate()], with the record that [collectFormData] returns
    passed in; [console.log(data)] writes to the developer console and
    leaves the page as it is. *)
Definition handleGenerate (fuel : nat) (data : SingleTier.FormData)
           (page : Page) : completion Page :=
  let page := clearMessages page in
  let errors := SingleTier.validateDataInput data in
  if negb (List.length errors =? 0)%nat then
    Returned (showErrors errors page)
  else
    match SingleTier.buildPlaceholderPlan zone fuel data with
    | Returned plan =>
        match renderPlan plan data page with
        | Returned page => Returned (focusMessages page)
        | Threw error => Threw error
        | OutOfFuel => OutOfFuel
        end
    | Threw error => Threw error
    | OutOfFuel => OutOfFuel
    end.

End Rendering.

End SingleTierPage.

(** *** The instructions panel (identical in both files)

    The state the click handler of [toggleGuideBtn] reads and writes:
    [guideContent.hidden], the [aria-expanded] attribute of the button
    and its text. *)

Record Guide := mkGuide {
  hidden : bool;
  ariaExpanded : string;
  textContent : string
}.

(** [String(b)] for a boolean. *)
Definition Boolean_toString (b : bool) : string :=
  if b then "true" else "false".

Definition toggleGuide (g : Guide) : Guide :=
  let isOpen := negb (hidden g) in
  mkGuide isOpen
          (Boolean_toString (negb isOpen))
          (if isOpen then "Show instructions" else "Hide instructions").

(** ** Vocabulary of the statements on texts *)

(** How many times the character [ch] occurs in [s]. *)
Definition countChar (ch : ascii) (s : string) : nat :=
  count_occ ascii_dec (list_ascii_of_string s) ch.

Local Close Scope string_scope.

(** A decimal digit. *)
Definition isDigit (ch : ascii) : bool :=
  (48 <=? nat_of_ascii ch)%nat && (nat_of_ascii ch <=? 57)%nat.

(** A text made of decimal digits only. *)
Definition allDigits (s : string) : bool :=
  forallb isDigit (list_ascii_of_string s).


(* ================================================================== *)
(** * Part II.  Properties                                             *)
(* ================================================================== *)

(** ** Binary64 comparisons *)

Module FloatFacts.

Lemma SFcompare_refl (x : spec_float) :
  x <> S754_nan -> SFcompare x x = Some Eq.
Proof.
  destruct x as [s | s | | s m e]; simpl; intros H; try congruence.
  - destruct s; reflexivity.
  - destruct s; rewrite Z.compare_refl, Pos.compare_cont_refl; reflexivity.
Qed.

Lemma is_nan_spec (x : float) :
  PrimFloat.is_nan x = true <-> Prim2SF x = S754_nan.
Proof.
  unfold PrimFloat.is_nan. rewrite eqb_spec. unfold SFeqb. split.
  - intros H. destruct (Prim2SF x) eqn:E; try reflexivity;
      rewrite SFcompare_refl in H by congruence; discriminate.
  - intros ->. reflexivity.
Qed.

Lemma SFcompare_antisym (x y : spec_float) :
  SFcompare y x = option_map CompOpp (SFcompare x y).
Proof.
  destruct x as [sx | sx | | sx mx ex], y as [sy | sy | | sy my ey];
    simpl; try reflexivity;
    try (destruct sx; reflexivity); try (destruct sy; reflexivity);
    try (destruct sx, sy; reflexivity).
  destruct sx, sy; try reflexivity;
    rewrite (Z.compare_antisym ex ey);
    destruct (ex ?= ey); simpl; try reflexivity;
    rewrite (Pos.compare_cont_antisym mx my Eq); simpl;
    try rewrite CompOpp_involutive; reflexivity.
Qed.

(** On Numbers that are not NaN, [x <= y] is the negation of [y < x]. *)
Lemma leb_negb_ltb (x y : float) :
  PrimFloat.is_nan x = false -> PrimFloat.is_nan y = false ->
  (x <=? y)%float = negb (y <? x)%float.
Proof.
  intros Hx Hy. rewrite leb_spec, ltb_spec. unfold SFleb, SFltb.
  rewrite (SFcompare_antisym (Prim2SF x) (Prim2SF y)).
  assert (Nx : Prim2SF x <> S754_nan).
  { intros E. apply is_nan_spec in E. congruence. }
  assert (Ny : Prim2SF y <> S754_nan).
  { intros E. apply is_nan_spec in E. congruence. }
  destruct (Prim2SF x) as [sx | sx | | sx mx ex],
           (Prim2SF y) as [sy | sy | | sy my ey]; try congruence;
    simpl; try reflexivity;
    try (destruct sx; reflexivity); try (destruct sy; reflexivity);
    try (destruct sx, sy; reflexivity).
  destruct sx, sy; try reflexivity;
    destruct (ex ?= ey); simpl; try reflexivity;
    destruct (Pos.compare_cont Eq mx my); reflexivity.
Qed.

(** A comparison that succeeds has no NaN operand. *)
Lemma ltb_not_nan (x y : float) :
  (x <? y)%float = true ->
  PrimFloat.is_nan x = false /\ PrimFloat.is_nan y = false.
Proof.
  rewrite ltb_spec. unfold SFltb. intros H.
  split; apply not_true_is_false; intros E; apply is_nan_spec in E;
    rewrite E in H; simpl in H; try discriminate.
  destruct (Prim2SF x); discriminate.
Qed.

Lemma leb_not_nan (x y : float) :
  (x <=? y)%float = true ->
  PrimFloat.is_nan x = false /\ PrimFloat.is_nan y = false.
Proof.
  rewrite leb_spec. unfold SFleb. intros H.
  split; apply not_true_is_false; intros E; apply is_nan_spec in E;
    rewrite E in H; simpl in H; try discriminate.
  destruct (Prim2SF x); discriminate.
Qed.

(** IEEE equality with a finite non-zero Number is equality. *)
Lemma eqb_finite_eq (x c : float) (s : bool) (m : positive) (e : Z) :
  Prim2SF c = S754_finite s m e -> (x =? c)%float = true -> x = c.
Proof.
  intros Hc H. rewrite eqb_spec, Hc in H. apply Prim2SF_inj. rewrite Hc.
  unfold SFeqb, SFcompare in H.
  destruct (Prim2SF x) as [s' | s' | | s' m' e']; try discriminate;
    try (destruct s; discriminate); try (destruct s'; discriminate).
  destruct (e' ?= e) eqn:Ee;
    [ | destruct s', s; discriminate | destruct s', s; discriminate ].
  apply Z.compare_eq in Ee. subst e'.
  destruct (Pos.compare_cont Eq m' m) eqn:Em;
    [ | destruct s', s; discriminate | destruct s', s; discriminate ].
  apply Pos.compare_eq in Em. subst m'.
  destruct s', s; try discriminate; reflexivity.
Qed.

(** Membership in the array [[8, 12, 16]]. *)
Lemma div_nan_l (x y : float) :
  PrimFloat.is_nan x = true -> PrimFloat.is_nan (x / y) = true.
Proof.
  rewrite !is_nan_spec, div_spec. intros ->.
  destruct (Prim2SF y); reflexivity.
Qed.

Lemma includes_8_12_16 (x : float) :
  JsNumber.includes [8; 12; 16]%float x = true <->
  x = 8%float \/ x = 12%float \/ x = 16%float.
Proof.
  split.
  - unfold JsNumber.includes, JsNumber.SameValueZero. simpl.
    rewrite !andb_false_r, !orb_false_r. intros H.
    apply orb_true_iff in H. destruct H as [H | H].
    + left. now apply (eqb_finite_eq x 8 false 4503599627370496 (-49)).
    + apply orb_true_iff in H. destruct H as [H | H].
      * right; left. now apply (eqb_finite_eq x 12 false 6755399441055744 (-49)).
      * right; right. now apply (eqb_finite_eq x 16 false 4503599627370496 (-48)).
  - intros [-> | [-> | ->]]; reflexivity.
Qed.

End FloatFacts.

(** ** Binary64 rounding over the reals *)

(** *** Powers of two *)
Lemma bpow_gt_0 e : (0 < bpow e)%R.
Proof. apply powerRZ_lt. lra. Qed.

Lemma bpow_add a b : bpow (a + b) = (bpow a * bpow b)%R.
Proof. apply powerRZ_add. lra. Qed.

Lemma bpow_0 : bpow 0 = 1%R.
Proof. reflexivity. Qed.

Lemma bpow_1 : bpow 1 = 2%R.
Proof. unfold bpow. simpl. lra. Qed.

Lemma bpow_opp e : bpow (- e) = (/ bpow e)%R.
Proof. apply powerRZ_neg'. Qed.

Lemma bpow_opp_r e : (bpow e * bpow (- e))%R = 1%R.
Proof. rewrite <- bpow_add, Z.add_opp_diag_r. apply bpow_0. Qed.

Lemma bpow_IZR k : 0 <= k -> bpow k = IZR (2 ^ k).
Proof.
  intros Hk. destruct k as [ | p | p]; [ reflexivity | | lia ].
  unfold bpow. change (2 ^ Z.pos p) with (Z.pow_pos 2 p).
  now rewrite Zpower_pos_powerRZ.
Qed.

Lemma bpow_le a b : a <= b -> (bpow a <= bpow b)%R.
Proof.
  intros H. replace b with (a + (b - a)) by lia. rewrite bpow_add.
  rewrite (bpow_IZR (b - a)) by lia.
  assert (0 < 2 ^ (b - a)) by (apply Z.pow_pos_nonneg; lia).
  assert (1 <= 2 ^ (b - a)) by lia.
  apply IZR_le in H1. pose proof (bpow_gt_0 a). nra.
Qed.

Lemma bpow_lt a b : a < b -> (bpow a < bpow b)%R.
Proof.
  intros H. replace b with (a + (b - a)) by lia. rewrite bpow_add.
  rewrite (bpow_IZR (b - a)) by lia.
  assert (2 <= 2 ^ (b - a)).
  { change 2 with (2 ^ 1) at 1. apply Z.pow_le_mono_r; lia. }
  apply IZR_le in H0. pose proof (bpow_gt_0 a). nra.
Qed.

Lemma bpow_lt_inv a b : (bpow a < bpow b)%R -> a < b.
Proof.
  intros H. destruct (Z_lt_le_dec a b) as [ | Hle]; [ assumption | ].
  apply bpow_le in Hle. lra.
Qed.

Lemma F2R_bpow_shift m e k : 0 <= k -> F2R (m * 2 ^ k) (e - k) = F2R m e.
Proof.
  intros Hk. unfold F2R. rewrite mult_IZR, <- bpow_IZR by assumption.
  replace e with ((e - k) + k) at 2 by lia. rewrite (bpow_add (e - k) k). ring.
Qed.

Lemma IZR_xO p : IZR (Z.pos p~0) = (2 * IZR (Z.pos p))%R.
Proof. change (Z.pos p~0) with (2 * Z.pos p). now rewrite mult_IZR. Qed.

Lemma IZR_xI p : IZR (Z.pos p~1) = (2 * IZR (Z.pos p) + 1)%R.
Proof. change (Z.pos p~1) with (2 * Z.pos p + 1). now rewrite plus_IZR, mult_IZR. Qed.

Lemma shr_1_m mrs : 0 <= shr_m mrs -> shr_m (shr_1 mrs) = Z.div2 (shr_m mrs).
Proof.
  destruct mrs as [m r s]. cbn [shr_m]. intros Hm.
  destruct m as [ | [p | p | ] | p]; try reflexivity. lia.
Qed.

Lemma shr_1_inbetween mrs u :
  0 <= shr_m mrs -> inbetween_rec mrs u -> inbetween_rec (shr_1 mrs) (u * / 2)%R.
Proof.
  destruct mrs as [m r s]. unfold inbetween_rec. cbn [shr_m]. intros Hm.
  destruct m as [ | [p | p | ] | p]; [ | | | | lia ];
    destruct r, s; cbn [shr_1 shr_m loc_of_shr_record inbetween_int orb];
    try rewrite (IZR_xO p); try rewrite (IZR_xI p); intros H; lra.
Qed.

Lemma iter_pos_nat {A} (f : A -> A) p x :
  iter_pos f p x = Nat.iter (Pos.to_nat p) f x.
Proof.
  revert x. induction p as [p IH | p IH | ]; intros x; cbn [iter_pos].
  - rewrite !IH, Pos2Nat.inj_xI, <- Nat.iter_succ_r.
    replace (S (2 * Pos.to_nat p))%nat with (Pos.to_nat p + S (Pos.to_nat p))%nat by lia.
    rewrite Nat.iter_add. now rewrite Nat.iter_succ_r.
  - rewrite !IH, Pos2Nat.inj_xO.
    replace (2 * Pos.to_nat p)%nat with (Pos.to_nat p + Pos.to_nat p)%nat by lia.
    now rewrite Nat.iter_add.
  - reflexivity.
Qed.

Lemma shr_iter_inbetween (n : nat) mrs u :
  0 <= shr_m mrs -> inbetween_rec mrs u ->
  inbetween_rec (Nat.iter n shr_1 mrs) (u * bpow (- Z.of_nat n))%R
  /\ shr_m (Nat.iter n shr_1 mrs) = shr_m mrs / 2 ^ Z.of_nat n.
Proof.
  intros Hm Hu. induction n as [ | n [IHb IHm]].
  - cbn [Nat.iter]. change (bpow (- Z.of_nat 0)) with 1%R.
    rewrite Rmult_1_r, Z.div_1_r. now split.
  - change (Nat.iter (S n) shr_1 mrs) with (shr_1 (Nat.iter n shr_1 mrs)).
    assert (Hpos : 0 <= shr_m (Nat.iter n shr_1 mrs)).
    { rewrite IHm. apply Z.div_pos; [ assumption | ]. apply Z.pow_pos_nonneg; lia. }
    split.
    + replace (- Z.of_nat (S n)) with (- Z.of_nat n + - 1) by lia.
      rewrite bpow_add, <- Rmult_assoc.
      replace (bpow (- 1)) with (/ 2)%R
        by (unfold bpow; simpl; now rewrite Rmult_1_r).
      now apply shr_1_inbetween.
    + rewrite shr_1_m by assumption. rewrite IHm, Z.div2_div.
      rewrite Z.div_div by (try apply Z.pow_pos_nonneg; lia).
      f_equal. rewrite Nat2Z.inj_succ, Z.pow_succ_r by lia. ring.
Qed.

(** *** Binary digits and the canonical exponent *)
Lemma digits2_size p : digits2_pos p = Pos.size p.
Proof. induction p; simpl; congruence. Qed.

Lemma Zdigits2_bounds m :
  0 < m -> 2 ^ (Zdigits2 m - 1) <= m < 2 ^ Zdigits2 m.
Proof.
  destruct m as [ | p | p]; try lia. intros _. cbn [Zdigits2].
  rewrite digits2_size. split.
  - pose proof (Pos.size_le p) as H.
    assert (H' : 2 ^ Z.pos (Pos.size p) <= 2 * Z.pos p).
    { rewrite <- Pos2Z.inj_pow. change (2 * Z.pos p) with (Z.pos p~0). exact H. }
    replace (Z.pos (Pos.size p)) with (Z.succ (Z.pos (Pos.size p) - 1)) in H' by lia.
    rewrite Z.pow_succ_r in H' by lia. lia.
  - pose proof (Pos.size_gt p) as H. rewrite <- Pos2Z.inj_pow. exact H.
Qed.

Lemma Zdigits2_nonneg m : 0 <= Zdigits2 m.
Proof. destruct m; simpl; lia. Qed.

Lemma Zdigits2_pos m : 0 < m -> 0 < Zdigits2 m.
Proof. destruct m; simpl; lia. Qed.

Lemma Zdigits2_unique m d :
  2 ^ (d - 1) <= m < 2 ^ d -> 0 < m -> Zdigits2 m = d.
Proof.
  intros [Hlo Hhi] Hm. destruct (Zdigits2_bounds m Hm) as [Hlo' Hhi'].
  pose proof (Zdigits2_pos m Hm).
  assert (0 < d).
  { destruct (Z_lt_le_dec 0 d); [ assumption | ].
    destruct d as [ | p | p]; simpl in Hhi; lia. }
  assert (d - 1 < Zdigits2 m) by (apply (Z.pow_lt_mono_r_iff 2); lia).
  assert (Zdigits2 m - 1 < d) by (apply (Z.pow_lt_mono_r_iff 2); lia).
  lia.
Qed.

Lemma Zdigits2_div_pow m n :
  0 < m -> 0 <= n < Zdigits2 m ->
  0 < m / 2 ^ n /\ Zdigits2 (m / 2 ^ n) = Zdigits2 m - n.
Proof.
  intros Hm Hn. destruct (Zdigits2_bounds m Hm) as [Hlo Hhi].
  assert (Hp : 0 < 2 ^ n) by (apply Z.pow_pos_nonneg; lia).
  assert (Hlo' : 2 ^ (Zdigits2 m - n - 1) <= m / 2 ^ n).
  { apply Z.div_le_lower_bound; [ assumption | ].
    rewrite <- Z.pow_add_r by lia.
    replace (n + (Zdigits2 m - n - 1)) with (Zdigits2 m - 1) by lia. assumption. }
  assert (Hhi' : m / 2 ^ n < 2 ^ (Zdigits2 m - n)).
  { apply Z.div_lt_upper_bound; [ assumption | ].
    rewrite <- Z.pow_add_r by lia.
    replace (n + (Zdigits2 m - n)) with (Zdigits2 m) by lia. assumption. }
  assert (0 < 2 ^ (Zdigits2 m - n - 1)) by (apply Z.pow_pos_nonneg; lia).
  split; [ lia | ].
  apply Zdigits2_unique; [ | lia ]. split; [ | assumption ].
  replace (Zdigits2 m - n - 1) with (Zdigits2 m - n - 1) by lia.
  replace (Zdigits2 m - n - 1) with (Zdigits2 m - n - 1) in Hlo' by lia.
  exact Hlo'.
Qed.

Lemma div_pow_small m n :
  0 <= m -> Zdigits2 m <= n -> m / 2 ^ n = 0.
Proof.
  intros Hm Hn. destruct (Z.eq_dec m 0) as [-> | Hnz].
  - apply Z.div_0_l. pose proof (Zdigits2_nonneg 0). 
    assert (0 < 2 ^ n) by (apply Z.pow_pos_nonneg; simpl in Hn; lia). lia.
  - assert (Hpos : 0 < m) by lia.
    destruct (Zdigits2_bounds m Hpos) as [_ Hhi].
    apply Z.div_small. split; [ lia | ].
    apply Z.lt_le_trans with (1 := Hhi).
    apply Z.pow_le_mono_r; [ lia | assumption ].
Qed.

Ltac fexp_lia :=
  unfold SpecFloat.fexp, SpecFloat.emin, prec, emax in *; cbn [Zdigits2] in *; lia.

Lemma fexp_eq e : fexp e = Z.max (e - 53) (- 1074).
Proof. reflexivity. Qed.

Lemma shr_record_of_loc_m m l : shr_m (shr_record_of_loc m l) = m.
Proof. destruct l as [ | [ | | ]]; reflexivity. Qed.

Lemma loc_of_shr_record_of_loc m l :
  loc_of_shr_record (shr_record_of_loc m l) = l.
Proof. destruct l as [ | [ | | ]]; reflexivity. Qed.

Lemma shr_fexp_cbracket x m e l :
  0 <= m -> bracket x m e l -> e <= fexp (Zdigits2 m + e) ->
  cbracket x (fst (shr_fexp prec emax m e l)) (snd (shr_fexp prec emax m e l))
  /\ snd (shr_fexp prec emax m e l) = fexp (Zdigits2 m + e)
  /\ shr_m (fst (shr_fexp prec emax m e l))
     = m / 2 ^ (fexp (Zdigits2 m + e) - e).
Proof.
  intros Hm Hb He. unfold shr_fexp, shr.
  set (E := fexp (Zdigits2 m + e)) in *.
  assert (Hrec : inbetween_rec (shr_record_of_loc m l) (x * bpow (- e))%R).
  { unfold inbetween_rec. now rewrite shr_record_of_loc_m, loc_of_shr_record_of_loc. }
  assert (Hm' : 0 <= shr_m (shr_record_of_loc m l))
    by now rewrite shr_record_of_loc_m.
  destruct (E - e) as [ | p | p] eqn:En; [ | | lia ].
  - cbn [fst snd]. assert (E = e) by lia.
    rewrite shr_record_of_loc_m, Z.div_1_r.
    split; [ | split; [ congruence | reflexivity ] ].
    unfold cbracket. rewrite shr_record_of_loc_m.
    split; [ exact Hrec | ]. split; [ exact Hm | ]. unfold E in *. congruence.
  - cbn [fst snd]. rewrite iter_pos_nat.
    destruct (shr_iter_inbetween (Pos.to_nat p) _ _ Hm' Hrec) as [Hb' Hm''].
    rewrite positive_nat_Z, shr_record_of_loc_m in Hm''.
    rewrite positive_nat_Z in Hb'.
    rewrite Rmult_assoc, <- bpow_add in Hb'.
    replace (- e + - Z.pos p) with (- (e + Z.pos p)) in Hb' by lia.
    assert (HE : e + Z.pos p = E) by lia.
    split; [ | split; [ exact HE | exact Hm'' ] ].
    unfold cbracket. rewrite HE in *. split; [ exact Hb' | ].
    rewrite Hm''.
    assert (Hp2 : 0 < 2 ^ Z.pos p) by (apply Z.pow_pos_nonneg; lia).
    split; [ apply Z.div_pos; lia | ].
    destruct (Z.eq_dec m 0) as [-> | Hnz].
    + rewrite Z.div_0_l by lia. subst E. fexp_lia.
    + destruct (Z_lt_le_dec (Z.pos p) (Zdigits2 m)) as [Hlt | Hge].
      * destruct (Zdigits2_div_pow m (Z.pos p)) as [_ Hd]; [ lia | lia | ].
        rewrite Hd. unfold E. f_equal. lia.
      * rewrite div_pow_small by lia. subst E. fexp_lia.
Qed.

Lemma binary_round_aux_finish m e l :
  binary_round_aux prec emax false m e l
  = finish (fst (shr_fexp prec emax m e l)) (snd (shr_fexp prec emax m e l)).
Proof.
  unfold binary_round_aux, finish, rnd.
  destruct (shr_fexp prec emax m e l) as [mrs' e']. reflexivity.
Qed.

Lemma rnd_bounds mrs : shr_m mrs <= rnd mrs <= shr_m mrs + 1.
Proof.
  unfold rnd. destruct mrs as [m [ | ] [ | ]]; cbn; try lia.
  destruct (Z.even m); lia.
Qed.

Lemma valid_finite_iff m e :
  valid_binary (S754_finite false m e) = true
  <-> fexp (Zdigits2 (Z.pos m) + e) = e /\ e <= 971.
Proof.
  unfold SpecFloat.valid_binary, bounded, canonical_mantissa.
  rewrite andb_true_iff, Z.eqb_eq, Z.leb_le. cbn [Zdigits2]. reflexivity.
Qed.

(* integer facts about canonical mantissas *)
Lemma canonical_digits m E :
  0 <= m -> E = fexp (Zdigits2 m + E) ->
  m < 2 ^ 53 /\ - 1074 <= E /\ (- 1074 < E -> 2 ^ 52 <= m)
  /\ (m = 0 -> E = - 1074).
Proof.
  intros Hm HE.
  destruct (Z.eq_dec m 0) as [-> | Hnz].
  - cbn [Zdigits2] in HE. split; [ reflexivity | ]. fexp_lia.
  - assert (Hpos : 0 < m) by lia.
    destruct (Zdigits2_bounds m Hpos) as [Hlo Hhi].
    assert (Hd : Zdigits2 m <= 53) by fexp_lia.
    split.
    { apply Z.lt_le_trans with (1 := Hhi). apply Z.pow_le_mono_r; lia. }
    split; [ fexp_lia | ]. split; [ | lia ].
    intros HE'. assert (Zdigits2 m = 53) by fexp_lia.
    replace 52 with (Zdigits2 m - 1) by lia. exact Hlo.
Qed.

Lemma Zdigits2_le m k : 0 < m < 2 ^ k -> Zdigits2 m <= k.
Proof.
  intros [Hm Hk]. destruct (Zdigits2_bounds m Hm) as [Hlo _].
  assert (Zdigits2 m - 1 < k); [ | lia ].
  pose proof (Zdigits2_pos m Hm).
  apply (Z.pow_lt_mono_r_iff 2); try lia.
  destruct (Z_lt_le_dec k 0); [ | assumption ].
  rewrite Z.pow_neg_r in Hk; lia.
Qed.

Lemma Zdigits2_gt m k : 0 <= k -> 2 ^ k <= m -> k < Zdigits2 m.
Proof.
  intros Hk Hm.
  assert (Hpos : 0 < m).
  { assert (0 < 2 ^ k) by (apply Z.pow_pos_nonneg; lia). lia. }
  destruct (Zdigits2_bounds m Hpos) as [_ Hhi].
  apply (Z.pow_lt_mono_r_iff 2); try lia.
  pose proof (Zdigits2_pos m Hpos). lia.
Qed.

Ltac pow_consts :=
  change (2 ^ 52) with 4503599627370496 in *;
  change (2 ^ 53) with 9007199254740992 in *.

Lemma finish_ord mrs E :
  0 <= shr_m mrs -> E = fexp (Zdigits2 (shr_m mrs) + E) ->
  nonneg_valid (finish mrs E)
  /\ sford (finish mrs E) = Z.min ordTop (ordOf mrs E).
Proof.
  intros Hm HE.
  destruct (canonical_digits _ _ Hm HE) as (Hlt & Hmin & Hnorm & Hzero).
  pose proof (rnd_bounds mrs) as Hr.
  unfold finish, ordOf, shr_fexp, ordTop.
  set (mr := rnd mrs) in *.
  destruct (Z.eq_dec mr (2 ^ 53)) as [Hcarry | Hnc].
  - (* the rounded mantissa needs 54 bits *)
    rewrite Hcarry.
    change (Zdigits2 (2 ^ 53)) with 54.
    replace (fexp (54 + E) - E) with 1 by fexp_lia.
    cbn [shr shr_record_of_loc iter_pos].
    change (shr_1 {| shr_m := 2 ^ 53; shr_r := false; shr_s := false |})
      with {| shr_m := 4503599627370496; shr_r := false; shr_s := false |}.
    cbn [shr_m]. cbv iota. change (emax - prec) with 971. pow_consts.
    destruct (E + 1 <=? 971) eqn:Hb.
    + apply Z.leb_le in Hb. split.
      * cbn [nonneg_valid]. split; [ reflexivity | ].
        apply valid_finite_iff. change (Zdigits2 4503599627370496) with 53.
        split; [ fexp_lia | lia ].
      * cbn [sford]. lia.
    + apply Z.leb_gt in Hb. split; [ reflexivity | ].
      cbn [sford]. unfold ordTop. pow_consts. lia.
  - assert (Hmr : mr < 2 ^ 53) by lia.
    destruct (Z.eq_dec mr 0) as [Hz | Hnz].
    + rewrite Hz. cbn [Zdigits2]. assert (E = - 1074) by (apply Hzero; lia).
      subst E. cbn. split; reflexivity.
    + assert (Hpos : 0 < mr) by lia.
      assert (Hd : fexp (Zdigits2 mr + E) - E = 0).
      { assert (Zdigits2 mr <= 53) by (apply Zdigits2_le; lia).
        destruct (Z.eq_dec E (- 1074)) as [-> | HE'].
        - fexp_lia.
        - assert (2 ^ 52 <= mr) by lia.
          assert (52 < Zdigits2 mr) by (apply Zdigits2_gt; lia).
          fexp_lia. }
      rewrite Hd. cbn [shr shr_record_of_loc shr_m].
      destruct mr as [ | p | p] eqn:Emr; try lia.
      change (emax - prec) with 971. pow_consts.
      destruct (E <=? 971) eqn:Hb.
      * apply Z.leb_le in Hb. split.
        -- cbn [nonneg_valid]. split; [ reflexivity | ].
           apply valid_finite_iff. split; [ lia | assumption ].
        -- cbn [sford]. pow_consts. lia.
      * apply Z.leb_gt in Hb. split; [ reflexivity | ].
        cbn [sford]. unfold ordTop. pow_consts. lia.
Qed.

(** *** Rounding is monotone *)
Lemma inbetween_bounds m l u :
  inbetween_int m l u -> (IZR m <= u < IZR m + 1)%R.
Proof. destruct l as [ | [ | | ]]; cbn; lra. Qed.

Lemma rnd_mono_loc mrs mrs' u u' :
  shr_m mrs = shr_m mrs' ->
  inbetween_rec mrs u -> inbetween_rec mrs' u' -> (u <= u')%R ->
  rnd mrs <= rnd mrs'.
Proof.
  unfold inbetween_rec, rnd. intros <-.
  destruct (loc_of_shr_record mrs) as [ | [ | | ]],
           (loc_of_shr_record mrs') as [ | [ | | ]];
    cbn; intros H H' Hu; try lia; try lra;
    destruct (Z.even (shr_m mrs)); lia.
Qed.

Lemma cbracket_mono x y mrs E mrs' E' :
  cbracket x mrs E -> cbracket y mrs' E' -> (x <= y)%R ->
  ordOf mrs E <= ordOf mrs' E'.
Proof.
  intros (Hb & Hm & HE) (Hb' & Hm' & HE') Hxy.
  destruct (canonical_digits _ _ Hm HE) as (Hlt & Hmin & Hnorm & _).
  destruct (canonical_digits _ _ Hm' HE') as (Hlt' & Hmin' & Hnorm' & _).
  pose proof (rnd_bounds mrs) as Hr. pose proof (rnd_bounds mrs') as Hr'.
  pose proof (inbetween_bounds _ _ _ Hb) as Hu.
  pose proof (inbetween_bounds _ _ _ Hb') as Hu'.
  unfold ordOf.
  destruct (Z.compare_spec E E') as [Heq | Hlt_E | Hgt_E].
  - subst E'.
    assert (Hscaled : (x * bpow (- E) <= y * bpow (- E))%R).
    { pose proof (bpow_gt_0 (- E)). nra. }
    assert (Hmm : shr_m mrs <= shr_m mrs').
    { apply Z.lt_succ_r, lt_IZR. rewrite succ_IZR. lra. }
    destruct (Z.eq_dec (shr_m mrs) (shr_m mrs')) as [Hsame | Hdiff].
    + pose proof (rnd_mono_loc _ _ _ _ Hsame Hb Hb' Hscaled). lia.
    + lia.
  - specialize (Hnorm' ltac:(lia)). pow_consts. lia.
  - exfalso. specialize (Hnorm ltac:(lia)).
    assert (H1 : (bpow (52 + E) <= x)%R).
    { apply IZR_le in Hnorm. rewrite <- bpow_IZR in Hnorm by lia.
      rewrite bpow_add. pose proof (bpow_gt_0 E).
      assert (Hx : x = (x * bpow (- E) * bpow E)%R).
      { rewrite Rmult_assoc, (Rmult_comm (bpow (- E))), bpow_opp_r. ring. }
      rewrite Hx. apply Rmult_le_compat_r; lra. }
    assert (H2 : (y < bpow (53 + E'))%R).
    { assert (Hle : shr_m mrs' + 1 <= 2 ^ 53) by lia.
      apply IZR_le in Hle. rewrite plus_IZR, <- bpow_IZR in Hle by lia.
      rewrite bpow_add. pose proof (bpow_gt_0 E').
      assert (Hy : y = (y * bpow (- E') * bpow E')%R).
      { rewrite Rmult_assoc, (Rmult_comm (bpow (- E'))), bpow_opp_r. ring. }
      rewrite Hy. apply Rmult_lt_compat_r; lra. }
    assert (H3 : (bpow (53 + E') <= bpow (52 + E))%R) by (apply bpow_le; lia).
    lra.
Qed.

Lemma Rounds_ord x f :
  Rounds x f ->
  nonneg_valid f
  /\ exists mrs E, cbracket x mrs E /\ sford f = Z.min ordTop (ordOf mrs E).
Proof.
  intros (mrs & E & Hc & ->). pose proof Hc as (_ & Hm & HE).
  destruct (finish_ord mrs E Hm HE) as [Hv Ho].
  split; [ exact Hv | ]. now exists mrs, E.
Qed.

Lemma Rounds_mono x y f g :
  Rounds x f -> Rounds y g -> (x <= y)%R -> sford f <= sford g.
Proof.
  intros Hf Hg Hxy.
  destruct (Rounds_ord _ _ Hf) as (_ & mrs & E & Hc & ->).
  destruct (Rounds_ord _ _ Hg) as (_ & mrs' & E' & Hc' & ->).
  pose proof (cbracket_mono _ _ _ _ _ _ Hc Hc' Hxy). lia.
Qed.

Lemma valid_finite_facts m e :
  valid_binary (S754_finite false m e) = true ->
  e = fexp (Zdigits2 (Z.pos m) + e) /\ e <= 971
  /\ Z.pos m < 2 ^ 53 /\ - 1074 <= e /\ (- 1074 < e -> 2 ^ 52 <= Z.pos m).
Proof.
  intros Hv. apply valid_finite_iff in Hv. destruct Hv as [Hc Hb].
  symmetry in Hc.
  destruct (canonical_digits (Z.pos m) e ltac:(lia) Hc) as (H1 & H2 & H3 & _).
  tauto.
Qed.

Lemma SFcompare_ord f g :
  nonneg_valid f -> nonneg_valid g ->
  SFcompare f g = Some (sford f ?= sford g).
Proof.
  destruct f as [sf | sf | | sf mf ef], g as [sg | sg | | sg mg eg];
    cbn [nonneg_valid]; try tauto; intros Hf Hg;
    repeat match goal with
           | H : _ /\ _ |- _ => destruct H
           | H : ?s = false |- _ => subst s
           end;
    repeat match goal with
           | H : valid_binary _ = true |- _ =>
               apply valid_finite_facts in H;
               destruct H as (? & ? & ? & ? & ?)
           end;
    cbn [SFcompare sford]; unfold ordTop; pow_consts;
    try reflexivity;
    try (f_equal; symmetry;
         first [ apply Z.compare_lt_iff; lia | apply Z.compare_gt_iff; lia ]).
  f_equal. destruct (Z.compare_spec ef eg) as [Heq | Hlt | Hgt].
  - subst eg. rewrite Z.add_compare_mono_l.
    rewrite Pos.compare_cont_spec.
    change (Z.pos mf ?= Z.pos mg) with (mf ?= mg)%positive.
    now destruct (mf ?= mg)%positive.
  - symmetry. apply Z.compare_lt_iff.
    assert (4503599627370496 <= Z.pos mg)
      by (match goal with H : - 1074 < eg -> _ |- _ => apply H; lia end).
    lia.
  - symmetry. apply Z.compare_gt_iff.
    assert (4503599627370496 <= Z.pos mf)
      by (match goal with H : - 1074 < ef -> _ |- _ => apply H; lia end).
    lia.
Qed.

Lemma SFleb_ord f g :
  nonneg_valid f -> nonneg_valid g ->
  (SFleb f g = true <-> sford f <= sford g).
Proof.
  intros Hf Hg. unfold SFleb. rewrite (SFcompare_ord f g Hf Hg).
  destruct (Z.compare_spec (sford f) (sford g)); split; intros; try lia;
    try reflexivity; try discriminate.
Qed.

Lemma SFltb_ord f g :
  nonneg_valid f -> nonneg_valid g ->
  (SFltb f g = true <-> sford f < sford g).
Proof.
  intros Hf Hg. unfold SFltb. rewrite (SFcompare_ord f g Hf Hg).
  destruct (Z.compare_spec (sford f) (sford g)); split; intros; try lia;
    try reflexivity; try discriminate.
Qed.

(* a valid finite value rounds to itself *)
Lemma Rounds_exact m e :
  valid_binary (S754_finite false m e) = true ->
  Rounds (F2R (Z.pos m) e) (S754_finite false m e).
Proof.
  intros Hv. destruct (valid_finite_facts m e Hv) as (Hc & Hb & Hlt & Hmin & Hn).
  exists {| shr_m := Z.pos m; shr_r := false; shr_s := false |}, e.
  split.
  - unfold cbracket, inbetween_rec. cbn [shr_m loc_of_shr_record inbetween_int].
    split; [ | split; [ lia | exact Hc ] ].
    unfold F2R. rewrite Rmult_assoc, bpow_opp_r. ring.
  - unfold finish, rnd, shr_fexp.
    cbn [shr_m loc_of_shr_record round_nearest_even].
    replace (fexp (Zdigits2 (Z.pos m) + e) - e) with 0 by lia.
    cbn [shr shr_record_of_loc shr_m]. change (emax - prec) with 971.
    apply Z.leb_le in Hb. now rewrite Hb.
Qed.

Lemma Rounds_zero : Rounds 0 (S754_zero false).
Proof.
  exists {| shr_m := 0; shr_r := false; shr_s := false |}, (- 1074).
  split; [ | reflexivity ].
  unfold cbracket, inbetween_rec. cbn [shr_m loc_of_shr_record inbetween_int].
  split; [ ring | ]. split; [ lia | reflexivity ].
Qed.

(* the order of valid finite values is the order of the reals *)
Lemma ord_F2R_le m e m' e' :
  valid_binary (S754_finite false m e) = true ->
  valid_binary (S754_finite false m' e') = true ->
  sford (S754_finite false m e) <= sford (S754_finite false m' e') ->
  (F2R (Z.pos m) e <= F2R (Z.pos m') e')%R.
Proof.
  intros Hv Hv' Hord.
  destruct (valid_finite_facts m e Hv) as (_ & _ & Hlt & Hmin & Hn).
  destruct (valid_finite_facts m' e' Hv') as (_ & _ & Hlt' & Hmin' & Hn').
  cbn [sford] in Hord. pow_consts. unfold F2R.
  destruct (Z.compare_spec e e') as [Heq | Hlt_e | Hgt_e].
  - subst e'. assert (Hm : Z.pos m <= Z.pos m') by lia.
    apply IZR_le in Hm. pose proof (bpow_gt_0 e). nra.
  - specialize (Hn' ltac:(lia)).
    assert (H1 : (IZR (Z.pos m) * bpow e <= bpow (53 + e))%R).
    { rewrite bpow_add, (bpow_IZR 53) by lia.
      apply Rmult_le_compat_r; [ pose proof (bpow_gt_0 e); lra | ].
      apply IZR_le. change (2 ^ 53) with 9007199254740992. lia. }
    assert (H2 : (bpow (52 + e') <= IZR (Z.pos m') * bpow e')%R).
    { rewrite bpow_add, (bpow_IZR 52) by lia.
      apply Rmult_le_compat_r; [ pose proof (bpow_gt_0 e'); lra | ].
      apply IZR_le. change (2 ^ 52) with 4503599627370496. lia. }
    assert (H3 : (bpow (53 + e) <= bpow (52 + e'))%R) by (apply bpow_le; lia).
    lra.
  - specialize (Hn ltac:(lia)). lia.
Qed.

(** *** The operations round the exact result *)
Lemma binary_round_aux_Rounds x m e l :
  0 <= m -> bracket x m e l -> e <= fexp (Zdigits2 m + e) ->
  Rounds x (binary_round_aux prec emax false m e l).
Proof.
  intros Hm Hb He. rewrite binary_round_aux_finish.
  destruct (shr_fexp_cbracket x m e l Hm Hb He) as (Hc & _ & _).
  eexists _, _. split; [ exact Hc | reflexivity ].
Qed.

Lemma bracket_exact m e : bracket (F2R m e) m e loc_Exact.
Proof.
  unfold bracket, F2R. cbn [inbetween_int].
  rewrite Rmult_assoc, bpow_opp_r. ring.
Qed.

Lemma iter_xO m d : Z.pos (Pos.iter xO m d) = Z.pos m * 2 ^ Z.pos d.
Proof.
  induction d as [ | d IH] using Pos.peano_ind.
  - cbn [Pos.iter]. rewrite Pos2Z.inj_xO. change (2 ^ 1) with 2. ring.
  - rewrite Pos.iter_succ, Pos2Z.inj_xO, IH, Pos2Z.inj_succ.
    rewrite Z.pow_succ_r by lia. ring.
Qed.

Lemma shl_align_spec mx ex ex' :
  snd (shl_align mx ex ex') = Z.min ex ex'
  /\ Z.pos (fst (shl_align mx ex ex'))
     = Z.pos mx * 2 ^ (ex - Z.min ex ex').
Proof.
  unfold shl_align. destruct (ex' - ex) as [ | d | d] eqn:Ed; cbn [fst snd].
  - replace (Z.min ex ex') with ex by lia. rewrite Z.sub_diag. split; lia.
  - replace (Z.min ex ex') with ex by lia. rewrite Z.sub_diag. split; lia.
  - replace (Z.min ex ex') with ex' by lia. split; [ reflexivity | ].
    rewrite iter_xO. do 2 f_equal. lia.
Qed.

Lemma Zdigits2_mul_pow m k :
  0 < m -> 0 <= k -> Zdigits2 (m * 2 ^ k) = Zdigits2 m + k.
Proof.
  intros Hm Hk. destruct (Zdigits2_bounds m Hm) as [Hlo Hhi].
  pose proof (Zdigits2_pos m Hm) as Hd.
  assert (Hp : 0 < 2 ^ k) by (apply Z.pow_pos_nonneg; lia).
  apply Zdigits2_unique; [ | nia ].
  replace (Zdigits2 m + k - 1) with ((Zdigits2 m - 1) + k) by lia.
  rewrite !Z.pow_add_r by lia. nia.
Qed.

Lemma binary_round_Rounds m e :
  Rounds (F2R (Z.pos m) e) (binary_round prec emax false m e).
Proof.
  unfold binary_round.
  destruct (shl_align_spec m e (fexp (Z.pos (digits2_pos m) + e))) as [He Hm].
  destruct (shl_align m e (fexp (Z.pos (digits2_pos m) + e))) as [mz ez].
  cbn [fst snd] in He, Hm.
  change (Z.pos (digits2_pos m)) with (Zdigits2 (Z.pos m)) in *.
  assert (Hk : 0 <= e - ez) by lia.
  apply binary_round_aux_Rounds; [ lia | | ].
  - replace (F2R (Z.pos m) e) with (F2R (Z.pos mz) ez);
      [ apply bracket_exact | ].
    rewrite Hm, <- He.
    rewrite <- (F2R_bpow_shift (Z.pos m) e (e - ez)) by lia.
    f_equal. lia.
  - rewrite Hm, <- He, Zdigits2_mul_pow by lia.
    replace (Zdigits2 (Z.pos m) + (e - ez) + ez)
      with (Zdigits2 (Z.pos m) + e) by lia.
    lia.
Qed.

Lemma nnf_nonneg_valid f : nnf f -> nonneg_valid f.
Proof. destruct f; cbn; tauto. Qed.

Lemma SF2R_nonneg f : nnf f -> (0 <= SF2R f)%R.
Proof.
  destruct f as [s | s | | s m e]; cbn; try lra; try tauto.
  intros [-> _]. unfold F2R. pose proof (bpow_gt_0 e).
  assert (0 < IZR (Z.pos m))%R by (apply IZR_lt; lia). nra.
Qed.

Lemma Rounds_nnf f : nnf f -> Rounds (SF2R f) f.
Proof.
  destruct f as [s | s | | s m e]; cbn [nnf SF2R]; try tauto.
  - intros ->. apply Rounds_zero.
  - intros [-> Hv]. now apply Rounds_exact.
Qed.

Lemma SFmul_Rounds x y :
  nnf x -> nnf y -> Rounds (SF2R x * SF2R y) (SF64mul x y).
Proof.
  destruct x as [sx | sx | | sx mx ex], y as [sy | sy | | sy my ey];
    cbn [nnf]; try tauto; intros Hx Hy;
    repeat match goal with
           | H : _ /\ _ |- _ => destruct H
           | H : ?s = false |- _ => subst s
           end;
    cbn [SF2R SF64mul SFmul xorb];
    rewrite ?Rmult_0_l, ?Rmult_0_r; try apply Rounds_zero.
  match goal with
  | Hvx : valid_binary (S754_finite false mx ex) = true,
    Hvy : valid_binary (S754_finite false my ey) = true |- _ =>
      destruct (valid_finite_facts _ _ Hvx) as (Hcx & _);
      destruct (valid_finite_facts _ _ Hvy) as (Hcy & _)
  end.
  apply binary_round_aux_Rounds; [ lia | | ].
  - replace (F2R (Z.pos mx) ex * F2R (Z.pos my) ey)%R
      with (F2R (Z.pos (mx * my)) (ex + ey)); [ apply bracket_exact | ].
    unfold F2R. rewrite Pos2Z.inj_mul, mult_IZR, bpow_add. ring.
  - assert (Hd : Zdigits2 (Z.pos mx) + Zdigits2 (Z.pos my) - 1
                 <= Zdigits2 (Z.pos (mx * my))).
    { destruct (Zdigits2_bounds (Z.pos mx) ltac:(lia)) as [Hlx _].
      destruct (Zdigits2_bounds (Z.pos my) ltac:(lia)) as [Hly _].
      pose proof (Zdigits2_pos (Z.pos mx) ltac:(lia)).
      pose proof (Zdigits2_pos (Z.pos my) ltac:(lia)).
      assert (Zdigits2 (Z.pos mx) - 1 + (Zdigits2 (Z.pos my) - 1)
              < Zdigits2 (Z.pos (mx * my))); [ | lia ].
      apply Zdigits2_gt; [ lia | ].
      rewrite Z.pow_add_r, Pos2Z.inj_mul by lia.
      apply Z.mul_le_mono_nonneg; try assumption;
        apply Z.pow_nonneg; lia. }
    pose proof (Zdigits2_pos (Z.pos mx) ltac:(lia)).
    pose proof (Zdigits2_pos (Z.pos my) ltac:(lia)).
    fexp_lia.
Qed.

Lemma F2R_align m e ez :
  ez <= e -> F2R (Z.pos (fst (shl_align m e ez))) ez = F2R (Z.pos m) e.
Proof.
  intros Hle. destruct (shl_align_spec m e ez) as [_ Hm]. rewrite Hm.
  replace (Z.min e ez) with ez by lia.
  rewrite <- (F2R_bpow_shift (Z.pos m) e (e - ez)) by lia.
  f_equal. lia.
Qed.

Lemma F2R_plus a b e : F2R (a + b) e = (F2R a e + F2R b e)%R.
Proof. unfold F2R. rewrite plus_IZR. ring. Qed.

Lemma F2R_minus a b e : F2R (a - b) e = (F2R a e - F2R b e)%R.
Proof. unfold F2R. rewrite minus_IZR. ring. Qed.

Lemma binary_normalize_Rounds m e :
  0 <= m -> Rounds (F2R m e) (binary_normalize prec emax m e false).
Proof.
  intros Hm. destruct m as [ | p | p]; [ | | lia ]; cbn [binary_normalize].
  - unfold F2R. rewrite Rmult_0_l. apply Rounds_zero.
  - apply binary_round_Rounds.
Qed.

Lemma SFadd_Rounds x y :
  nnf x -> nnf y -> Rounds (SF2R x + SF2R y) (SF64add x y).
Proof.
  intros Hx Hy.
  destruct x as [sx | sx | | sx mx ex]; cbn [nnf] in Hx; try tauto;
    destruct y as [sy | sy | | sy my ey]; cbn [nnf] in Hy; try tauto.
  - subst. cbn. rewrite Rplus_0_l. apply Rounds_zero.
  - subst sx. destruct Hy as [-> Hy]. cbn [SF64add SFadd SF2R].
    rewrite Rplus_0_l. now apply Rounds_exact.
  - subst sy. destruct Hx as [-> Hx]. cbn [SF64add SFadd SF2R].
    rewrite Rplus_0_r. now apply Rounds_exact.
  - destruct Hx as [-> Hx], Hy as [-> Hy]. cbn [SF64add SFadd SF2R cond_Zopp].
    rewrite <- (F2R_align mx ex (Z.min ex ey)) by lia.
    rewrite <- (F2R_align my ey (Z.min ex ey)) by lia.
    rewrite <- F2R_plus. apply binary_normalize_Rounds. lia.
Qed.

Lemma SFsub_Rounds x y :
  nnf x -> nnf y -> (SF2R y <= SF2R x)%R ->
  Rounds (SF2R x - SF2R y) (SF64sub x y).
Proof.
  intros Hx Hy Hle.
  destruct x as [sx | sx | | sx mx ex]; cbn [nnf] in Hx; try tauto;
    destruct y as [sy | sy | | sy my ey]; cbn [nnf] in Hy; try tauto.
  - subst. cbn. rewrite Rminus_0_r. apply Rounds_zero.
  - exfalso. destruct Hy as [-> Hy]. cbn [SF2R] in Hle.
    unfold F2R in Hle. pose proof (bpow_gt_0 ey).
    assert (0 < IZR (Z.pos my))%R by (apply IZR_lt; lia). nra.
  - subst sy. destruct Hx as [-> Hx]. cbn [SF64sub SFsub SF2R].
    rewrite Rminus_0_r. now apply Rounds_exact.
  - destruct Hx as [-> Hx], Hy as [-> Hy]. cbn [SF64sub SFsub SF2R cond_Zopp] in *.
    rewrite <- (F2R_align mx ex (Z.min ex ey)) in * by lia.
    rewrite <- (F2R_align my ey (Z.min ex ey)) in * by lia.
    rewrite <- F2R_minus. apply binary_normalize_Rounds.
    unfold F2R in Hle. pose proof (bpow_gt_0 (Z.min ex ey)).
    apply Zle_minus_le_0, le_IZR. nra.
Qed.

(** *** Division *)
Lemma new_location_inbetween q nb k :
  0 < nb -> 0 <= k < nb ->
  inbetween_int q (new_location nb k) (IZR q + IZR k / IZR nb)%R.
Proof.
  intros Hnb [Hk0 Hk].
  assert (Hnb' : (0 < IZR nb)%R) by (apply IZR_lt; lia).
  set (t := (IZR k / IZR nb)%R).
  assert (Ht : (t * IZR nb = IZR k)%R) by (unfold t; field; lra).
  assert (Ht1 : (t < 1)%R).
  { apply IZR_lt in Hk. nra. }
  unfold new_location.
  destruct (Z.even nb) eqn:Ev.
  - unfold new_location_even. destruct (Z.eqb_spec k 0) as [-> | Hnz].
    + cbn. assert (t = 0)%R by nra. lra.
    + assert (0 < IZR k)%R by (apply IZR_lt; lia).
      destruct (Z.compare_spec (2 * k) nb) as [He | Hl | Hg]; cbn.
      * apply (f_equal IZR) in He. rewrite mult_IZR in He. nra.
      * apply IZR_lt in Hl. rewrite mult_IZR in Hl. nra.
      * apply IZR_lt in Hg. rewrite mult_IZR in Hg. nra.
  - unfold new_location_odd. destruct (Z.eqb_spec k 0) as [-> | Hnz].
    + cbn. assert (t = 0)%R by nra. lra.
    + assert (0 < IZR k)%R by (apply IZR_lt; lia).
      assert (Hodd : 2 * k <> nb).
      { intros <-. rewrite Z.even_mul in Ev. discriminate. }
      destruct (Z.compare_spec (2 * k + 1) nb) as [He | Hl | Hg]; cbn.
      * assert (Hl : 2 * k < nb) by lia.
        apply IZR_lt in Hl. rewrite mult_IZR in Hl. nra.
      * assert (Hl' : 2 * k < nb) by lia.
        apply IZR_lt in Hl'. rewrite mult_IZR in Hl'. nra.
      * assert (Hg' : nb < 2 * k) by lia.
        apply IZR_lt in Hg'. rewrite mult_IZR in Hg'. nra.
Qed.

Lemma SFdiv_core_spec m1 e1 m2 e2 :
  0 < m1 -> 0 < m2 ->
  let '(q, e', l) := SFdiv_core_binary prec emax m1 e1 m2 e2 in
  0 <= q
  /\ bracket (F2R m1 e1 / F2R m2 e2) q e' l
  /\ e' <= fexp (Zdigits2 q + e').
Proof.
  intros Hm1 Hm2. unfold SFdiv_core_binary.
  set (M := Zdigits2 m1 + e1 - (Zdigits2 m2 + e2)).
  set (e' := Z.min (fexp M) (e1 - e2)).
  set (s := e1 - e2 - e').
  assert (Hs : 0 <= s) by (unfold s, e'; lia).
  set (m' := match s with Z.pos _ => Z.shiftl m1 s | 0 => m1 | Z.neg _ => 0 end).
  assert (Hm' : m' = m1 * 2 ^ s).
  { unfold m'. destruct s as [ | p | p]; [ cbn; lia | | lia ].
    apply Z.shiftl_mul_pow2. lia. }
  assert (Hp : 0 < 2 ^ s) by (apply Z.pow_pos_nonneg; lia).
  pose proof (Z_div_mod m' m2 ltac:(lia)) as Hdiv.
  destruct (Z.div_eucl m' m2) as [q r]. destruct Hdiv as [Heq Hr].
  assert (Hq : 0 <= q) by nia.
  split; [ exact Hq | ]. split.
  - unfold bracket.
    assert (Hu : (F2R m1 e1 / F2R m2 e2 * bpow (- e')
                  = IZR q + IZR r / IZR m2)%R).
    { unfold F2R.
      assert (Hb : bpow e1 = (bpow s * bpow e2 * bpow e')%R).
      { rewrite <- !bpow_add. f_equal. unfold s. lia. }
      assert (Hm2' : (0 < IZR m2)%R) by (apply IZR_lt; lia).
      pose proof (bpow_gt_0 e2). pose proof (bpow_gt_0 e').
      rewrite Hb, bpow_opp.
      apply (f_equal IZR) in Heq.
      rewrite Hm', plus_IZR, !mult_IZR, <- bpow_IZR in Heq by lia.
      field_simplify; try lra. rewrite Heq. field. lra. }
    rewrite Hu. apply new_location_inbetween; lia.
  - destruct (Z_le_gt_dec e' (- 1074)) as [Hsmall | Hbig]; [ fexp_lia | ].
    assert (HM : e' <= M - 53) by (unfold e' in *; fexp_lia).
    destruct (Zdigits2_bounds m1 Hm1) as [Hlo1 _].
    destruct (Zdigits2_bounds m2 Hm2) as [_ Hhi2].
    pose proof (Zdigits2_pos m1 Hm1). pose proof (Zdigits2_pos m2 Hm2).
    assert (Hq52 : 2 ^ 52 <= q).
    { assert (Hle : m2 * 2 ^ 52 <= m').
      { rewrite Hm'.
        apply Z.le_trans with (2 ^ Zdigits2 m2 * 2 ^ 52);
          [ apply Z.mul_le_mono_nonneg_r; [ apply Z.pow_nonneg | ]; lia | ].
        apply Z.le_trans with (2 ^ (Zdigits2 m1 - 1) * 2 ^ s);
          [ | apply Z.mul_le_mono_nonneg_r; lia ].
        rewrite <- !Z.pow_add_r by lia.
        apply Z.pow_le_mono_r; [ lia | ]. unfold s, M in *. lia. }
      assert (m2 * 2 ^ 52 < m2 * (q + 1)) by nia.
      assert (2 ^ 52 < q + 1) by (apply (Z.mul_lt_mono_pos_l m2); lia).
      lia. }
    assert (52 < Zdigits2 q) by (apply Zdigits2_gt; lia).
    fexp_lia.
Qed.

Lemma SFdiv_Rounds x my ey :
  nnf x -> valid_binary (S754_finite false my ey) = true ->
  Rounds (SF2R x / F2R (Z.pos my) ey) (SF64div x (S754_finite false my ey)).
Proof.
  intros Hx Hy.
  destruct x as [sx | sx | | sx mx ex]; cbn [nnf] in Hx; try tauto.
  - subst sx. cbn. unfold Rdiv. rewrite Rmult_0_l. apply Rounds_zero.
  - destruct Hx as [-> Hx]. cbn [SF64div SFdiv SF2R xorb].
    pose proof (SFdiv_core_spec (Z.pos mx) ex (Z.pos my) ey
                                ltac:(lia) ltac:(lia)) as Hcore.
    destruct (SFdiv_core_binary prec emax (Z.pos mx) ex (Z.pos my) ey)
      as [[q e'] l].
    destruct Hcore as (Hq & Hb & He).
    now apply binary_round_aux_Rounds.
Qed.

Lemma nf_nn a : nf a -> nn a.
Proof. apply nnf_nonneg_valid. Qed.

Lemma nn_cases a : nn a -> nf a \/ Prim2SF a = S754_infinity false.
Proof.
  unfold nn, nf. destruct (Prim2SF a) as [s | s | | s m e]; cbn; try tauto.
  intros ->. now right.
Qed.

Lemma nn_sign a s m e : Prim2SF a = S754_finite s m e -> s = false -> nf a.
Proof.
  intros E ->. unfold nf. rewrite E. cbn [nnf]. split; [ reflexivity | ].
  rewrite <- E. apply Prim2SF_valid.
Qed.

Lemma sford_range f : nonneg_valid f -> 0 <= sford f <= ordTop.
Proof.
  destruct f as [s | s | | s m e]; cbn [nonneg_valid sford]; try tauto;
    unfold ordTop; pow_consts; try lia.
  intros [-> Hv]. destruct (valid_finite_facts _ _ Hv) as (_ & ? & ? & ? & _).
  lia.
Qed.

Lemma sford_nnf f : nnf f -> 0 <= sford f < ordTop.
Proof.
  destruct f as [s | s | | s m e]; cbn [nnf sford]; try tauto;
    unfold ordTop; pow_consts; try lia.
  intros [-> Hv]. destruct (valid_finite_facts _ _ Hv) as (_ & ? & ? & ? & _).
  lia.
Qed.

Lemma sford_top f : nonneg_valid f -> sford f = ordTop -> f = S754_infinity false.
Proof.
  intros Hv Ho. destruct f as [s | s | | s m e]; cbn [nonneg_valid] in Hv.
  - cbn in Ho. unfold ordTop in Ho. pow_consts. lia.
  - now subst s.
  - tauto.
  - pose proof (sford_nnf (S754_finite s m e) Hv). lia.
Qed.

Lemma sford_zero f : nonneg_valid f -> sford f = 0 -> f = S754_zero false.
Proof.
  intros Hv Ho. destruct f as [s | s | | s m e]; cbn [nonneg_valid] in Hv.
  - now subst s.
  - cbn in Ho. unfold ordTop in Ho. pow_consts. lia.
  - tauto.
  - destruct Hv as [-> Hv].
    destruct (valid_finite_facts _ _ Hv) as (_ & ? & ? & ? & _).
    cbn in Ho. pow_consts. lia.
Qed.

Lemma leb_ford a b :
  nn a -> nn b -> ((a <=? b)%float = true <-> ford a <= ford b).
Proof. intros Ha Hb. rewrite FloatAxioms.leb_spec. now apply SFleb_ord. Qed.

Lemma ltb_ford a b :
  nn a -> nn b -> ((a <? b)%float = true <-> ford a < ford b).
Proof. intros Ha Hb. rewrite FloatAxioms.ltb_spec. now apply SFltb_ord. Qed.

Lemma eqb_ford a b :
  nn a -> nn b -> ((a =? b)%float = true <-> ford a = ford b).
Proof.
  intros Ha Hb. rewrite FloatAxioms.eqb_spec. unfold SFeqb.
  rewrite (SFcompare_ord _ _ Ha Hb). unfold ford.
  destruct (Z.compare_spec (sford (Prim2SF a)) (sford (Prim2SF b)));
    split; intros; try lia; try reflexivity; try discriminate.
Qed.

Lemma Rounds_nn x c : Rounds x (Prim2SF c) -> nn c.
Proof. intros H. apply (Rounds_ord _ _ H). Qed.

Lemma nf_Rounds a : nf a -> Rounds (B2R a) (Prim2SF a).
Proof. apply Rounds_nnf. Qed.

Lemma B2R_nonneg a : nf a -> (0 <= B2R a)%R.
Proof. apply SF2R_nonneg. Qed.

Lemma nnf_SF2R_le f g :
  nnf f -> nnf g -> sford f <= sford g -> (SF2R f <= SF2R g)%R.
Proof.
  intros Hf Hg Ho.
  destruct f as [sf | sf | | sf mf ef]; cbn [nnf] in Hf; try tauto;
    destruct g as [sg | sg | | sg mg eg]; cbn [nnf] in Hg; try tauto.
  - cbn. lra.
  - apply (SF2R_nonneg (S754_finite sg mg eg)). exact Hg.
  - exfalso. destruct Hf as [-> Hf].
    destruct (valid_finite_facts _ _ Hf) as (_ & ? & ? & ? & _).
    cbn in Ho. pow_consts. lia.
  - destruct Hf as [-> Hf], Hg as [-> Hg]. now apply ord_F2R_le.
Qed.

Lemma nf_B2R_le a b : nf a -> nf b -> ford a <= ford b -> (B2R a <= B2R b)%R.
Proof. apply nnf_SF2R_le. Qed.

(* a real inequality between the exact results gives the order of the
   rounded results *)
Lemma Rounds_le x y a b :
  Rounds x (Prim2SF a) -> Rounds y (Prim2SF b) -> (x <= y)%R ->
  (a <=? b)%float = true.
Proof.
  intros Ha Hb Hxy. apply leb_ford; try (eapply Rounds_nn; eassumption).
  now apply (Rounds_mono x y).
Qed.

Lemma flt_0_nn a : (0 <? a)%float = true -> nn a /\ 0 < ford a.
Proof.
  intros H. rewrite FloatAxioms.ltb_spec in H. unfold nn, ford.
  pose proof (Prim2SF_valid a) as Hv.
  change (Prim2SF 0) with (S754_zero false) in H. unfold SFltb in H.
  destruct (Prim2SF a) as [s | s | | s m e]; cbn in H; try discriminate.
  - destruct s; [ discriminate | ]. split; [ reflexivity | ].
    cbn. unfold ordTop. pow_consts. lia.
  - destruct s; [ discriminate | ]. split; [ now split | ].
    destruct (valid_finite_facts _ _ Hv) as (_ & ? & ? & ? & _).
    cbn. pow_consts. lia.
Qed.

Lemma nf_positive_finite b :
  nf b -> 0 < ford b ->
  exists m e, Prim2SF b = S754_finite false m e
              /\ valid_binary (S754_finite false m e) = true.
Proof.
  unfold nf, ford. destruct (Prim2SF b) as [s | s | | s m e]; cbn; try tauto.
  - intros _ H. lia.
  - intros [-> Hv] _. now exists m, e.
Qed.

Lemma mul_Rounds a b :
  nf a -> nf b -> Rounds (B2R a * B2R b) (Prim2SF (a * b)).
Proof. intros Ha Hb. rewrite mul_spec. now apply SFmul_Rounds. Qed.

Lemma add_Rounds a b :
  nf a -> nf b -> Rounds (B2R a + B2R b) (Prim2SF (a + b)).
Proof. intros Ha Hb. rewrite add_spec. now apply SFadd_Rounds. Qed.

Lemma sub_Rounds a b :
  nf a -> nf b -> (B2R b <= B2R a)%R ->
  Rounds (B2R a - B2R b) (Prim2SF (a - b)).
Proof. intros Ha Hb Hle. rewrite sub_spec. now apply SFsub_Rounds. Qed.

Lemma div_Rounds a b :
  nf a -> nf b -> 0 < ford b ->
  Rounds (B2R a / B2R b) (Prim2SF (a / b)).
Proof.
  intros Ha Hb Hpos. rewrite div_spec. unfold B2R.
  destruct (nf_positive_finite b Hb Hpos) as (m & e & -> & Hv).
  now apply SFdiv_Rounds.
Qed.

Lemma mul_inf_l a b :
  Prim2SF a = S754_infinity false -> nf b -> 0 < ford b ->
  Prim2SF (a * b) = S754_infinity false.
Proof.
  intros Ha Hb Hpos. rewrite mul_spec, Ha.
  destruct (nf_positive_finite b Hb Hpos) as (m & e & -> & _). reflexivity.
Qed.

Lemma div_inf_l a b :
  Prim2SF a = S754_infinity false -> nf b -> 0 < ford b ->
  Prim2SF (a / b) = S754_infinity false.
Proof.
  intros Ha Hb Hpos. rewrite div_spec, Ha.
  destruct (nf_positive_finite b Hb Hpos) as (m & e & -> & _). reflexivity.
Qed.

Lemma nn_inf a : Prim2SF a = S754_infinity false -> nn a /\ ford a = ordTop.
Proof. unfold nn, ford. intros ->. split; reflexivity. Qed.

Lemma nn_ford_range a : nn a -> 0 <= ford a <= ordTop.
Proof. apply sford_range. Qed.

Lemma nf_ford_range a : nf a -> 0 <= ford a < ordTop.
Proof. apply sford_nnf. Qed.

Lemma nn_below_top a : nn a -> ford a < ordTop -> nf a.
Proof.
  intros Ha Hlt. destruct (nn_cases a Ha) as [ | Hinf]; [ assumption | ].
  destruct (nn_inf a Hinf). lia.
Qed.

(* multiplication is monotone on the non-negative numbers *)
Lemma mul_mono a a' b b' :
  nn a -> nn a' -> nf b -> nf b' -> 0 < ford b ->
  ford a <= ford a' -> ford b <= ford b' ->
  nn (a * b) /\ nn (a' * b') /\ ford (a * b) <= ford (a' * b').
Proof.
  intros Ha Ha' Hb Hb' Hpos Haa Hbb.
  assert (Hpos' : 0 < ford b') by lia.
  assert (Hnn : forall x y, nn x -> nf y -> 0 < ford y -> nn (x * y)).
  { intros x y Hx Hy Hy0. destruct (nn_cases x Hx) as [Hf | Hinf].
    - apply (Rounds_nn _ _ (mul_Rounds x y Hf Hy)).
    - apply nn_inf. now apply mul_inf_l. }
  split; [ now apply Hnn | ]. split; [ now apply Hnn | ].
  destruct (nn_cases a' Ha') as [Hf' | Hinf'].
  - assert (Hf : nf a).
    { apply nn_below_top; [ assumption | ].
      pose proof (nf_ford_range a' Hf'). lia. }
    apply (Rounds_mono (B2R a * B2R b) (B2R a' * B2R b'));
      try now apply mul_Rounds.
    pose proof (nf_B2R_le a a' Hf Hf' Haa).
    pose proof (nf_B2R_le b b' Hb Hb' Hbb).
    pose proof (B2R_nonneg a Hf). pose proof (B2R_nonneg b Hb). nra.
  - destruct (nn_inf _ (mul_inf_l a' b' Hinf' Hb' Hpos')) as [_ ->].
    apply nn_ford_range. now apply Hnn.
Qed.

(* division by a positive finite number is monotone *)
Lemma div_mono a a' b :
  nn a -> nn a' -> nf b -> 0 < ford b -> ford a <= ford a' ->
  nn (a / b) /\ nn (a' / b) /\ ford (a / b) <= ford (a' / b).
Proof.
  intros Ha Ha' Hb Hpos Haa.
  assert (Hnn : forall x, nn x -> nn (x / b)).
  { intros x Hx. destruct (nn_cases x Hx) as [Hf | Hinf].
    - apply (Rounds_nn _ _ (div_Rounds x b Hf Hb Hpos)).
    - apply nn_inf. now apply div_inf_l. }
  split; [ now apply Hnn | ]. split; [ now apply Hnn | ].
  destruct (nn_cases a' Ha') as [Hf' | Hinf'].
  - assert (Hf : nf a).
    { apply nn_below_top; [ assumption | ].
      pose proof (nf_ford_range a' Hf'). lia. }
    apply (Rounds_mono (B2R a / B2R b) (B2R a' / B2R b));
      try now apply div_Rounds.
    pose proof (nf_B2R_le a a' Hf Hf' Haa).
    assert (Hb0 : (0 < B2R b)%R).
    { destruct (nf_positive_finite b Hb Hpos) as (m & e & E & _).
      unfold B2R. rewrite E. cbn. unfold F2R. pose proof (bpow_gt_0 e).
      assert (0 < IZR (Z.pos m))%R by (apply IZR_lt; lia). nra. }
    unfold Rdiv. apply Rmult_le_compat_r; [ | assumption ].
    apply Rlt_le, Rinv_0_lt_compat. exact Hb0.
  - destruct (nn_inf _ (div_inf_l a' b Hinf' Hb Hpos)) as [_ ->].
    apply nn_ford_range. now apply Hnn.
Qed.

(** *** [Math.round] *)

Lemma nonneg_valid_valid f : nonneg_valid f -> valid_binary f = true.
Proof. destruct f; cbn [nonneg_valid]; try tauto; reflexivity. Qed.

Lemma of_Z_Rounds n :
  0 <= n ->
  Rounds (IZR n) (Prim2SF (JsNumber.of_Z n)).
Proof.
  intros Hn. unfold JsNumber.of_Z.
  pose proof (binary_normalize_Rounds n 0 Hn) as Hr.
  replace (F2R n 0) with (IZR n) in Hr
    by (unfold F2R; rewrite bpow_0; ring).
  rewrite Prim2SF_SF2Prim; [ exact Hr | ].
  apply nonneg_valid_valid. apply (Rounds_ord _ _ Hr).
Qed.

Lemma roundZ_nonneg f : nnf f -> 0 <= roundZ f.
Proof.
  destruct f as [s | s | | s m e]; cbn [nnf roundZ]; try tauto; try lia.
  intros [-> _]. cbn [JsNumber.signed].
  destruct (0 <=? e) eqn:He.
  - apply Z.leb_le in He. apply Z.mul_nonneg_nonneg; [ lia | ].
    apply Z.pow_nonneg. lia.
  - apply Z.shiftl_nonneg.
    assert (0 <= Z.shiftl 1 (- e)) by (apply Z.shiftl_nonneg; lia). lia.
Qed.

Lemma Math_round_Rounds a :
  nf a -> Rounds (IZR (roundZ (Prim2SF a))) (Prim2SF (JsNumber.Math_round a)).
Proof.
  intros Ha. pose proof (roundZ_nonneg _ Ha) as Hnn.
  unfold JsNumber.Math_round. unfold nf in Ha.
  destruct (Prim2SF a) as [s | s | | s m e] eqn:E; cbn [nnf] in Ha; try tauto.
  - subst s. rewrite E. apply Rounds_zero.
  - destruct Ha as [-> Hv]. cbn [roundZ] in *.
    destruct (0 <=? e) eqn:He.
    + rewrite E. apply Z.leb_le in He.
      replace (IZR (JsNumber.signed false m * 2 ^ e))
        with (F2R (Z.pos m) e); [ now apply Rounds_exact | ].
      unfold F2R. cbn [JsNumber.signed]. now rewrite mult_IZR, bpow_IZR.
    + cbv zeta.
      destruct (Z.eqb_spec (Z.shiftl (2 * JsNumber.signed false m
                                      + Z.shiftl 1 (- e)) (e - 1)) 0)
        as [Hz | Hnz].
      * rewrite Hz. apply Rounds_zero.
      * now apply of_Z_Rounds.
Qed.

Lemma roundZ_floor f : nnf f -> roundZ f = Zfloor (SF2R f + / 2).
Proof.
  intros Hf. symmetry. apply Zfloor_eq.
  destruct f as [s | s | | s m e]; cbn [nnf roundZ SF2R] in *; try tauto.
  - lra.
  - destruct Hf as [-> _]. cbn [JsNumber.signed].
    destruct (0 <=? e) eqn:He.
    + apply Z.leb_le in He. unfold F2R.
      rewrite mult_IZR, <- bpow_IZR by assumption. lra.
    + apply Z.leb_gt in He.
      set (k := - e). assert (Hk : 0 < k) by (unfold k; lia).
      replace (e - 1) with (- (k + 1)) by (unfold k; lia).
      rewrite (Z.shiftl_mul_pow2 1 k) by lia. rewrite Z.mul_1_l.
      rewrite <- Z.shiftr_opp_r, Z.opp_involutive.
      rewrite Z.shiftr_div_pow2 by lia.
      assert (Hp : 0 < 2 ^ (k + 1)) by (apply Z.pow_pos_nonneg; lia).
      pose proof (Z_div_mod_eq_full (2 * Z.pos m + 2 ^ k) (2 ^ (k + 1))) as Hd.
      pose proof (Z.mod_pos_bound (2 * Z.pos m + 2 ^ k) (2 ^ (k + 1)) Hp) as Hr.
      set (q := (2 * Z.pos m + 2 ^ k) / 2 ^ (k + 1)) in *.
      set (r := (2 * Z.pos m + 2 ^ k) mod 2 ^ (k + 1)) in *.
      assert (Hx : (F2R (Z.pos m) e * IZR (2 ^ (k + 1))
                    = 2 * IZR (Z.pos m))%R).
      { unfold F2R. rewrite <- bpow_IZR by lia. rewrite Rmult_assoc.
        rewrite <- bpow_add. replace (e + (k + 1)) with 1 by (unfold k; lia).
        rewrite bpow_1. ring. }
      assert (Hpk : (IZR (2 ^ (k + 1)) = 2 * IZR (2 ^ k))%R).
      { rewrite Z.pow_add_r by lia. rewrite mult_IZR.
        change (2 ^ 1) with 2. ring. }
      apply (f_equal IZR) in Hd.
      rewrite !plus_IZR, !mult_IZR in Hd.
      destruct Hr as [Hr0 Hr1]. apply IZR_le in Hr0. apply IZR_lt in Hr1.
      assert (Hp' : (0 < IZR (2 ^ (k + 1)))%R) by (apply IZR_lt; lia).
      split.
      * apply Rmult_le_reg_r with (IZR (2 ^ (k + 1))); [ exact Hp' | ].
        rewrite Rmult_plus_distr_r, Hx. lra.
      * apply Rmult_lt_reg_r with (IZR (2 ^ (k + 1))); [ exact Hp' | ].
        rewrite !Rmult_plus_distr_r, Hx. lra.
Qed.

Lemma is_nan_nn a : nn a -> PrimFloat.is_nan a = false.
Proof.
  unfold nn, PrimFloat.is_nan. rewrite FloatAxioms.eqb_spec. unfold SFeqb.
  intros Ha. rewrite (SFcompare_ord _ _ Ha Ha), Z.compare_refl. reflexivity.
Qed.

Lemma Math_round_mono a b :
  nn a -> nn b -> ford a <= ford b ->
  nn (JsNumber.Math_round a) /\ nn (JsNumber.Math_round b)
  /\ ford (JsNumber.Math_round a) <= ford (JsNumber.Math_round b).
Proof.
  intros Ha Hb Hab.
  assert (Hinf : forall x, Prim2SF x = S754_infinity false ->
                           JsNumber.Math_round x = x).
  { intros x E. unfold JsNumber.Math_round. now rewrite E. }
  assert (Hnn : forall x, nn x -> nn (JsNumber.Math_round x)).
  { intros x Hx. destruct (nn_cases x Hx) as [Hf | Hi].
    - apply (Rounds_nn _ _ (Math_round_Rounds x Hf)).
    - now rewrite Hinf. }
  split; [ now apply Hnn | ]. split; [ now apply Hnn | ].
  destruct (nn_cases b Hb) as [Hf' | Hi'].
  - assert (Hf : nf a).
    { apply nn_below_top; [ assumption | ].
      pose proof (nf_ford_range b Hf'). lia. }
    apply (Rounds_mono (IZR (roundZ (Prim2SF a))) (IZR (roundZ (Prim2SF b))));
      try now apply Math_round_Rounds.
    apply IZR_le. rewrite !roundZ_floor by assumption.
    apply Zfloor_le. pose proof (nf_B2R_le a b Hf Hf' Hab). unfold B2R in *. lra.
  - rewrite (Hinf b Hi'). destruct (nn_inf b Hi') as [_ ->].
    apply nn_ford_range. now apply Hnn.
Qed.

Lemma nf_10 : nf 10 /\ 0 < ford 10.
Proof. split; [ | reflexivity ]. now apply (nn_sign 10 false 5629499534213120 (- 49)). Qed.

Lemma round1_mono a b :
  nn a -> nn b -> ford a <= ford b ->
  nn (round1 a) /\ nn (round1 b) /\ ford (round1 a) <= ford (round1 b).
Proof.
  intros Ha Hb Hab. destruct nf_10 as [H10 H10'].
  destruct (mul_mono a b 10 10 Ha Hb H10 H10 H10' Hab (Z.le_refl _))
    as (H1 & H2 & H3).
  destruct (Math_round_mono _ _ H1 H2 H3) as (H4 & H5 & H6).
  apply (div_mono _ _ 10 H4 H5 H10 H10' H6).
Qed.

Lemma get_sign_nn a : nn a -> get_sign a = false.
Proof.
  intros Ha. unfold get_sign, is_zero.
  assert (H0 : nn zero) by reflexivity.
  destruct (a =? zero)%float eqn:Ez.
  - apply (eqb_ford a zero Ha H0) in Ez.
    assert (Hz : Prim2SF a = S754_zero false) by (apply sford_zero; assumption).
    assert (Hi : Prim2SF (one / a) = S754_infinity false).
    { rewrite div_spec, Hz. reflexivity. }
    apply not_true_is_false. intros Hlt.
    apply (ltb_ford _ zero (proj1 (nn_inf _ Hi)) H0) in Hlt.
    destruct (nn_inf _ Hi) as [_ Ho]. rewrite Ho in Hlt.
    change (ford zero) with 0 in Hlt. unfold ordTop in Hlt. pow_consts. lia.
  - apply not_true_is_false. intros Hlt.
    apply (ltb_ford a zero Ha H0) in Hlt.
    pose proof (nn_ford_range a Ha). change (ford zero) with 0 in Hlt. lia.
Qed.

Lemma Math_max_nn a b :
  nn a -> nn b ->
  nn (JsNumber.Math_max a b)
  /\ ford (JsNumber.Math_max a b) = Z.max (ford a) (ford b).
Proof.
  intros Ha Hb. unfold JsNumber.Math_max.
  rewrite (is_nan_nn a Ha), (is_nan_nn b Hb). cbn [orb].
  destruct (a <? b)%float eqn:Hab.
  - apply (ltb_ford a b Ha Hb) in Hab. split; [ assumption | lia ].
  - assert (Hge : ford b <= ford a).
    { destruct (Z_lt_le_dec (ford a) (ford b)) as [Hlt | ]; [ | assumption ].
      apply (ltb_ford a b Ha Hb) in Hlt. congruence. }
    rewrite (get_sign_nn a Ha).
    destruct (b <? a)%float; (split; [ assumption | lia ]).
Qed.

(** *** The value of a rounded result *)
Lemma finish_value mrs E :
  0 <= shr_m mrs -> E = fexp (Zdigits2 (shr_m mrs) + E) ->
  sford (finish mrs E) < ordTop ->
  nnf (finish mrs E) /\ SF2R (finish mrs E) = F2R (rnd mrs) E /\ E <= 971.
Proof.
  intros Hm HE.
  destruct (canonical_digits _ _ Hm HE) as (Hlt & Hmin & Hnorm & Hzero).
  pose proof (rnd_bounds mrs) as Hr.
  unfold finish, shr_fexp, ordTop.
  set (mr := rnd mrs) in *.
  destruct (Z.eq_dec mr (2 ^ 53)) as [Hcarry | Hnc].
  - rewrite Hcarry.
    change (Zdigits2 (2 ^ 53)) with 54.
    replace (fexp (54 + E) - E) with 1 by fexp_lia.
    cbn [shr shr_record_of_loc iter_pos].
    change (shr_1 {| shr_m := 2 ^ 53; shr_r := false; shr_s := false |})
      with {| shr_m := 4503599627370496; shr_r := false; shr_s := false |}.
    cbn [shr_m]. cbv iota. change (emax - prec) with 971.
    destruct (E + 1 <=? 971) eqn:Hb.
    + apply Z.leb_le in Hb. intros _. split; [ | split; [ | lia ] ].
      * cbn [nnf]. split; [ reflexivity | ].
        apply valid_finite_iff. change (Zdigits2 4503599627370496) with 53.
        split; [ fexp_lia | lia ].
      * cbn [SF2R]. change 4503599627370496 with (2 ^ 52).
        rewrite <- (F2R_bpow_shift (2 ^ 52) (E + 1) 1) by lia.
        f_equal. lia.
    + cbn [sford]. unfold ordTop. lia.
  - assert (Hmr : mr < 2 ^ 53) by lia.
    destruct (Z.eq_dec mr 0) as [Hz | Hnz].
    + rewrite Hz. cbn [Zdigits2]. assert (E = - 1074) by (apply Hzero; lia).
      subst E. cbn. intros _. split; [ reflexivity | ].
      split; [ unfold F2R; ring | lia ].
    + assert (Hpos : 0 < mr) by lia.
      assert (Hd : fexp (Zdigits2 mr + E) - E = 0).
      { assert (Zdigits2 mr <= 53) by (apply Zdigits2_le; lia).
        destruct (Z.eq_dec E (- 1074)) as [-> | HE'].
        - fexp_lia.
        - assert (2 ^ 52 <= mr) by lia.
          assert (52 < Zdigits2 mr) by (apply Zdigits2_gt; lia).
          fexp_lia. }
      rewrite Hd. cbn [shr shr_record_of_loc shr_m].
      destruct mr as [ | p | p] eqn:Emr; try lia.
      change (emax - prec) with 971.
      destruct (E <=? 971) eqn:Hb.
      * apply Z.leb_le in Hb. intros _. split; [ | split; [ reflexivity | lia ] ].
        cbn [nnf]. split; [ reflexivity | ].
        apply valid_finite_iff. split; [ lia | assumption ].
      * cbn [sford]. unfold ordTop. lia.
Qed.

(* every finite value is a multiple of the smallest positive one *)
Lemma nnf_multiple f :
  nnf f -> exists K : Z, SF2R f = (IZR K * bpow (- 1074))%R.
Proof.
  destruct f as [s | s | | s m e]; cbn [nnf SF2R]; try tauto.
  - intros _. exists 0. ring.
  - intros [-> Hv]. destruct (valid_finite_facts _ _ Hv) as (_ & _ & _ & He & _).
    exists (Z.pos m * 2 ^ (e + 1074)).
    rewrite <- (F2R_bpow_shift (Z.pos m) e (e + 1074)) by lia.
    unfold F2R. do 2 f_equal. lia.
Qed.

Lemma inbetween_integer m l K :
  inbetween_int m l (IZR K) -> K = m /\ l = loc_Exact.
Proof.
  intros H. pose proof (inbetween_bounds _ _ _ H) as [H1 H2].
  assert (K = m).
  { apply le_IZR in H1. rewrite <- plus_IZR in H2. apply lt_IZR in H2. lia. }
  subst K. split; [ reflexivity | ].
  destruct l as [ | [ | | ]]; cbn in H; try reflexivity; lra.
Qed.

(* a rounded value scaled by a factor of at most 15/16 is below a
   representable value that does not exceed the exact one *)
Lemma Rounds_scaled x f T :
  Rounds x f -> sford f < ordTop ->
  (exists K : Z, x = (IZR K * bpow (- 1074))%R) ->
  (0 <= T <= 15 / 16)%R ->
  exists g, nnf g /\ (SF2R f * T <= SF2R g <= x)%R.
Proof.
  intros (mrs & E & Hc & ->) Hfin (K & HK) HT.
  destruct Hc as (Hb & Hm & HE).
  destruct (finish_value mrs E Hm HE Hfin) as (Hnnf & Hval & HE971).
  destruct (canonical_digits _ _ Hm HE) as (Hlt & Hmin & Hnorm & _).
  pose proof (rnd_bounds mrs) as Hr.
  pose proof (inbetween_bounds _ _ _ Hb) as [Hlo _].
  pose proof (bpow_gt_0 E) as HbE.
  assert (Hx : x = (x * bpow (- E) * bpow E)%R).
  { rewrite Rmult_assoc, (Rmult_comm (bpow (- E))), bpow_opp_r. ring. }
  assert (Hdown : (F2R (shr_m mrs) E <= x)%R).
  { unfold F2R. rewrite Hx. apply Rmult_le_compat_r; lra. }
  destruct (Z_le_gt_dec 15 (shr_m mrs)) as [Hbig | Hsmall].
  - destruct (shr_m mrs) as [ | mt | mt] eqn:Emt; try lia.
    exists (S754_finite false mt E). split; [ | split ].
    + cbn [nnf]. split; [ reflexivity | ].
      apply valid_finite_iff. split; [ now rewrite <- HE | assumption ].
    + rewrite Hval. cbn [SF2R]. unfold F2R.
      assert (Hr' : (IZR (rnd mrs) <= IZR (Z.pos mt) + 1)%R).
      { rewrite <- plus_IZR. apply IZR_le. lia. }
      assert (H15 : (15 <= IZR (Z.pos mt))%R) by (apply IZR_le; lia).
      assert (H0 : (0 <= IZR (rnd mrs))%R) by (apply IZR_le; lia).
      assert (H1 : (IZR (rnd mrs) * T <= IZR (Z.pos mt))%R) by nra.
      replace (IZR (rnd mrs) * bpow E * T)%R
        with (IZR (rnd mrs) * T * bpow E)%R by ring.
      apply Rmult_le_compat_r; lra.
    + exact Hdown.
  - assert (HE' : E = - 1074).
    { destruct (Z.eq_dec E (- 1074)); [ assumption | ].
      specialize (Hnorm ltac:(lia)). pow_consts. lia. }
    subst E.
    assert (Hu : (x * bpow (- - 1074))%R = IZR K).
    { rewrite HK, Rmult_assoc, bpow_opp_r. ring. }
    unfold inbetween_rec in Hb. rewrite Hu in Hb.
    destruct (inbetween_integer _ _ _ Hb) as [HKm Hl].
    assert (Hrnd : rnd mrs = shr_m mrs) by (unfold rnd; now rewrite Hl).
    exists (finish mrs (- 1074)). split; [ exact Hnnf | ].
    rewrite Hval, Hrnd.
    assert (HxF : x = F2R (shr_m mrs) (- 1074)).
    { unfold F2R. rewrite HK, HKm. reflexivity. }
    rewrite <- HxF.
    assert (0 <= x)%R.
    { rewrite HxF. unfold F2R. apply Rmult_le_pos; [ apply IZR_le; lia | lra ]. }
    split; [ nra | lra ].
Qed.

Lemma B2R_15_16 : B2R 0.9375 = (15 / 16)%R.
Proof.
  unfold B2R. change (Prim2SF 0.9375) with (S754_finite false 8444249301319680 (- 53)).
  cbn [SF2R]. change 8444249301319680%Z with (15 * 2 ^ 49).
  change (- 53) with (- 4 - 49).
  rewrite F2R_bpow_shift by lia. unfold F2R, bpow. simpl. lra.
Qed.

(* the linear ramp stays between its end points *)
Lemma ramp_bounds avg peak t :
  nf avg -> nf peak -> ford avg <= ford peak ->
  nf t -> ford t <= ford 0.9375 ->
  nf (avg + (peak - avg) * t)
  /\ ford avg <= ford (avg + (peak - avg) * t) <= ford peak.
Proof.
  intros Ha Hp Hap Ht Ht'.
  pose proof (nf_B2R_le avg peak Ha Hp Hap) as HAP.
  pose proof (B2R_nonneg avg Ha) as HA0.
  assert (HT : (0 <= B2R t <= 15 / 16)%R).
  { split; [ now apply B2R_nonneg | ].
    rewrite <- B2R_15_16. apply nf_B2R_le; try assumption.
    now apply (nn_sign 0.9375 false 8444249301319680 (- 53)). }
  (* d = peak - avg *)
  pose proof (sub_Rounds peak avg Hp Ha HAP) as Hd.
  assert (Hdp : ford (peak - avg) <= ford peak).
  { apply (Rounds_mono _ _ _ _ Hd (nf_Rounds peak Hp)). lra. }
  assert (Hdf : nf (peak - avg)).
  { apply nn_below_top; [ apply (Rounds_nn _ _ Hd) | ].
    pose proof (nf_ford_range peak Hp). lia. }
  assert (Hmult : exists K : Z,
             (B2R peak - B2R avg)%R = (IZR K * bpow (- 1074))%R).
  { destruct (nnf_multiple _ Hp) as [Kp HKp].
    destruct (nnf_multiple _ Ha) as [Ka HKa].
    exists (Kp - Ka). unfold B2R. rewrite HKp, HKa, minus_IZR. ring. }
  destruct (Rounds_scaled _ _ (B2R t) Hd
              ltac:(pose proof (nf_ford_range _ Hdf); unfold ford in *; lia)
              Hmult HT) as (g & Hg & Hg1 & Hg2).
  (* m = d * t *)
  pose proof (mul_Rounds (peak - avg) t Hdf Ht) as Hm.
  assert (Hmg : sford (Prim2SF ((peak - avg) * t)) <= sford g).
  { apply (Rounds_mono _ _ _ _ Hm (Rounds_nnf g Hg)). exact Hg1. }
  assert (Hmf : nf ((peak - avg) * t)).
  { apply nn_below_top; [ apply (Rounds_nn _ _ Hm) | ].
    pose proof (sford_nnf g Hg). unfold ford. lia. }
  assert (HM : (B2R ((peak - avg) * t) <= B2R peak - B2R avg)%R).
  { pose proof (nnf_SF2R_le _ g Hmf Hg Hmg). unfold B2R in *. lra. }
  pose proof (B2R_nonneg _ Hmf) as HM0.
  (* r = avg + m *)
  pose proof (add_Rounds avg _ Ha Hmf) as Hr.
  assert (Hrp : ford (avg + (peak - avg) * t) <= ford peak).
  { apply (Rounds_mono _ _ _ _ Hr (nf_Rounds peak Hp)). lra. }
  assert (Har : ford avg <= ford (avg + (peak - avg) * t)).
  { apply (Rounds_mono _ _ _ _ (nf_Rounds avg Ha) Hr). lra. }
  split; [ | lia ].
  apply nn_below_top; [ apply (Rounds_nn _ _ Hr) | ].
  pose proof (nf_ford_range peak Hp). lia.
Qed.

(* the ramp starts exactly at the average *)
Lemma ramp_start avg peak :
  nf avg -> nf peak -> ford avg <= ford peak ->
  (avg + (peak - avg) * 0)%float = avg.
Proof.
  intros Ha Hp Hap.
  pose proof (nf_B2R_le avg peak Ha Hp Hap) as HAP.
  pose proof (B2R_nonneg avg Ha) as HA0.
  pose proof (sub_Rounds peak avg Hp Ha HAP) as Hd.
  assert (Hdp : ford (peak - avg) <= ford peak).
  { apply (Rounds_mono _ _ _ _ Hd (nf_Rounds peak Hp)). lra. }
  assert (Hdf : nf (peak - avg)).
  { apply nn_below_top; [ apply (Rounds_nn _ _ Hd) | ].
    pose proof (nf_ford_range peak Hp). lia. }
  assert (Hz : Prim2SF ((peak - avg) * 0) = S754_zero false).
  { rewrite mul_spec. change (Prim2SF 0) with (S754_zero false).
    unfold nf in Hdf.
    destruct (Prim2SF (peak - avg)) as [s | s | | s m e]; cbn [nnf] in Hdf;
      try tauto.
    - now subst s.
    - destruct Hdf as [-> _]. reflexivity. }
  apply Prim2SF_inj. rewrite add_spec, Hz.
  unfold nf in Ha.
  destruct (Prim2SF avg) as [s | s | | s m e]; cbn [nnf] in Ha; try tauto;
    try (subst s; reflexivity); reflexivity.
Qed.

(* finiteness *)
Lemma is_finite_nf a : nn a -> PrimFloat.is_finite a = true -> nf a.
Proof.
  intros Ha Hfin. destruct (nn_cases a Ha) as [ | Hinf]; [ assumption | ].
  exfalso. unfold PrimFloat.is_finite, is_infinity in Hfin.
  assert (Habs : (abs a =? infinity)%float = true).
  { rewrite FloatAxioms.eqb_spec, abs_spec, Hinf. reflexivity. }
  rewrite Habs, orb_true_r in Hfin. discriminate.
Qed.

Lemma nf_is_finite a : nf a -> PrimFloat.is_finite a = true.
Proof.
  intros Ha. unfold PrimFloat.is_finite, is_infinity.
  rewrite (is_nan_nn a (nf_nn a Ha)). cbn [orb].
  rewrite FloatAxioms.eqb_spec, abs_spec. unfold nf in Ha.
  destruct (Prim2SF a) as [s | s | | s m e]; cbn [nnf] in Ha; try tauto;
    reflexivity.
Qed.

(* comparisons as stated on Numbers *)
Lemma leb_nn_ford a b :
  nn a -> nn b -> (a <=? b)%float = true -> ford a <= ford b.
Proof. intros Ha Hb. apply leb_ford; assumption. Qed.

Lemma ford_leb a b :
  nn a -> nn b -> ford a <= ford b -> (a <=? b)%float = true.
Proof. intros Ha Hb. apply leb_ford; assumption. Qed.

(** ** The calendar *)

Lemma DayFromYear_succ (y : Z) :
  JsCalendar.DayFromYear (y + 1)
  = JsCalendar.DayFromYear y + JsCalendar.DaysInYear y.
Proof.
  unfold JsCalendar.DayFromYear, JsCalendar.DaysInYear.
  destruct (Z.eqb_spec (y mod 4) 0), (Z.eqb_spec (y mod 100) 0),
    (Z.eqb_spec (y mod 400) 0); cbn [negb];
    Z.div_mod_to_equations; lia.
Qed.

Lemma DaysInYear_cases (y : Z) :
  JsCalendar.DaysInYear y = 365 \/ JsCalendar.DaysInYear y = 366.
Proof.
  unfold JsCalendar.DaysInYear.
  destruct (y mod 4 =? 0), (y mod 100 =? 0), (y mod 400 =? 0); cbn; tauto.
Qed.

Lemma DayFromYear_mono (y y' : Z) :
  y <= y' -> JsCalendar.DayFromYear y <= JsCalendar.DayFromYear y'.
Proof.
  intros H. unfold JsCalendar.DayFromYear. Z.div_mod_to_equations. lia.
Qed.

(** [YearFromDay] meets ECMAScript's definition of [YearFromTime]: the
    year it returns starts on or before the day, and the next year
    starts after it. *)
Lemma YearFromDay_spec (day : Z) :
  JsCalendar.DayFromYear (JsCalendar.YearFromDay day) <= day
  < JsCalendar.DayFromYear (JsCalendar.YearFromDay day + 1).
Proof.
  rewrite DayFromYear_succ.
  unfold JsCalendar.YearFromDay.
  change (JsCalendar.DayFromYear 1601) with (- 134774). cbv zeta.
  set (n := day - - 134774).
  set (y := 1601 + 400 * (n / 146097)
            + 100 * Z.min (n mod 146097 / 36524) 3
            + 4 * ((n mod 146097 - Z.min (n mod 146097 / 36524) 3 * 36524)
                   / 1461)
            + Z.min ((n mod 146097
                      - Z.min (n mod 146097 / 36524) 3 * 36524)
                     mod 1461 / 365) 3).
  unfold JsCalendar.DayFromYear, JsCalendar.DaysInYear.
  destruct (Z.eqb_spec (y mod 4) 0), (Z.eqb_spec (y mod 100) 0),
    (Z.eqb_spec (y mod 400) 0); cbn [negb];
    subst y n; Z.div_mod_to_equations; lia.
Qed.

Lemma YearFromDay_unique (day y : Z) :
  JsCalendar.DayFromYear y <= day < JsCalendar.DayFromYear (y + 1) ->
  JsCalendar.YearFromDay day = y.
Proof.
  intros H. pose proof (YearFromDay_spec day) as Hs.
  destruct (Z.lt_trichotomy (JsCalendar.YearFromDay day) y) as [Hlt | [ | Hgt]];
    [ | assumption | ].
  - pose proof (DayFromYear_mono (JsCalendar.YearFromDay day + 1) y). lia.
  - pose proof (DayFromYear_mono (y + 1) (JsCalendar.YearFromDay day)). lia.
Qed.

Lemma DayWithinYear_range (day : Z) :
  0 <= JsCalendar.DayWithinYear day
  < 365 + JsCalendar.InLeapYear day.
Proof.
  pose proof (YearFromDay_spec day) as Hs.
  rewrite DayFromYear_succ in Hs.
  unfold JsCalendar.DayWithinYear, JsCalendar.InLeapYear.
  destruct (DaysInYear_cases (JsCalendar.YearFromDay day)) as [E | E];
    rewrite E in *; cbn; lia.
Qed.

Lemma InLeapYear_cases (day : Z) :
  JsCalendar.InLeapYear day = 0 \/ JsCalendar.InLeapYear day = 1.
Proof.
  unfold JsCalendar.InLeapYear.
  destruct (JsCalendar.DaysInYear _ =? 366); tauto.
Qed.

(** The month and the day of the month, with the day within the year
    they stand for. *)
Lemma month_date_facts (day : Z) :
  let m := JsCalendar.MonthFromDay day in
  let dt := JsCalendar.DateFromDay day in
  0 <= m <= 11 /\ 1 <= dt <= 31
  /\ JsCalendar.DayWithinYear day
     = JsCalendar.monthStart m (JsCalendar.InLeapYear day) + dt - 1.
Proof.
  cbv zeta. pose proof (DayWithinYear_range day) as Hr.
  unfold JsCalendar.DateFromDay, JsCalendar.MonthFromDay.
  set (d := JsCalendar.DayWithinYear day) in *.
  set (leap := JsCalendar.InLeapYear day) in *.
  assert (Hl : leap = 0 \/ leap = 1) by apply InLeapYear_cases.
  repeat match goal with
         | |- context [if ?a <? ?b then _ else _] =>
             destruct (Z.ltb_spec a b)
         end; cbn [JsCalendar.monthStart]; lia.
Qed.

Lemma MakeDay_fields (day k : Z) :
  JsCalendar.MakeDay (JsCalendar.YearFromDay day)
                     (JsCalendar.MonthFromDay day)
                     (JsCalendar.DateFromDay day - k)
  = day - k.
Proof.
  destruct (month_date_facts day) as (Hm & _ & Hd).
  unfold JsCalendar.MakeDay.
  rewrite Z.div_small, Z.mod_small, Z.add_0_r by lia.
  fold (JsCalendar.InLeapYear day).
  unfold JsCalendar.DayWithinYear in Hd. lia.
Qed.

(** [MakeDay] meets ECMAScript's definition: the day it counts from is
    the first day of the month [month mod 12] of the year
    [year + floor (month / 12)]. *)
Lemma MakeDay_first_of_month (year month : Z) :
  let day := JsCalendar.MakeDay year month 1 in
  JsCalendar.YearFromDay day = year + month / 12
  /\ JsCalendar.MonthFromDay day = month mod 12
  /\ JsCalendar.DateFromDay day = 1.
Proof.
  cbv zeta. unfold JsCalendar.MakeDay.
  set (ym := year + month / 12). set (mn := month mod 12).
  assert (Hmn : 0 <= mn <= 11)
    by (pose proof (Z.mod_pos_bound month 12 ltac:(lia)); unfold mn; lia).
  clearbody mn.
  set (leap := if JsCalendar.DaysInYear ym =? 366 then 1 else 0).
  assert (Hl : (leap = 0 /\ JsCalendar.DaysInYear ym = 365)
               \/ (leap = 1 /\ JsCalendar.DaysInYear ym = 366)).
  { unfold leap. destruct (DaysInYear_cases ym) as [E | E]; rewrite E; cbn; tauto. }
  clearbody leap.
  replace (JsCalendar.DayFromYear ym + JsCalendar.monthStart mn leap + 1 - 1)
    with (JsCalendar.DayFromYear ym + JsCalendar.monthStart mn leap) by lia.
  set (day := JsCalendar.DayFromYear ym + JsCalendar.monthStart mn leap).
  assert (Hstart : 0 <= JsCalendar.monthStart mn leap <= 334 + leap).
  { assert (Hc : mn = 0 \/ mn = 1 \/ mn = 2 \/ mn = 3 \/ mn = 4 \/ mn = 5
                 \/ mn = 6 \/ mn = 7 \/ mn = 8 \/ mn = 9 \/ mn = 10 \/ mn = 11)
      by lia.
    repeat (destruct Hc as [-> | Hc]); try subst mn;
      cbn [JsCalendar.monthStart]; lia. }
  assert (Hy : JsCalendar.YearFromDay day = ym).
  { apply YearFromDay_unique. rewrite DayFromYear_succ. unfold day. lia. }
  assert (Hleap : JsCalendar.InLeapYear day = leap).
  { unfold JsCalendar.InLeapYear. rewrite Hy.
    destruct Hl as [[-> ->] | [-> ->]]; reflexivity. }
  assert (Hw : JsCalendar.DayWithinYear day = JsCalendar.monthStart mn leap).
  { unfold JsCalendar.DayWithinYear. rewrite Hy. unfold day. lia. }
  split; [ exact Hy | ].
  unfold JsCalendar.DateFromDay, JsCalendar.MonthFromDay.
  rewrite Hleap, Hw.
  assert (Hc : mn = 0 \/ mn = 1 \/ mn = 2 \/ mn = 3 \/ mn = 4 \/ mn = 5
               \/ mn = 6 \/ mn = 7 \/ mn = 8 \/ mn = 9 \/ mn = 10 \/ mn = 11)
    by lia.
  clear Hy Hleap Hw Hstart day.
  destruct Hl as [[-> _] | [-> _]];
    repeat (destruct Hc as [-> | Hc]); try subst mn; split; reflexivity.
Qed.

(** ** Dates: fields, construction and text *)

Lemma Day_MakeDate_0 (day : Z) : JsDate.Day (JsDate.MakeDate day 0) = day.
Proof.
  unfold JsDate.Day, JsDate.MakeDate, JsDate.msPerDay.
  rewrite Z.add_0_r. apply Z.div_mul. lia.
Qed.

Lemma monthStart_shift (m leap leap' : Z) :
  0 <= m <= 11 -> (leap = 0 \/ leap = 1) -> (leap' = 0 \/ leap' = 1) ->
  (m <= 1 /\ JsCalendar.monthStart m leap' = JsCalendar.monthStart m leap
   /\ JsCalendar.monthStart m leap <= 31)
  \/ (2 <= m /\ JsCalendar.monthStart m leap'
                = JsCalendar.monthStart m leap - leap + leap'
      /\ 59 <= JsCalendar.monthStart m leap - leap).
Proof.
  intros Hm Hl Hl'.
  assert (Hc : m = 0 \/ m = 1 \/ m = 2 \/ m = 3 \/ m = 4 \/ m = 5 \/ m = 6
               \/ m = 7 \/ m = 8 \/ m = 9 \/ m = 10 \/ m = 11) by lia.
  repeat (destruct Hc as [-> | Hc]); try subst m; cbn [JsCalendar.monthStart]; lia.
Qed.

Lemma ofFields_of_own_fields (d : JsDate.t) :
  ~ 0 <= JsDateFields.getFullYear d <= 99 ->
  JsDateFields.ofFields (JsDateFields.getFullYear d) (JsDateFields.getMonth d)
                        (JsDateFields.getDate d)
  = JsDate.atMidnight d.
Proof.
  unfold JsDateFields.ofFields, JsDateFields.getFullYear,
    JsDateFields.getMonth, JsDateFields.getDate.
  set (day := JsDate.Day (JsDate.timeValue d)). intros Hy.
  assert (Hc : (0 <=? JsCalendar.YearFromDay day)
               && (JsCalendar.YearFromDay day <=? 99) = false).
  { apply andb_false_iff. rewrite Z.leb_gt, Z.leb_gt. lia. }
  rewrite Hc. unfold JsDate.atMidnight. fold day.
  pose proof (MakeDay_fields day 0) as H. rewrite !Z.sub_0_r in H.
  now rewrite H.
Qed.

(** X4.  The local midnight that the [Date] constructor computes in
    [validate] from a date's own year, month and day of the month is the
    start of the same calendar day, unless the year lies between 0 and
    99: the [Date] constructor reads such a year as a year of the
    twentieth century, and the date built is in the year [1900 + y]. *)
Theorem midnight_from_own_fields (d : JsDate.t) :
  let y := JsDateFields.getFullYear d in
  let built :=
    JsDateFields.ofFields y (JsDateFields.getMonth d) (JsDateFields.getDate d) in
  (~ 0 <= y <= 99 -> built = JsDate.atMidnight d)
  /\ (0 <= y <= 99 -> JsDateFields.getFullYear built = 1900 + y).
Proof.
  cbv zeta. split; [ apply ofFields_of_own_fields | ].
  unfold JsDateFields.ofFields, JsDateFields.getFullYear,
    JsDateFields.getMonth, JsDateFields.getDate.
  set (day := JsDate.Day (JsDate.timeValue d)).
  intros Hy.
  - assert (Hc : (0 <=? JsCalendar.YearFromDay day)
                 && (JsCalendar.YearFromDay day <=? 99) = true).
    { apply andb_true_iff. rewrite !Z.leb_le. lia. }
    rewrite Hc. cbn [JsDate.timeValue]. rewrite Day_MakeDate_0.
    apply YearFromDay_unique. rewrite DayFromYear_succ.
    destruct (month_date_facts day) as (Hm & Hd & Hw).
    pose proof (DayWithinYear_range day) as Hr.
    unfold JsCalendar.MakeDay.
    rewrite Z.div_small, Z.mod_small, Z.add_0_r by lia.
    set (y' := 1900 + JsCalendar.YearFromDay day).
    set (leap' := if JsCalendar.DaysInYear y' =? 366 then 1 else 0).
    assert (Hl' : (leap' = 0 /\ JsCalendar.DaysInYear y' = 365)
                  \/ (leap' = 1 /\ JsCalendar.DaysInYear y' = 366)).
    { unfold leap'. destruct (DaysInYear_cases y') as [E | E]; rewrite E; cbn; tauto. }
    destruct (monthStart_shift (JsCalendar.MonthFromDay day)
                               (JsCalendar.InLeapYear day) leap' Hm
                               (InLeapYear_cases day) ltac:(lia))
      as [(H1 & H2 & H3) | (H1 & H2 & H3)]; lia.
Qed.

Lemma midnight_from_own_fields_witness :
  let recent := JsDate.mk (20240 * 86400000 + 3600000) in
  let ancient := JsDate.mk (- 701000 * 86400000 + 3600000) in
  JsDateFields.getFullYear recent = 2025
  /\ JsDateFields.ofFields 2025 (JsDateFields.getMonth recent)
                           (JsDateFields.getDate recent)
     = JsDate.atMidnight recent
  /\ JsDateFields.getFullYear ancient = 50
  /\ JsDateFields.getFullYear
       (JsDateFields.ofFields 50 (JsDateFields.getMonth ancient)
                              (JsDateFields.getDate ancient))
     = 1950.
Proof.
  cbv zeta.
  destruct (midnight_from_own_fields (JsDate.mk (20240 * 86400000 + 3600000)))
    as [H1 _].
  destruct (midnight_from_own_fields (JsDate.mk (- 701000 * 86400000 + 3600000)))
    as [_ H2].
  split; [ reflexivity | ].
  split; [ apply H1; vm_compute; intros [_ H]; now apply H | ].
  split; [ reflexivity | ].
  apply H2. vm_compute. split; discriminate.
Defined.

(** Moving the day number back by [k] days moves the time value back by
    [k] days' worth of milliseconds. *)
Lemma MakeDate_back (tv k : Z) :
  JsDate.MakeDate (JsDate.Day tv - k) (JsDate.TimeWithinDay tv)
  = tv - k * JsDate.msPerDay.
Proof.
  unfold JsDate.MakeDate, JsDate.Day, JsDate.TimeWithinDay, JsDate.msPerDay.
  pose proof (Z.div_mod tv 86400000). lia.
Qed.

Lemma Day_back (tv k : Z) :
  JsDate.Day (tv - k * JsDate.msPerDay) = JsDate.Day tv - k.
Proof.
  unfold JsDate.Day, JsDate.msPerDay.
  replace (tv - k * 86400000) with (tv + (- k) * 86400000) by lia.
  rewrite Z.div_add by lia. lia.
Qed.

Lemma TimeWithinDay_back (tv k : Z) :
  JsDate.TimeWithinDay (tv - k * JsDate.msPerDay) = JsDate.TimeWithinDay tv.
Proof.
  unfold JsDate.TimeWithinDay, JsDate.msPerDay.
  replace (tv - k * 86400000) with (tv + (- k) * 86400000) by lia.
  apply Z.mod_add. lia.
Qed.

(** What [setDate] stores: the local time of [d] moved by the
    difference between the new day of the month and the old one. *)
Lemma setDate_truncated (zone : JsDate.TimeZone) (d : JsDate.t)
      (date : float) (dt : Z) :
  JsNumber.truncate date = Some dt ->
  JsDateFields.setDate zone d date
  = JsDate.ofLocal zone (JsDate.timeValue d
                         - (JsDateFields.getDate d - dt) * JsDate.msPerDay).
Proof.
  intros Hdt. unfold JsDateFields.setDate, JsDateFields.getDate.
  rewrite Hdt. cbv zeta.
  set (day := JsDate.Day (JsDate.timeValue d)).
  replace dt with (JsCalendar.DateFromDay day - (JsCalendar.DateFromDay day - dt))
    at 1 by lia.
  rewrite MakeDay_fields. unfold day. now rewrite MakeDate_back.
Qed.

(** A local time that exists in the zone is stored unchanged. *)
Lemma ofLocal_moved (zone : JsDate.TimeZone) (tv k : Z) :
  localTimeExists zone (tv - k * JsDate.msPerDay) ->
  exists moved : JsDate.t,
    JsDate.ofLocal zone (tv - k * JsDate.msPerDay) = Some moved
    /\ JsDate.timeValue moved + k * JsDate.msPerDay = tv
    /\ JsDate.Day (JsDate.timeValue moved) + k = JsDate.Day tv
    /\ JsDate.TimeWithinDay (JsDate.timeValue moved) = JsDate.TimeWithinDay tv.
Proof.
  unfold localTimeExists. intros ->. eexists. split; [ reflexivity | ].
  cbn [JsDate.timeValue]. rewrite Day_back, TimeWithinDay_back.
  repeat split; lia.
Qed.

(** The argument [startDate.getDate() - data.planLengthWeeks * 7] of
    [setDate] is computed exactly for the admissible plan lengths. *)
Lemma start_argument (g : Z) (n : nat) :
  1 <= g <= 31 -> n = 8%nat \/ n = 12%nat \/ n = 16%nat ->
  JsNumber.truncate (JsNumber.of_Z g - JsNumber.of_nat n * 7)%float
  = Some (g - Z.of_nat n * 7).
Proof.
  intros Hg Hn.
  assert (Hall :
            forallb
              (fun m =>
                 forallb
                   (fun i =>
                      match JsNumber.truncate
                              (JsNumber.of_Z (Z.of_nat i) - JsNumber.of_nat m * 7)%float
                      with
                      | Some z => z =? Z.of_nat i - Z.of_nat m * 7
                      | None => false
                      end)
                   (seq 1 31))
              [8; 12; 16]%nat = true) by (vm_compute; reflexivity).
  rewrite forallb_forall in Hall.
  assert (Hin : In n [8; 12; 16]%nat) by (simpl; intuition).
  specialize (Hall n Hin). rewrite forallb_forall in Hall.
  specialize (Hall (Z.to_nat g) ltac:(apply in_seq; lia)).
  rewrite Z2Nat.id in Hall by lia.
  destruct (JsNumber.truncate _) as [z | ]; [ | discriminate ].
  apply Z.eqb_eq in Hall. now subst z.
Qed.

(** The start date of the plan for an admissible plan length. *)
Lemma setDate_plan_length (zone : JsDate.TimeZone) (target : JsDate.t) (n : nat) :
  n = 8%nat \/ n = 12%nat \/ n = 16%nat ->
  JsNumber.to_Z (JsNumber.of_nat n) = Some (Z.of_nat n)
  /\ JsDateFields.setDate
       zone (JsDate.copy target)
       (JsNumber.of_Z (JsDateFields.getDate (JsDate.copy target))
        - JsNumber.of_nat n * 7)%float
     = JsDate.ofLocal zone (JsDate.timeValue target
                            - Z.of_nat n * 7 * JsDate.msPerDay).
Proof.
  intros Hn. split; [ destruct Hn as [-> | [-> | ->]]; reflexivity | ].
  destruct (month_date_facts (JsDate.Day (JsDate.timeValue (JsDate.copy target))))
    as (_ & Hd & _).
  rewrite (setDate_truncated zone _ _ _ (start_argument _ n Hd Hn)).
  unfold JsDate.copy. cbn [JsDate.timeValue]. f_equal.
  unfold JsDateFields.getDate. cbn [JsDate.timeValue]. lia.
Qed.

(** X5.  [d.setDate(date)] drops the fraction of [date] and moves the
    local time of [d] by whole days, the difference between the new day
    of the month and the old one, across month ends and leap days; what
    is stored is that local time taken through the time zone.  Where
    the local time exists in the zone, the day moves by exactly that
    many days and the time of day is kept; where its time value is
    more than 8.64e15 ms from the epoch, the result is the Invalid
    Date; and where a forward transition of the zone skips it, the time
    of day changes. *)
Theorem setDate_moves_by_whole_days
        (zone : JsDate.TimeZone) (d : JsDate.t) (date : float) (dt : Z) :
  JsNumber.truncate date = Some dt ->
  let back := JsDateFields.getDate d - dt in
  let tl := JsDate.timeValue d - back * JsDate.msPerDay in
  JsDateFields.setDate zone d date = JsDate.ofLocal zone tl
  /\ (localTimeExists zone tl ->
      exists moved : JsDate.t,
        JsDateFields.setDate zone d date = Some moved
        /\ JsDate.timeValue moved + back * JsDate.msPerDay = JsDate.timeValue d
        /\ JsDate.Day (JsDate.timeValue moved) + back
           = JsDate.Day (JsDate.timeValue d)
        /\ JsDate.TimeWithinDay (JsDate.timeValue moved)
           = JsDate.TimeWithinDay (JsDate.timeValue d))
  /\ (8640000000000000 < Z.abs (JsDate.UTC zone tl) ->
      JsDateFields.setDate zone d date = None)
  /\ (JsNumber.truncate (- 58.5)%float = Some (- 58)
      /\ exists d' moved' : JsDate.t,
          JsDateFields.setDate JsDate.springForward2024 d' (26 - 56)%float
          = Some moved'
          /\ JsDateFields.getDate d' = 26
          /\ JsDate.Day (JsDate.timeValue moved') + 56
             = JsDate.Day (JsDate.timeValue d')
          /\ JsDate.TimeWithinDay (JsDate.timeValue d') = 2 * 3600000
          /\ JsDate.TimeWithinDay (JsDate.timeValue moved') = 3 * 3600000).
Proof.
  intros Hdt. cbv zeta.
  rewrite (setDate_truncated zone d date dt Hdt).
  split; [ reflexivity | ]. split; [ apply ofLocal_moved | ]. split.
  - intros Hout. unfold JsDate.ofLocal, JsDate.TimeClip.
    apply Z.leb_gt in Hout. now rewrite Hout.
  - split; [ reflexivity | ].
    exists (JsDate.mk (19869 * 86400000 + 2 * 3600000)).
    eexists. split; [ vm_compute; reflexivity | ].
    repeat split; reflexivity.
Qed.

Lemma setDate_moves_by_whole_days_witness :
  let d := JsDate.mk (20240 * 86400000 + 3600000) in
  let date := (JsNumber.of_Z (JsDateFields.getDate d) - 8 * 7)%float in
  exists moved : JsDate.t,
    JsDateFields.setDate JsDate.utc d date = Some moved
    /\ JsDate.timeValue moved + 56 * JsDate.msPerDay = JsDate.timeValue d
    /\ JsDate.Day (JsDate.timeValue moved) + 56 = JsDate.Day (JsDate.timeValue d)
    /\ JsDate.TimeWithinDay (JsDate.timeValue moved)
       = JsDate.TimeWithinDay (JsDate.timeValue d).
Proof.
  cbv zeta.
  assert (Hdt : JsNumber.truncate
                  (JsNumber.of_Z
                     (JsDateFields.getDate
                        (JsDate.mk (20240 * 86400000 + 3600000))) - 8 * 7)%float
                = Some (JsDateFields.getDate
                          (JsDate.mk (20240 * 86400000 + 3600000)) - 56))
    by reflexivity.
  destruct (setDate_moves_by_whole_days
              JsDate.utc (JsDate.mk (20240 * 86400000 + 3600000)) _ _ Hdt)
    as (_ & Hmoved & _).
  replace (JsDateFields.getDate (JsDate.mk (20240 * 86400000 + 3600000))
           - (JsDateFields.getDate (JsDate.mk (20240 * 86400000 + 3600000)) - 56))
    with 56 in Hmoved by lia.
  apply Hmoved. reflexivity.
Defined.

(** ** Lists of guarded messages *)

Lemma Subsequence_In {A : Type} (xs ys : list A) :
  Subsequence xs ys -> forall x, In x xs -> In x ys.
Proof.
  induction 1 as [ | y xs ys _ IH | y xs ys _ IH]; intros x Hx.
  - exact Hx.
  - right. now apply IH.
  - destruct Hx as [-> | Hx]; [now left | right; now apply IH].
Qed.

Lemma Subsequence_NoDup {A : Type} (xs ys : list A) :
  Subsequence xs ys -> NoDup ys -> NoDup xs.
Proof.
  induction 1 as [ | y xs ys Hs IH | y xs ys Hs IH]; intros Hnd.
  - constructor.
  - inversion Hnd; subst. now apply IH.
  - inversion Hnd as [ | ? ? Hnotin Hnd']; subst. constructor.
    + intros Hin. apply Hnotin. now apply (Subsequence_In xs ys).
    + now apply IH.
Qed.

Lemma selectMessages_Subsequence (g : list (bool * string)) :
  Subsequence (selectMessages g) (map snd g).
Proof.
  unfold selectMessages.
  induction g as [ | [b m] g IH]; simpl.
  - constructor.
  - destruct b; simpl; now constructor.
Qed.

Lemma selectMessages_In (g : list (bool * string)) (m : string) :
  In m (selectMessages g) <-> In (true, m) g.
Proof.
  unfold selectMessages. rewrite in_map_iff. split.
  - intros [[b m'] [E H]]. simpl in E. subst m'.
    apply filter_In in H. destruct H as [H Hb]. simpl in Hb. now subst b.
  - intros H. exists (true, m). split; [reflexivity | ].
    apply filter_In. now split.
Qed.

Lemma selectMessages_nil (g : list (bool * string)) :
  selectMessages g = [] <-> forallb (fun r => negb (fst r)) g = true.
Proof.
  unfold selectMessages.
  induction g as [ | [b m] g IH]; simpl.
  - tauto.
  - destruct b; simpl; [ split; discriminate | exact IH ].
Qed.

(** ** The validators as lists of guarded pushes *)

Ltac solve_push_guard :=
  intros ->; unfold selectMessages, push;
  rewrite filter_app, map_app;
  repeat match goal with b : bool |- _ => destruct b end;
  simpl; rewrite ?app_nil_r; reflexivity.

Lemma push_guard (g : list (bool * string)) (b : bool) (m : string)
      (errors : list string) :
  errors = selectMessages g ->
  (if b then push errors m else errors) = selectMessages (g ++ [(b, m)]).
Proof. solve_push_guard. Qed.

(** A push inside an enclosing [if]. *)
Lemma push_guard_nested (g : list (bool * string)) (a b : bool) (m : string)
      (errors : list string) :
  errors = selectMessages g ->
  (if a then (if b then push errors m else errors) else errors)
  = selectMessages (g ++ [(a && b, m)]).
Proof. solve_push_guard. Qed.

(** An [else if] pushes under its own guard and the negation of the
    guards before it. *)
Lemma push_guard_else (g : list (bool * string)) (b c : bool) (m m' : string)
      (errors : list string) :
  errors = selectMessages g ->
  (if b then push errors m else if c then push errors m' else errors)
  = selectMessages (g ++ [(b, m); (negb b && c, m')]).
Proof. solve_push_guard. Qed.

Lemma push_guard_else_else (g : list (bool * string)) (b c d : bool)
      (m m' m'' : string) (errors : list string) :
  errors = selectMessages g ->
  (if b then push errors m
   else if c then push errors m'
   else if d then push errors m'' else errors)
  = selectMessages (g ++ [(b, m); (negb b && c, m'); (negb b && negb c && d, m'')]).
Proof. solve_push_guard. Qed.

Lemma push_guard_nested_else (g : list (bool * string)) (a b c : bool)
      (m m' : string) (errors : list string) :
  errors = selectMessages g ->
  (if a then (if b then push errors m
              else if c then push errors m' else errors)
   else errors)
  = selectMessages (g ++ [(a && b, m); (a && negb b && c, m')]).
Proof. solve_push_guard. Qed.

Lemma validateDataInput_pushes (data : SingleTier.FormData) :
  SingleTier.validateDataInput data = selectMessages (singleTierPushes data).
Proof.
  unfold SingleTier.validateDataInput, singleTierPushes. cbv zeta.
  refine (push_guard_nested_else [_; _; _; _; _; _; _] _ _ _ _ _ _ _).
  refine (push_guard_else_else [_; _; _; _] _ _ _ _ _ _ _ _).
  refine (push_guard_else [_; _] _ _ _ _ _ _).
  refine (push_guard [_] _ _ _ _).
  destruct (SingleTier.targetDate data); reflexivity.
Qed.

Lemma validate_pushes (zone : JsDate.TimeZone) (now : JsDate.t)
      (data : TwoTier.FormData) :
  TwoTier.validate zone now data = selectMessages (twoTierPushes zone now data).
Proof.
  unfold TwoTier.validate, twoTierPushes. cbv zeta.
  refine (push_guard_nested [_; _; _; _; _; _; _] _ _ _ _ _).
  refine (push_guard [_; _; _; _; _; _] _ _ _ _).
  refine (push_guard [_; _; _; _; _] _ _ _ _).
  refine (push_guard [_; _; _; _] _ _ _ _).
  refine (push_guard [_; _; _] _ _ _ _).
  refine (push_guard [_; _] _ _ _ _).
  destruct (TwoTier.targetDate data) as [target | ]; [ | reflexivity ].
  unfold midnightTest. cbv zeta.
  destruct (JsDate.valueLeb _ _); reflexivity.
Qed.

(** ** Guards of the validators *)

Lemma includesDay_spec (days : list string) (day : string) :
  SingleTier.includesDay days day = true <-> In day days.
Proof.
  unfold SingleTier.includesDay. rewrite existsb_exists. split.
  - intros [d [Hin E]]. apply String.eqb_eq in E. now subst d.
  - intros Hin. exists day. split; [exact Hin | apply String.eqb_refl].
Qed.

Lemma noLongRunDay_spec (days : list string) :
  negb (SingleTier.includesDay days "Thu")
  && negb (SingleTier.includesDay days "Sat")
  && negb (SingleTier.includesDay days "Sun") = true
  <-> noLongRunDay days.
Proof.
  unfold noLongRunDay.
  rewrite !andb_true_iff, !negb_true_iff, <- !not_true_iff_false,
    !includesDay_spec.
  tauto.
Qed.

Lemma length_eqb_0 {A : Type} (l : list A) :
  (List.length l =? 0)%nat = false <-> l <> [].
Proof.
  destruct l; simpl; split; congruence.
Qed.

(** [isNaN(x) || x <= 0] fails exactly on the positive Numbers. *)
Lemma positive_guard (x : float) :
  JsNumber.isNaN x || (x <=? 0)%float = false <-> flt 0 x.
Proof.
  unfold JsNumber.isNaN, flt. split.
  - intros H. apply orb_false_iff in H. destruct H as [Hn Hle].
    rewrite FloatFacts.leb_negb_ltb in Hle by (exact Hn || reflexivity).
    now apply negb_false_iff in Hle.
  - intros H. destruct (FloatFacts.ltb_not_nan _ _ H) as [_ Hn].
    rewrite Hn, FloatFacts.leb_negb_ltb, H by (exact Hn || reflexivity).
    reflexivity.
Qed.



(** The time value of the midnight built for a date well inside the
    range, in a zone whose offsets are within a day. *)
Lemma construct_midnight (zone : JsDate.TimeZone) (d : JsDate.t) :
  offsetsWithinADay zone -> wellInRange d -> yearAsWritten d ->
  JsDateFields.construct zone (JsDateFields.getFullYear d)
                         (JsDateFields.getMonth d) (JsDateFields.getDate d)
  = Some (JsDate.UTC zone (JsDate.timeValue (JsDate.atMidnight d))).
Proof.
  unfold offsetsWithinADay, wellInRange, yearAsWritten, JsDateFields.construct.
  intros Hzone Hrange Hyear. rewrite (ofFields_of_own_fields d Hyear).
  unfold JsDate.TimeClip, JsDate.UTC, JsDate.atMidnight, JsDate.MakeDate,
    JsDate.Day, JsDate.msPerDay in *.
  cbn [JsDate.timeValue].
  set (tv := JsDate.timeValue d) in *.
  destruct (Hzone (tv / 86400000 * 86400000 + 0) 0) as [Hoff _].
  set (off := JsDate.offsetAtLocal zone (tv / 86400000 * 86400000 + 0)) in *.
  assert (Hin : Z.abs (tv / 86400000 * 86400000 + 0 - off) <= 8640000000000000).
  { pose proof (Z.div_mod tv 86400000 ltac:(lia)).
    pose proof (Z.mod_pos_bound tv 86400000 ltac:(lia)). lia. }
  apply Z.leb_le in Hin. now rewrite Hin.
Qed.

(** In such a zone and for such dates, the test of [validate] on the
    time values is the test on the local midnights. *)
Lemma midnightTest_local (zone : JsDate.TimeZone) (now target : JsDate.t) :
  offsetsWithinADay zone ->
  wellInRange now -> wellInRange target ->
  yearAsWritten now -> yearAsWritten target ->
  midnightTest zone now target = targetNotAfterToday now target.
Proof.
  intros Hzone Hrn Hrt Hyn Hyt. unfold midnightTest, targetNotAfterToday.
  cbv zeta.
  rewrite (construct_midnight zone now Hzone Hrn Hyn),
    (construct_midnight zone target Hzone Hrt Hyt).
  unfold yearAsWritten in Hyn, Hyt.
  rewrite (ofFields_of_own_fields now Hyn), (ofFields_of_own_fields target Hyt).
  unfold JsDate.valueLeb, JsDate.leb, JsDate.UTC, JsDate.atMidnight,
    JsDate.MakeDate, JsDate.Day, JsDate.msPerDay.
  cbn [JsDate.timeValue].
  set (dn := JsDate.timeValue now / 86400000).
  set (dt := JsDate.timeValue target / 86400000).
  destruct (Hzone (dt * 86400000 + 0) (dn * 86400000 + 0)) as [_ Hdiff].
  unfold JsDate.msPerDay in Hdiff.
  destruct (Z.eq_dec dt dn) as [E | Hne].
  - rewrite E. rewrite !Z.leb_refl. reflexivity.
  - destruct (Z.leb_spec (dt * 86400000 + 0) (dn * 86400000 + 0));
      [ apply Z.leb_le | apply Z.leb_gt ]; lia.
Qed.



Lemma singleTierPushes_messages (data : SingleTier.FormData) :
  map snd (singleTierPushes data)
  = [ SingleTier.msgTargetDate; SingleTier.msgPlanLength;
      SingleTier.msgAvgPositive; SingleTier.msgAvgMinimum;
      SingleTier.msgNoDay; SingleTier.msgMinDays; SingleTier.msgLongRun;
      SingleTier.msgPerDayLow; SingleTier.msgPerDayHigh ].
Proof. reflexivity. Qed.

Lemma twoTierPushes_messages (zone : JsDate.TimeZone) (now : JsDate.t)
      (data : TwoTier.FormData) :
  map snd (twoTierPushes zone now data) = TwoTier.interfaceMessages.
Proof. reflexivity. Qed.

Lemma interfaceMessages_NoDup : NoDup TwoTier.interfaceMessages.
Proof.
  unfold TwoTier.interfaceMessages.
  repeat (constructor; [ simpl; intuition discriminate | ]).
  constructor.
Qed.

Lemma singleTierMessages_NoDup (data : SingleTier.FormData) :
  NoDup (map snd (singleTierPushes data)).
Proof.
  rewrite singleTierPushes_messages.
  repeat (constructor; [ simpl; intuition discriminate | ]).
  constructor.
Qed.

(** With pairwise different messages, a message is selected exactly
    when the guard of its push holds. *)
Lemma selectMessages_guard (g : list (bool * string)) (b : bool) (m : string) :
  NoDup (map snd g) -> In (b, m) g ->
  (In m (selectMessages g) <-> b = true).
Proof.
  intros Hnd Hin. rewrite selectMessages_In. split; [ | now intros -> ].
  revert Hin Hnd.
  induction g as [ | [b' m'] g IH]; simpl; [tauto | ].
  intros Hin Hnd Ht. inversion Hnd as [ | ? ? Hnotin Hnd']; subst.
  destruct Hin as [E | Hin], Ht as [E' | Ht].
  - congruence.
  - inversion E; subst. exfalso. apply Hnotin.
    apply in_map_iff. now exists (true, m).
  - inversion E'; subst. exfalso. apply Hnotin.
    apply in_map_iff. now exists (b, m).
  - now apply IH.
Qed.

Lemma validate_In (zone : JsDate.TimeZone) (now : JsDate.t)
      (data : TwoTier.FormData)
      (b : bool) (m : string) :
  In (b, m) (twoTierPushes zone now data) ->
  (In m (TwoTier.validate zone now data) <-> b = true).
Proof.
  intros Hin. rewrite validate_pushes. apply selectMessages_guard.
  - rewrite twoTierPushes_messages. apply interfaceMessages_NoDup.
  - exact Hin.
Qed.

Lemma validateDataInput_In (data : SingleTier.FormData)
      (b : bool) (m : string) :
  In (b, m) (singleTierPushes data) ->
  (In m (SingleTier.validateDataInput data) <-> b = true).
Proof.
  intros Hin. rewrite validateDataInput_pushes. apply selectMessages_guard.
  - apply singleTierMessages_NoDup.
  - exact Hin.
Qed.

(** ** The validators *)

(** C1, as amended.  The long-run-day coverage violation is reported
    exactly when at least three days are selected and none of them is
    Thu, Sat or Sun: the coverage check is the last [else if] of the day
    rules, behind the empty-selection and minimum-day-count checks. *)
Theorem long_run_rule_after_day_count (data : SingleTier.FormData) :
  In SingleTier.msgLongRun (SingleTier.validateDataInput data)
  <-> (3 <= List.length (SingleTier.selectedDays data))%nat
      /\ noLongRunDay (SingleTier.selectedDays data).
Proof.
  rewrite (validateDataInput_In data _ SingleTier.msgLongRun)
    by (unfold singleTierPushes; simpl; tauto).
  rewrite andb_true_iff, noLongRunDay_spec, andb_true_iff,
    !negb_true_iff, Nat.eqb_neq, Nat.ltb_ge.
  intuition lia.
Qed.

(** C1 as stated fails: with the single day Mon selected, none of Thu,
    Sat, Sun is selected and the selection is not empty, yet only the
    minimum-day-count violation is reported for the day rules. *)
Lemma long_run_rule_short_circuited :
  let data := SingleTier.mkFormData (Some (JsDate.mk 0)) 8 8 ["Mon"%string] in
  SingleTier.selectedDays data <> []
  /\ noLongRunDay (SingleTier.selectedDays data)
  /\ ~ In SingleTier.msgLongRun (SingleTier.validateDataInput data)
  /\ In SingleTier.msgMinDays (SingleTier.validateDataInput data).
Proof.
  cbv zeta. split; [ discriminate | ]. split.
  - unfold noLongRunDay. simpl. intuition discriminate.
  - split.
    + rewrite long_run_rule_after_day_count. simpl. lia.
    + vm_compute. tauto.
Qed.

(* a push of the two-tier validator, found in the list of its pushes *)
Ltac in_pushes := unfold twoTierPushes; cbv zeta; cbn [In]; auto 10.




(** C6.  The two-tier validator runs its eight rules in the order
    presence, futurity, plan length, average positivity, peak
    positivity, peak at least average, day selection, per-day
    intensity.  Each rule pushes at most once, and pushes its own text
    of the interface: the returned list is what remains of the eight
    texts, in that order, when the texts of the rules that hold are
    dropped; and each text is in the list exactly when its rule is
    violated. *)
Theorem validate_messages_in_rule_order
        (zone : JsDate.TimeZone) (now : JsDate.t) (data : TwoTier.FormData) :
  let errors := TwoTier.validate zone now data in
  let avg := TwoTier.avgHours data in
  let peak := TwoTier.peakHours data in
  let days := TwoTier.selectedDays data in
  TwoTier.interfaceMessages
  = [ TwoTier.msgTargetDate; TwoTier.msgFuture; TwoTier.msgPlanLength;
      TwoTier.msgAvgPositive; TwoTier.msgPeakPositive;
      TwoTier.msgPeakBelowAvg; TwoTier.msgNoDay; TwoTier.msgPerDayLow ]
  /\ NoDup TwoTier.interfaceMessages
  /\ Subsequence errors TwoTier.interfaceMessages
  /\ NoDup errors
  /\ (In TwoTier.msgTargetDate errors <-> TwoTier.targetDate data = None)
  /\ (In TwoTier.msgFuture errors
      <-> exists target,
            TwoTier.targetDate data = Some target
            /\ midnightTest zone now target = true)
  /\ (In TwoTier.msgPlanLength errors
      <-> ~ (TwoTier.planLengthWeeks data = 8%float
             \/ TwoTier.planLengthWeeks data = 12%float
             \/ TwoTier.planLengthWeeks data = 16%float))
  /\ (In TwoTier.msgAvgPositive errors <-> ~ flt 0 avg)
  /\ (In TwoTier.msgPeakPositive errors <-> ~ flt 0 peak)
  /\ (In TwoTier.msgPeakBelowAvg errors <-> flt peak avg)
  /\ (In TwoTier.msgNoDay errors <-> days = [])
  /\ (In TwoTier.msgPerDayLow errors
      <-> days <> [] /\ flt (avg / JsNumber.of_nat (List.length days)) 0.25).
Proof.
  cbv zeta.
  assert (Hsub : Subsequence (TwoTier.validate zone now data)
                             TwoTier.interfaceMessages).
  { rewrite validate_pushes, <- (twoTierPushes_messages zone now data).
    apply selectMessages_Subsequence. }
  split; [ reflexivity | ]. split; [ apply interfaceMessages_NoDup | ].
  split; [ exact Hsub | ].
  split; [ apply (Subsequence_NoDup _ _ Hsub), interfaceMessages_NoDup | ].
  set (avg := TwoTier.avgHours data). set (peak := TwoTier.peakHours data).
  set (n := List.length (TwoTier.selectedDays data)).
  split; [ | split; [ | split; [ | split; [ | split; [ | split; [ | split ]]]]]].
  - rewrite (validate_In
               zone now data
               (match TwoTier.targetDate data with
                | None => true | Some _ => false end)
               TwoTier.msgTargetDate) by in_pushes.
    destruct (TwoTier.targetDate data); split; congruence.
  - rewrite (validate_In
               zone now data
               (match TwoTier.targetDate data with
                | None => false
                | Some target => midnightTest zone now target end)
               TwoTier.msgFuture) by in_pushes.
    destruct (TwoTier.targetDate data) as [target | ].
    + split; [ intros H; exists target; now split | ].
      intros (target' & E & H). now injection E as <-.
    + split; [ discriminate | intros (target' & E & _); discriminate ].
  - rewrite (validate_In
               zone now data
               (negb (JsNumber.includes [8; 12; 16]%float
                                        (TwoTier.planLengthWeeks data)))
               TwoTier.msgPlanLength) by in_pushes.
    now rewrite negb_true_iff, <- not_true_iff_false,
      FloatFacts.includes_8_12_16.
  - rewrite (validate_In zone now data (JsNumber.isNaN avg || (avg <=? 0)%float)
                         TwoTier.msgAvgPositive) by in_pushes.
    now rewrite <- positive_guard, not_false_iff_true.
  - rewrite (validate_In zone now data (JsNumber.isNaN peak || (peak <=? 0)%float)
                         TwoTier.msgPeakPositive) by in_pushes.
    now rewrite <- positive_guard, not_false_iff_true.
  - rewrite (validate_In
               zone now data
               (negb (JsNumber.isNaN avg) && negb (JsNumber.isNaN peak)
                && (peak <? avg)%float)
               TwoTier.msgPeakBelowAvg) by in_pushes.
    rewrite !andb_true_iff, !negb_true_iff. split; [ tauto | ].
    intros H. destruct (FloatFacts.ltb_not_nan _ _ H) as [Hp Ha].
    unfold JsNumber.isNaN. tauto.
  - rewrite (validate_In zone now data (n =? 0)%nat TwoTier.msgNoDay) by in_pushes.
    unfold n. destruct (TwoTier.selectedDays data); simpl; split; congruence.
  - rewrite (validate_In
               zone now data
               (negb (n =? 0)%nat && negb (JsNumber.isNaN avg)
                && (avg / JsNumber.of_nat n <? 0.25)%float)
               TwoTier.msgPerDayLow) by in_pushes.
    rewrite !andb_true_iff, !negb_true_iff. unfold n. rewrite length_eqb_0.
    split; [ tauto | ]. intros [Hdays Hlow].
    split; [ split; [ exact Hdays | ] | exact Hlow ].
    destruct (FloatFacts.ltb_not_nan _ _ Hlow) as [Hq _].
    destruct (JsNumber.isNaN avg) eqn:Ha; [ | reflexivity ].
    unfold JsNumber.isNaN in Ha.
    rewrite (FloatFacts.div_nan_l _ _ Ha) in Hq. discriminate.
Qed.

Lemma flt_not_nan_l (x y : float) : flt x y -> JsNumber.isNaN x = false.
Proof. intros H. apply (FloatFacts.ltb_not_nan _ _ H). Qed.

Lemma flt_not_nan_r (x y : float) : flt x y -> JsNumber.isNaN y = false.
Proof. intros H. apply (FloatFacts.ltb_not_nan _ _ H). Qed.

Lemma not_flt_iff (x y : float) : (x <? y)%float = false <-> ~ flt x y.
Proof. unfold flt. now rewrite not_true_iff_false. Qed.

(** The two-tier validator reports nothing exactly on the records on
    which none of its guards holds. *)
Lemma validate_nil_iff (zone : JsDate.TimeZone) (now : JsDate.t)
      (data : TwoTier.FormData) :
  TwoTier.validate zone now data = [] <-> twoTierAccepts zone now data.
Proof.
  rewrite validate_pushes, selectMessages_nil.
  unfold twoTierPushes, twoTierAccepts. cbv zeta. cbn [forallb fst].
  rewrite !andb_true_iff, !negb_true_iff, negb_false_iff.
  rewrite FloatFacts.includes_8_12_16, !positive_guard.
  split.
  - intros (H1 & H2 & H3 & H4 & H5 & H6 & H7 & H8 & _).
    destruct (TwoTier.targetDate data) as [target | ]; [ | discriminate ].
    pose proof (flt_not_nan_r _ _ H4) as Na.
    pose proof (flt_not_nan_r _ _ H5) as Np.
    rewrite Na, Np in H6. simpl in H6. rewrite Na, H7 in H8. simpl in H8.
    repeat split; try assumption.
    + exists target. split; [ reflexivity | exact H2 ].
    + unfold fle. rewrite FloatFacts.leb_negb_ltb by assumption.
      now rewrite H6.
    + now apply length_eqb_0.
    + now apply not_flt_iff.
  - intros ((target & Ht & Hafter) & H3 & H4 & H5 & H6 & H7 & H8).
    rewrite Ht.
    pose proof (flt_not_nan_r _ _ H4) as Na.
    pose proof (flt_not_nan_r _ _ H5) as Np.
    rewrite Na, Np. apply length_eqb_0 in H7. rewrite H7. simpl.
    repeat split; try assumption.
    + unfold fle in H6. rewrite FloatFacts.leb_negb_ltb in H6 by assumption.
      now apply negb_true_iff in H6.
    + now apply not_flt_iff.
Qed.


(** The single-tier validator reports nothing exactly on the records
    that pass every rule. *)
Lemma validateDataInput_nil_iff (data : SingleTier.FormData) :
  SingleTier.validateDataInput data = [] <-> singleTierPasses data.
Proof.
  rewrite validateDataInput_pushes, selectMessages_nil.
  unfold singleTierPushes, singleTierPasses. cbv zeta. cbn [forallb fst].
  set (n := List.length (SingleTier.selectedDays data)).
  set (avg := SingleTier.avgHours data).
  rewrite !andb_true_iff, !negb_true_iff, negb_false_iff.
  rewrite FloatFacts.includes_8_12_16, !positive_guard.
  split.
  - intros (H1 & H2 & H3 & H4 & H5 & H6 & H7 & H8 & H9 & _).
    destruct (SingleTier.targetDate data) as [target | ]; [ | discriminate ].
    pose proof (flt_not_nan_r _ _ H3) as Na. fold avg in Na.
    assert (Hpos : JsNumber.isNaN avg || (avg <=? 0)%float = false)
      by now apply positive_guard.
    rewrite Hpos in H4. rewrite H5 in H6, H7, H8, H9. rewrite Na in H8, H9.
    simpl in H4, H6, H7, H8, H9. rewrite H6 in H7. simpl in H7.
    rewrite H8 in H9. simpl in H9.
    apply not_true_iff_false in H7. rewrite noLongRunDay_spec in H7.
    apply Nat.ltb_ge in H6. subst n.
    repeat split; try assumption; try (now apply not_flt_iff).
    + discriminate.
    + now apply length_eqb_0.
  - intros (H1 & H2 & H3 & H4 & H5 & H6 & H7 & H8 & H9).
    pose proof (flt_not_nan_r _ _ H3) as Na. fold avg in Na.
    assert (Hpos : JsNumber.isNaN avg || (avg <=? 0)%float = false)
      by now apply positive_guard.
    apply length_eqb_0 in H5. fold n in H5. apply Nat.ltb_ge in H6. fold n in H6.
    apply not_flt_iff in H4, H8, H9. fold avg in H4.
    rewrite <- noLongRunDay_spec in H7. apply not_true_iff_false in H7.
    rewrite Hpos, H5, H6, Na, H4, H7, H8, H9. simpl.
    destruct (SingleTier.targetDate data); [ | congruence ].
    repeat split; try assumption.
Qed.




(** ** The loops of the generators *)

Lemma pushWeek_room (weeks : list WeekEntry) (entry : WeekEntry) :
  Z.of_nat (List.length weeks) < 4294967295 ->
  pushWeek weeks entry = Some (weeks ++ [entry]).
Proof.
  intros H. unfold pushWeek. apply Z.ltb_lt in H. now rewrite H.
Qed.

Lemma pushWeek_full (weeks : list WeekEntry) (entry : WeekEntry) :
  4294967295 <= Z.of_nat (List.length weeks) ->
  pushWeek weeks entry = None.
Proof.
  intros H. unfold pushWeek. apply Z.ltb_ge in H. now rewrite H.
Qed.

Lemma twoTier_weeksLoop_run (Math_pow : float -> float -> float)
      (data : TwoTier.FormData) (totalWeeks peakWeekIndex : float)
      (ws : list float) :
  forall (fuel : nat) (w0 : float) (acc : list WeekEntry),
    loopValues totalWeeks w0 ws ->
    (List.length ws <= fuel)%nat ->
    Z.of_nat (List.length acc + List.length ws) <= 4294967295 ->
    TwoTier.weeksLoop Math_pow fuel data totalWeeks peakWeekIndex w0 acc
    = Returned (acc ++ map (fun w =>
                              mkWeek (w + 1)%float
                                     (round1 (TwoTier.hoursOfWeek
                                                Math_pow data peakWeekIndex w)))
                           ws).
Proof.
  induction ws as [ | w ws IH]; intros fuel w0 acc Hloop Hfuel Hroom.
  - simpl in Hloop. destruct fuel; simpl; rewrite Hloop, app_nil_r; reflexivity.
  - destruct Hloop as (-> & Htest & Hloop).
    destruct fuel as [ | fuel]; [ simpl in Hfuel; lia | ].
    cbn [TwoTier.weeksLoop List.length map] in *. rewrite Htest. cbv zeta.
    rewrite pushWeek_room by lia.
    rewrite (IH fuel _ _ Hloop) by (rewrite ?length_app; simpl; lia).
    now rewrite <- app_assoc.
Qed.

Lemma singleTier_weeksLoop_run (data : SingleTier.FormData) (ws : list float) :
  forall (fuel : nat) (w0 : float) (acc : list WeekEntry),
    loopValues (SingleTier.planLengthWeeks data) w0 ws ->
    (List.length ws <= fuel)%nat ->
    Z.of_nat (List.length acc + List.length ws) <= 4294967295 ->
    SingleTier.weeksLoop fuel data w0 acc
    = Returned (acc ++ map (fun w =>
                              mkWeek (w + 1)%float
                                     (round1 (SingleTier.avgHours data)))
                           ws).
Proof.
  induction ws as [ | w ws IH]; intros fuel w0 acc Hloop Hfuel Hroom.
  - simpl in Hloop. destruct fuel; simpl; rewrite Hloop, app_nil_r; reflexivity.
  - destruct Hloop as (-> & Htest & Hloop).
    destruct fuel as [ | fuel]; [ simpl in Hfuel; lia | ].
    cbn [SingleTier.weeksLoop List.length map] in *. rewrite Htest.
    rewrite pushWeek_room by lia.
    rewrite (IH fuel _ _ Hloop) by (rewrite ?length_app; simpl; lia).
    now rewrite <- app_assoc.
Qed.

(** For each admissible plan length the loop variable runs through
    [0 .. planLengthWeeks - 1]. *)
Lemma loopValues_plan_length (n : nat) :
  n = 8%nat \/ n = 12%nat \/ n = 16%nat ->
  loopValues (JsNumber.of_nat n) 0 (weekIndices n).
Proof.
  intros [-> | [-> | ->]]; vm_compute; repeat split; reflexivity.
Qed.

(** The admissible plan lengths, as array lengths. *)
Lemma plan_length_cases (x : float) :
  x = 8%float \/ x = 12%float \/ x = 16%float ->
  exists n, (n = 8%nat \/ n = 12%nat \/ n = 16%nat) /\ x = JsNumber.of_nat n.
Proof.
  intros [-> | [-> | ->]];
    [ exists 8%nat | exists 12%nat | exists 16%nat ]; split; auto.
Qed.

Lemma weekIndices_nth (n i : nat) (w : float) :
  nth_error (weekIndices n) i = Some w -> (i < n)%nat /\ w = JsNumber.of_nat i.
Proof.
  unfold weekIndices. intros H.
  assert (Hi : (i < n)%nat).
  { assert (Hlen : (i < List.length (map JsNumber.of_nat (seq 0 n)))%nat)
      by (apply nth_error_Some; congruence).
    now rewrite length_map, length_seq in Hlen. }
  split; [ exact Hi | ].
  rewrite nth_error_map, nth_error_seq in H.
  apply Nat.ltb_lt in Hi. rewrite Hi in H. simpl in H. congruence.
Qed.

Lemma sub_zero_r (x : float) : (x - 0)%float = x.
Proof.
  apply Prim2SF_inj. rewrite sub_spec.
  change (Prim2SF 0) with (S754_zero false).
  destruct (Prim2SF x) as [[ | ] | | | ]; reflexivity.
Qed.

(** The plans of the admissible lengths fit in an array. *)
Lemma weekIndices_room (n : nat) :
  n = 8%nat \/ n = 12%nat \/ n = 16%nat ->
  (List.length (weekIndices n) <= 16)%nat
  /\ Z.of_nat (List.length (@nil WeekEntry) + List.length (weekIndices n))
     <= 4294967295.
Proof.
  unfold weekIndices. rewrite length_map, length_seq. cbn [List.length]. lia.
Qed.

(** What the two-tier generator returns on a record with an admissible
    plan length and a target date. *)
Lemma twoTier_plan (Math_pow : float -> float -> float)
      (zone : JsDate.TimeZone) (fuel n : nat)
      (data : TwoTier.FormData) (target : JsDate.t) :
  n = 8%nat \/ n = 12%nat \/ n = 16%nat ->
  TwoTier.planLengthWeeks data = JsNumber.of_nat n ->
  TwoTier.targetDate data = Some target ->
  (16 <= fuel)%nat ->
  TwoTier.buildPlaceholderPlan Math_pow zone fuel data
  = Returned
      (mkPlan
         (JsDate.ofLocal zone (JsDate.timeValue target
                               - Z.of_nat n * 7 * JsDate.msPerDay))
         (map (fun w =>
                 mkWeek (w + 1)%float
                        (round1 (TwoTier.hoursOfWeek
                                   Math_pow data
                                   (TwoTier.peakWeekIndexOf (JsNumber.of_nat n))
                                   w)))
              (weekIndices n))).
Proof.
  intros Hn Hlen Htarget Hfuel. unfold TwoTier.buildPlaceholderPlan.
  rewrite Htarget, Hlen. cbv zeta.
  destruct (weekIndices_room n Hn) as [Hshort Hroom].
  rewrite (twoTier_weeksLoop_run _ _ _ _ (weekIndices n));
    [ | now apply loopValues_plan_length | lia | exact Hroom ].
  destruct (setDate_plan_length zone target n Hn) as [_ ->]. reflexivity.
Qed.

(** What the single-tier generator returns on such a record. *)
Lemma singleTier_plan (zone : JsDate.TimeZone) (fuel n : nat)
      (data : SingleTier.FormData) (target : JsDate.t) :
  n = 8%nat \/ n = 12%nat \/ n = 16%nat ->
  SingleTier.planLengthWeeks data = JsNumber.of_nat n ->
  SingleTier.targetDate data = Some target ->
  (16 <= fuel)%nat ->
  SingleTier.buildPlaceholderPlan zone fuel data
  = Returned
      (mkPlan
         (JsDate.ofLocal zone (JsDate.timeValue target
                               - Z.of_nat n * 7 * JsDate.msPerDay))
         (map (fun w => mkWeek (w + 1)%float (round1 (SingleTier.avgHours data)))
              (weekIndices n))).
Proof.
  intros Hn Hlen Htarget Hfuel. unfold SingleTier.buildPlaceholderPlan.
  rewrite Htarget. cbv zeta.
  destruct (weekIndices_room n Hn) as [Hshort Hroom].
  rewrite (singleTier_weeksLoop_run _ (weekIndices n));
    [ | rewrite Hlen; now apply loopValues_plan_length | lia | exact Hroom ].
  rewrite Hlen. destruct (setDate_plan_length zone target n Hn) as [_ ->].
  reflexivity.
Qed.

(** A plan built over [weekIndices n] has the shape of [planShape]. *)
Lemma planShape_intro (zone : JsDate.TimeZone) (target : JsDate.t) (n : nat)
      (hours : float -> float) :
  n = 8%nat \/ n = 12%nat \/ n = 16%nat ->
  planShape zone (Some target) (JsNumber.of_nat n)
    (Returned
       (mkPlan
          (JsDate.ofLocal zone (JsDate.timeValue target
                                - Z.of_nat n * 7 * JsDate.msPerDay))
          (map (fun w => mkWeek (w + 1)%float (hours w)) (weekIndices n)))).
Proof.
  intros Hn. unfold planShape.
  eexists _, target, (Z.of_nat n).
  split; [ reflexivity | ]. split; [ reflexivity | ].
  cbv beta iota delta [weeks startDate].
  unfold weekIndices. rewrite !length_map, length_seq, !map_map.
  cbv beta iota delta [weekNumber].
  split; [ reflexivity | ].
  split; [ destruct Hn as [-> | [-> | ->]]; reflexivity | ].
  split; [ destruct Hn as [-> | [-> | ->]]; reflexivity | ].
  split; [ reflexivity | ].
  intros Hexists.
  destruct (ofLocal_moved zone (JsDate.timeValue target) (Z.of_nat n * 7) Hexists)
    as (start & Hstart & Htv & Hday & Htime).
  exists start. repeat split; assumption.
Qed.

(** ** The generators *)

(** C3, as amended.  On a valid record, in both versions, the generator
    returns a plan with exactly [planLengthWeeks] entries whose week
    numbers are [1 .. planLengthWeeks] in increasing order.  Its start
    date is the local time of the target date moved back by
    [planLengthWeeks * 7] days, stored through the time zone of the
    host: where that local time exists in the zone and its time value is
    in range, the start date is the target date minus
    [planLengthWeeks * 7] calendar days, at the same time of day. *)
Theorem plan_length_numbering_and_start
        (Math_pow : float -> float -> float) (zone : JsDate.TimeZone)
        (fuel : nat) (now : JsDate.t) (data : TwoTier.FormData)
        (single : SingleTier.FormData) :
  (16 <= fuel)%nat ->
  (TwoTier.validate zone now data = [] ->
   planShape zone (TwoTier.targetDate data) (TwoTier.planLengthWeeks data)
             (TwoTier.buildPlaceholderPlan Math_pow zone fuel data))
  /\ (SingleTier.validateDataInput single = [] ->
      planShape zone (SingleTier.targetDate single)
                (SingleTier.planLengthWeeks single)
                (SingleTier.buildPlaceholderPlan zone fuel single)).
Proof.
  intros Hfuel. split; intros Hvalid.
  - apply validate_nil_iff in Hvalid.
    destruct Hvalid as ((target & Htarget & _) & Hlen & _).
    destruct (plan_length_cases _ Hlen) as (n & Hn & Hlen').
    rewrite (twoTier_plan Math_pow zone fuel n data target Hn Hlen' Htarget Hfuel).
    rewrite Htarget, Hlen'. now apply planShape_intro.
  - apply validateDataInput_nil_iff in Hvalid.
    destruct Hvalid as (Htarget & Hlen & _).
    destruct (SingleTier.targetDate single) as [target | ] eqn:Et;
      [ | congruence ].
    destruct (plan_length_cases _ Hlen) as (n & Hn & Hlen').
    rewrite (singleTier_plan zone fuel n single target Hn Hlen' Et Hfuel).
    rewrite Hlen'. now apply planShape_intro.
Qed.

Lemma plan_length_numbering_and_start_witness :
  let now := JsDate.mk (20000 * 86400000 + 3600000) in
  let target := JsDate.mk (20240 * 86400000) in
  let data := TwoTier.mkFormData (Some target) 8 10 15 ["Sat"%string] in
  let single :=
    SingleTier.mkFormData (Some target) 12 8 ["Mon"; "Wed"; "Sat"]%string in
  planShape JsDate.utc (TwoTier.targetDate data) (TwoTier.planLengthWeeks data)
            (TwoTier.buildPlaceholderPlan JsNumber.pow_by_multiplication
                                          JsDate.utc 16 data)
  /\ localTimeExists JsDate.utc (JsDate.timeValue target - 8 * 7 * JsDate.msPerDay)
  /\ planShape JsDate.utc (SingleTier.targetDate single)
               (SingleTier.planLengthWeeks single)
               (SingleTier.buildPlaceholderPlan JsDate.utc 16 single)
  /\ localTimeExists JsDate.utc
                     (JsDate.timeValue target - 12 * 7 * JsDate.msPerDay).
Proof.
  cbv zeta.
  pose proof (plan_length_numbering_and_start
                JsNumber.pow_by_multiplication JsDate.utc 16
                (JsDate.mk (20000 * 86400000 + 3600000))
                (TwoTier.mkFormData (Some (JsDate.mk (20240 * 86400000)))
                                    8 10 15 ["Sat"%string])
                (SingleTier.mkFormData (Some (JsDate.mk (20240 * 86400000)))
                                       12 8 ["Mon"; "Wed"; "Sat"]%string)
                (le_n 16)) as [Htwo Hsingle].
  split; [ apply Htwo; reflexivity | ]. split; [ reflexivity | ].
  split; [ apply Hsingle; reflexivity | reflexivity ].
Defined.

(** C3 as stated fails in its last part.  A [Date] holds time values up
    to 8.64e15 ms from the epoch: for the target date ten days after the
    first of them, a record that the single-tier validator accepts, the
    date 56 days earlier is out of range and the start date is the
    Invalid Date.  And in a zone whose clocks go forward at 02:00 local
    time on 31 March 2024, the target 26 May 2024 at 02:00 gives the
    start 31 March at 03:00: adding 56 days of 24 hours to it gives
    03:00 on the target day. *)
Lemma start_date_invalid_or_shifted :
  let early := JsDate.mk (- 8640000000000000 + 10 * 86400000) in
  let single :=
    SingleTier.mkFormData (Some early) 8 8 ["Mon"; "Wed"; "Sat"]%string in
  let now := JsDate.mk (19800 * 86400000) in
  let may26 := JsDate.mk (19869 * 86400000 + 2 * 3600000) in
  let data := TwoTier.mkFormData (Some may26) 8 10 15 ["Sat"%string] in
  SingleTier.validateDataInput single = []
  /\ JsDate.TimeClip (JsDate.UTC JsDate.utc (JsDate.timeValue early))
     = Some (JsDate.timeValue early)
  /\ (exists plan,
         SingleTier.buildPlaceholderPlan JsDate.utc 16 single = Returned plan
         /\ startDate plan = None)
  /\ TwoTier.validate JsDate.springForward2024 now data = []
  /\ JsDate.ofLocal JsDate.springForward2024 (JsDate.timeValue may26)
     = Some may26
  /\ (exists plan start,
         TwoTier.buildPlaceholderPlan JsNumber.pow_by_multiplication
                                      JsDate.springForward2024 16 data
         = Returned plan
         /\ startDate plan = Some start
         /\ JsDate.timeValue start + 8 * 7 * JsDate.msPerDay
            = JsDate.timeValue may26 + 3600000
         /\ JsDate.TimeWithinDay (JsDate.timeValue start) = 3 * 3600000
         /\ JsDate.TimeWithinDay (JsDate.timeValue may26) = 2 * 3600000).
Proof.
  cbv zeta. split; [ reflexivity | ]. split; [ reflexivity | ].
  split; [ eexists; split; [ vm_compute; reflexivity | reflexivity ] | ].
  split; [ reflexivity | ]. split; [ reflexivity | ].
  eexists _, _. split; [ vm_compute; reflexivity | ].
  repeat split; reflexivity.
Qed.

(** ** The branches of the two-tier progression *)

Section Progression.

Variable Math_pow : float -> float -> float.
Variable data : TwoTier.FormData.

Let avg := TwoTier.avgHours data.
Let peak := TwoTier.peakHours data.

Lemma hoursOfWeek_ramp (p w : float) :
  (w <? p)%float = true -> (p =? 0)%float = false ->
  TwoTier.hoursOfWeek Math_pow data p w
  = (avg + (peak - avg) * (w / p))%float.
Proof.
  intros Hlt Hp. unfold TwoTier.hoursOfWeek, TwoTier.interpolate.
  now rewrite Hlt, Hp, !sub_zero_r.
Qed.

Lemma hoursOfWeek_peak (p w : float) :
  (w <? p)%float = false -> (w =? p)%float = true ->
  TwoTier.hoursOfWeek Math_pow data p w = peak.
Proof.
  intros Hlt Heq. unfold TwoTier.hoursOfWeek. now rewrite Hlt, Heq.
Qed.

Lemma hoursOfWeek_taper (p w : float) :
  (w <? p)%float = false -> (w =? p)%float = false ->
  TwoTier.hoursOfWeek Math_pow data p w
  = JsNumber.Math_max avg (peak * Math_pow 0.8 (w - p))%float.
Proof.
  intros Hlt Heq. unfold TwoTier.hoursOfWeek. now rewrite Hlt, Heq.
Qed.

End Progression.

(** The peak week index of each admissible plan length. *)
Lemma peakWeekIndex_cases (n : nat) :
  n = 8%nat \/ n = 12%nat \/ n = 16%nat ->
  exists k : nat,
    (n = 8%nat /\ k = 5%nat \/ n = 12%nat /\ k = 7%nat
     \/ n = 16%nat /\ k = 10%nat)
    /\ TwoTier.peakWeekIndexOf (JsNumber.of_nat n) = JsNumber.of_nat k.
Proof.
  intros [-> | [-> | ->]];
    [ exists 5%nat | exists 7%nat | exists 10%nat ];
    (split; [ tauto | vm_compute; reflexivity ]).
Qed.

Lemma weekIndices_nth_lt (n i : nat) :
  (i < n)%nat -> nth_error (weekIndices n) i = Some (JsNumber.of_nat i).
Proof.
  intros Hi. unfold weekIndices.
  rewrite nth_error_map, nth_error_seq.
  apply Nat.ltb_lt in Hi. now rewrite Hi.
Qed.

(** C2.  On a valid two-tier record the plan is returned; the entry at
    index [floor (planLengthWeeks * 0.65)] (zero-based) has
    [round1 peakHours] as planned hours; and every entry at an index [w]
    below that index has
    [round1 (avgHours + (peakHours - avgHours) * (w / peakWeekIndex))]. *)
Theorem ramp_and_peak_weeks
        (Math_pow : float -> float -> float) (zone : JsDate.TimeZone)
        (fuel : nat)
        (now : JsDate.t) (data : TwoTier.FormData) :
  (16 <= fuel)%nat ->
  TwoTier.validate zone now data = [] ->
  let avg := TwoTier.avgHours data in
  let peak := TwoTier.peakHours data in
  let peakWeekIndex :=
    JsNumber.Math_floor (TwoTier.planLengthWeeks data * 0.65)%float in
  exists plan,
    TwoTier.buildPlaceholderPlan Math_pow zone fuel data = Returned plan
    /\ (exists entry,
           entryAt (weeks plan) peakWeekIndex = Some entry
           /\ plannedHours entry = round1 peak)
    /\ (forall (i : nat) (entry : WeekEntry),
           nth_error (weeks plan) i = Some entry ->
           flt (JsNumber.of_nat i) peakWeekIndex ->
           plannedHours entry
           = round1 (avg + (peak - avg)
                           * (JsNumber.of_nat i / peakWeekIndex))%float).
Proof.
  intros Hfuel Hvalid. cbv zeta.
  apply validate_nil_iff in Hvalid.
  destruct Hvalid as ((target & Htarget & _) & Hlen & _).
  destruct (plan_length_cases _ Hlen) as (n & Hn & Hlen').
  rewrite (twoTier_plan Math_pow zone fuel n data target Hn Hlen' Htarget Hfuel).
  eexists. split; [ reflexivity | ]. cbv beta iota delta [weeks].
  rewrite Hlen'. fold (TwoTier.peakWeekIndexOf (JsNumber.of_nat n)).
  destruct (peakWeekIndex_cases n Hn) as (k & Hk & ->).
  assert (Hkn : (k < n)%nat) by lia.
  assert (Hfacts : JsNumber.to_Z (JsNumber.of_nat k) = Some (Z.of_nat k)
                   /\ (JsNumber.of_nat k <? JsNumber.of_nat k)%float = false
                   /\ (JsNumber.of_nat k =? JsNumber.of_nat k)%float = true
                   /\ (JsNumber.of_nat k =? 0)%float = false).
  { destruct Hk as [[_ ->] | [[_ ->] | [_ ->]]]; repeat split; reflexivity. }
  destruct Hfacts as (HtoZ & Hlt & Heq & Hnz).
  split.
  - eexists. unfold entryAt. rewrite HtoZ.
    replace (0 <=? Z.of_nat k) with true by (symmetry; apply Z.leb_le; lia).
    rewrite Nat2Z.id, nth_error_map, (weekIndices_nth_lt n k Hkn).
    split; [ reflexivity | ]. cbn [plannedHours].
    now rewrite hoursOfWeek_peak.
  - intros i entry Hnth Hbelow.
    rewrite nth_error_map in Hnth.
    destruct (nth_error (weekIndices n) i) as [w | ] eqn:Ew; [ | discriminate ].
    apply weekIndices_nth in Ew. destruct Ew as [_ ->].
    injection Hnth as <-. cbn [plannedHours].
    now rewrite hoursOfWeek_ramp.
Qed.

Lemma ramp_and_peak_weeks_witness :
  let now := JsDate.mk (20000 * 86400000 + 3600000) in
  let data :=
    TwoTier.mkFormData (Some (JsDate.mk (20240 * 86400000))) 8 10 15
                       ["Sat"%string] in
  exists plan,
    TwoTier.buildPlaceholderPlan JsNumber.pow_by_multiplication JsDate.utc 16 data
    = Returned plan
    /\ (exists entry,
           entryAt (weeks plan) (JsNumber.Math_floor (8 * 0.65)%float)
           = Some entry
           /\ plannedHours entry = round1 15)
    /\ (forall (i : nat) (entry : WeekEntry),
           nth_error (weeks plan) i = Some entry ->
           flt (JsNumber.of_nat i) (JsNumber.Math_floor (8 * 0.65)%float) ->
           plannedHours entry
           = round1 (10 + (15 - 10)
                          * (JsNumber.of_nat i
                             / JsNumber.Math_floor (8 * 0.65)%float))%float).
Proof.
  cbv zeta.
  apply (ramp_and_peak_weeks
           JsNumber.pow_by_multiplication JsDate.utc 16
           (JsDate.mk (20000 * 86400000 + 3600000))
           (TwoTier.mkFormData (Some (JsDate.mk (20240 * 86400000))) 8 10 15
                               ["Sat"%string])
           (le_n 16)).
  reflexivity.
Defined.

(** ** The taper and the ramp over binary64 *)

Lemma nf_1 : nf 1 /\ ford 1 < ordTop /\ B2R 1 = 1%R.
Proof.
  assert (H : nf 1)
    by now apply (nn_sign 1 false 4503599627370496 (- 52)).
  split; [ exact H | ]. split; [ apply (nf_ford_range 1 H) | ].
  unfold B2R. change (Prim2SF 1) with (S754_finite false 4503599627370496 (- 52)).
  cbn [SF2R]. change 4503599627370496 with (1 * 2 ^ 52).
  change (- 52) with (0 - 52).
  rewrite F2R_bpow_shift by lia. unfold F2R. rewrite bpow_0. ring.
Qed.

(** A positive Number: not NaN, sign [+], not zero. *)
Lemma flt_0_fle_nf a b :
  flt 0 a -> fle a b -> nf b -> nf a.
Proof.
  intros Ha Hab Hb. destruct (flt_0_nn a Ha) as [Hnn _].
  apply nn_below_top; [ exact Hnn | ].
  apply (leb_ford a b Hnn (nf_nn b Hb)) in Hab.
  pose proof (nf_ford_range b Hb). lia.
Qed.

(** The facts about the taper factors that [taperFactorsBounded]
    packs. *)
Lemma taperFactorsBounded_facts (Math_pow : float -> float -> float) :
  taperFactorsBounded Math_pow ->
  forall a : nat,
    (1 <= a <= 5)%nat ->
    let c := Math_pow 0.8%float (JsNumber.of_nat a) in
    nf c /\ 0 < ford c /\ ford c <= ford 1.
Proof.
  unfold taperFactorsBounded, taperExponents. cbv zeta.
  cbn [map forallb]. rewrite !andb_true_iff.
  intros ((H1p & H1o) & (H2p & H2o) & (H3p & H3o) & (H4p & H4o)
          & (H5p & H5o) & _).
  destruct nf_1 as (Hnf1 & Htop1 & _).
  assert (Hfact : forall c, (0 <? c)%float = true -> (c <=? 1)%float = true ->
                            nf c /\ 0 < ford c /\ ford c <= ford 1).
  { intros c Hp Ho. destruct (flt_0_nn c Hp) as [Hnn Hpos].
    apply (leb_ford c 1 Hnn (nf_nn 1 Hnf1)) in Ho.
    split; [ apply nn_below_top; [ exact Hnn | lia ] | ]. split; assumption. }
  intros a Ha.
  destruct a as [ | [ | [ | [ | [ | [ | a]]]]]]; try lia;
    [ change (JsNumber.of_nat 1) with 1%float
    | change (JsNumber.of_nat 2) with 2%float
    | change (JsNumber.of_nat 3) with 3%float
    | change (JsNumber.of_nat 4) with 4%float
    | change (JsNumber.of_nat 5) with 5%float ];
    now apply Hfact.
Qed.



(** Where an index stands with respect to the peak week index. *)
Lemma index_cases (n k i : nat) :
  (n = 8%nat /\ k = 5%nat \/ n = 12%nat /\ k = 7%nat
   \/ n = 16%nat /\ k = 10%nat) ->
  (i < n)%nat ->
  let w := JsNumber.of_nat i in
  let p := JsNumber.of_nat k in
  ((i < k)%nat /\ (w <? p)%float = true /\ (p <? w)%float = false)
  \/ (i = k /\ (w <? p)%float = false /\ (w =? p)%float = true
      /\ (p <? w)%float = false)
  \/ ((k < i)%nat /\ (w <? p)%float = false /\ (w =? p)%float = false
      /\ (p <? w)%float = true
      /\ (w - p)%float = JsNumber.of_nat (i - k) /\ (i - k <= 5)%nat).
Proof.
  intros Hnk Hi. cbv zeta.
  destruct Hnk as [[-> ->] | [[-> ->] | [-> ->]]];
    do 16 (destruct i as [ | i];
           [ first [ left; repeat split; (reflexivity || lia)
                   | right; left; repeat split; (reflexivity || lia)
                   | right; right; repeat split; (reflexivity || lia) ]
           | ]);
    exfalso; lia.
Qed.

Lemma valid_numbers (zone : JsDate.TimeZone) (now : JsDate.t)
      (data : TwoTier.FormData) :
  TwoTier.validate zone now data = [] ->
  nn (TwoTier.avgHours data) /\ 0 < ford (TwoTier.avgHours data)
  /\ nn (TwoTier.peakHours data)
  /\ ford (TwoTier.avgHours data) <= ford (TwoTier.peakHours data).
Proof.
  intros Hvalid. apply validate_nil_iff in Hvalid.
  destruct Hvalid as (_ & _ & Ha & Hp & Hap & _).
  destruct (flt_0_nn _ Ha) as [Hna Hpa].
  destruct (flt_0_nn _ Hp) as [Hnp _].
  repeat split; try assumption. now apply leb_ford.
Qed.




(** The fractions [w / peakWeekIndex] of the ramp. *)
Lemma ramp_fraction_cases (k i : nat) :
  k = 5%nat \/ k = 7%nat \/ k = 10%nat -> (i < k)%nat ->
  nf (JsNumber.of_nat i / JsNumber.of_nat k)
  /\ ford (JsNumber.of_nat i / JsNumber.of_nat k) <= ford 0.9375.
Proof.
  intros Hk Hi.
  destruct Hk as [-> | [-> | ->]];
    do 10 (destruct i as [ | i];
           [ first [ exfalso; lia
                   | split;
                     [ unfold nf; vm_compute; repeat split
                     | apply Z.leb_le; vm_compute; reflexivity ] ]
           | ]);
    exfalso; lia.
Qed.

(** Scaling by a factor of at most 1 does not increase a finite
    Number. *)
Lemma mul_le_one (peak c : float) :
  nf peak -> nf c -> ford c <= ford 1 ->
  nf (peak * c) /\ ford (peak * c) <= ford peak.
Proof.
  intros Hp Hc Hc1. destruct nf_1 as (Hnf1 & _ & Hone).
  pose proof (mul_Rounds peak c Hp Hc) as Hm.
  pose proof (nf_B2R_le c 1 Hc Hnf1 Hc1) as HC. rewrite Hone in HC.
  pose proof (B2R_nonneg peak Hp). pose proof (B2R_nonneg c Hc).
  assert (Hle : ford (peak * c) <= ford peak).
  { apply (Rounds_mono _ _ _ _ Hm (nf_Rounds peak Hp)). nra. }
  split; [ | exact Hle ].
  apply nn_below_top; [ apply (Rounds_nn _ _ Hm) | ].
  pose proof (nf_ford_range peak Hp). lia.
Qed.

(** C9, as amended.  On a valid two-tier record whose [peakHours] is
    finite, and with [Math.pow(0.8, k)] positive and at most 1 for
    [k = 1 .. 5], every entry's planned hours lie between
    [round1 avgHours] and [round1 peakHours] inclusive. *)
Theorem planned_hours_between_average_and_peak
        (Math_pow : float -> float -> float) (zone : JsDate.TimeZone)
        (fuel : nat)
        (now : JsDate.t) (data : TwoTier.FormData) :
  (16 <= fuel)%nat ->
  TwoTier.validate zone now data = [] ->
  finite (TwoTier.peakHours data) ->
  taperFactorsBounded Math_pow ->
  exists plan,
    TwoTier.buildPlaceholderPlan Math_pow zone fuel data = Returned plan
    /\ forall (i : nat) (entry : WeekEntry),
        nth_error (weeks plan) i = Some entry ->
        fle (round1 (TwoTier.avgHours data)) (plannedHours entry)
        /\ fle (plannedHours entry) (round1 (TwoTier.peakHours data)).
Proof.
  intros Hfuel Hvalid Hfin Hpow.
  destruct (valid_numbers zone now data Hvalid) as (Hna & Hpa & Hnp & Hap).
  assert (Hfp : nf (TwoTier.peakHours data)) by now apply is_finite_nf.
  assert (Hfa : nf (TwoTier.avgHours data)).
  { apply nn_below_top; [ exact Hna | ].
    pose proof (nf_ford_range _ Hfp). lia. }
  apply validate_nil_iff in Hvalid.
  destruct Hvalid as ((target & Htarget & _) & Hlen & _).
  destruct (plan_length_cases _ Hlen) as (n & Hn & Hlen').
  rewrite (twoTier_plan Math_pow zone fuel n data target Hn Hlen' Htarget Hfuel).
  eexists. split; [ reflexivity | ]. cbv beta iota delta [weeks].
  destruct (peakWeekIndex_cases n Hn) as (k & Hk & ->).
  intros i entry Hnth. rewrite nth_error_map in Hnth.
  destruct (nth_error (weekIndices n) i) as [w | ] eqn:Ew; [ | discriminate ].
  apply weekIndices_nth in Ew. destruct Ew as [Hi ->].
  injection Hnth as <-. cbn [plannedHours].
  assert (Hbounds : forall h, nn h ->
             ford (TwoTier.avgHours data) <= ford h ->
             ford h <= ford (TwoTier.peakHours data) ->
             fle (round1 (TwoTier.avgHours data)) (round1 h)
             /\ fle (round1 h) (round1 (TwoTier.peakHours data))).
  { intros h Hh Hlo Hhi.
    destruct (round1_mono _ _ Hna Hh Hlo) as (H1 & H2 & H3).
    destruct (round1_mono _ _ Hh Hnp Hhi) as (_ & H5 & H6).
    split; now apply ford_leb. }
  assert (Hknz : (JsNumber.of_nat k =? 0)%float = false).
  { destruct Hk as [[_ ->] | [[_ ->] | [_ ->]]]; reflexivity. }
  destruct (index_cases n k i Hk Hi)
    as [(Hik & H1 & _) | [(_ & H1 & H2 & _)
                         | (Hki & H1 & H2 & _ & H4 & H5)]].
  - (* the ramp *)
    rewrite hoursOfWeek_ramp by assumption.
    destruct (ramp_fraction_cases k i ltac:(lia) Hik) as [Ht Ht'].
    destruct (ramp_bounds _ _ _ Hfa Hfp Hap Ht Ht') as (Hr & Hlo & Hhi).
    apply Hbounds; [ now apply nf_nn | assumption | assumption ].
  - (* the peak week *)
    rewrite hoursOfWeek_peak by assumption.
    apply Hbounds; [ assumption | assumption | lia ].
  - (* the taper *)
    rewrite hoursOfWeek_taper, H4 by assumption.
    destruct (taperFactorsBounded_facts Math_pow Hpow (i - k) ltac:(lia))
      as (Fc & _ & Oc).
    destruct (mul_le_one _ _ Hfp Fc Oc) as [Hm Hmle].
    destruct (Math_max_nn (TwoTier.avgHours data) _ Hna (nf_nn _ Hm))
      as [Hx Hxo].
    apply Hbounds; [ assumption | lia | lia ].
Qed.

Lemma planned_hours_between_average_and_peak_witness :
  let now := JsDate.mk (20000 * 86400000 + 3600000) in
  let data :=
    TwoTier.mkFormData (Some (JsDate.mk (20240 * 86400000))) 16 7.5 12.25
                       ["Tue"; "Sat"]%string in
  exists plan,
    TwoTier.buildPlaceholderPlan JsNumber.pow_by_multiplication JsDate.utc 16 data
    = Returned plan
    /\ forall (i : nat) (entry : WeekEntry),
        nth_error (weeks plan) i = Some entry ->
        fle (round1 7.5) (plannedHours entry)
        /\ fle (plannedHours entry) (round1 12.25).
Proof.
  cbv zeta.
  apply (planned_hours_between_average_and_peak
           JsNumber.pow_by_multiplication JsDate.utc 16
           (JsDate.mk (20000 * 86400000 + 3600000))
           (TwoTier.mkFormData (Some (JsDate.mk (20240 * 86400000))) 16 7.5 12.25
                               ["Tue"; "Sat"]%string)
           (le_n 16)); reflexivity.
Defined.

(** C9 as stated fails: [peakHours = Infinity] passes the validator
    and satisfies [0 < avgHours <= peakHours], but the first week's
    planned hours are [round1 (10 + (Infinity - 10) * (0 / 5))], that
    is NaN, which is not at or above [round1 avgHours].  (All the later
    weeks have [Infinity].) *)
Lemma planned_hours_nan_for_infinite_peak :
  let now := JsDate.mk (20000 * 86400000 + 3600000) in
  let data :=
    TwoTier.mkFormData (Some (JsDate.mk (20240 * 86400000))) 8 10 infinity
                       ["Sat"%string] in
  TwoTier.validate JsDate.utc now data = []
  /\ flt 0 (TwoTier.avgHours data)
  /\ fle (TwoTier.avgHours data) (TwoTier.peakHours data)
  /\ exists plan first,
      TwoTier.buildPlaceholderPlan JsNumber.pow_by_multiplication JsDate.utc
                                   16 data
      = Returned plan
      /\ nth_error (weeks plan) 0 = Some first
      /\ JsNumber.isNaN (plannedHours first) = true
      /\ ~ fle (round1 (TwoTier.avgHours data)) (plannedHours first)
      /\ map plannedHours (skipn 1 (weeks plan))
         = [infinity; infinity; infinity; infinity; infinity; infinity;
            infinity].
Proof.
  cbv zeta. split; [ reflexivity | ]. split; [ reflexivity | ].
  split; [ reflexivity | ].
  eexists _, _. split; [ vm_compute; reflexivity | ].
  split; [ reflexivity | ]. split; [ reflexivity | ].
  split; [ vm_compute; discriminate | ]. reflexivity.
Qed.

(** C10, as amended.  On a valid two-tier record the peak week index is
    5, 7 or 10, hence positive; [interpolate] called with [x0 = 0] and
    [x1 = peakWeekIndex] never takes its [x1 === x0] branch and divides
    by a non-zero Number; and, when [peakHours] is finite, the first
    week's planned hours are exactly [round1 avgHours]. *)
Theorem peak_index_positive_and_first_week
        (Math_pow : float -> float -> float) (zone : JsDate.TimeZone)
        (fuel : nat)
        (now : JsDate.t) (data : TwoTier.FormData) :
  (16 <= fuel)%nat ->
  TwoTier.validate zone now data = [] ->
  let avg := TwoTier.avgHours data in
  let peak := TwoTier.peakHours data in
  let peakWeekIndex :=
    JsNumber.Math_floor (TwoTier.planLengthWeeks data * 0.65)%float in
  (peakWeekIndex = 5 \/ peakWeekIndex = 7 \/ peakWeekIndex = 10)%float
  /\ flt 0 peakWeekIndex
  /\ (forall w,
         TwoTier.interpolate w 0 peakWeekIndex avg peak
         = (avg + (peak - avg) * ((w - 0) / (peakWeekIndex - 0)))%float)
  /\ (peakWeekIndex - 0 =? 0)%float = false
  /\ exists plan first,
      TwoTier.buildPlaceholderPlan Math_pow zone fuel data = Returned plan
      /\ nth_error (weeks plan) 0 = Some first
      /\ (finite peak -> plannedHours first = round1 avg).
Proof.
  intros Hfuel Hvalid. cbv zeta.
  destruct (valid_numbers zone now data Hvalid) as (Hna & Hpa & Hnp & Hap).
  apply validate_nil_iff in Hvalid.
  destruct Hvalid as ((target & Htarget & _) & Hlen & _).
  destruct (plan_length_cases _ Hlen) as (n & Hn & Hlen').
  rewrite (twoTier_plan Math_pow zone fuel n data target Hn Hlen' Htarget Hfuel).
  rewrite Hlen'. fold (TwoTier.peakWeekIndexOf (JsNumber.of_nat n)).
  destruct (peakWeekIndex_cases n Hn) as (k & Hk & ->).
  assert (Hfacts :
            (JsNumber.of_nat k = 5 \/ JsNumber.of_nat k = 7
             \/ JsNumber.of_nat k = 10)%float
            /\ flt 0 (JsNumber.of_nat k)
            /\ (JsNumber.of_nat k =? 0)%float = false
            /\ (JsNumber.of_nat k - 0 =? 0)%float = false
            /\ (JsNumber.of_nat 0 <? JsNumber.of_nat k)%float = true
            /\ (JsNumber.of_nat 0 / JsNumber.of_nat k)%float = 0%float
            /\ (0 < n)%nat).
  { destruct Hk as [[-> ->] | [[-> ->] | [-> ->]]];
      repeat split; try reflexivity; try lia;
      [ left | right; left | right; right ]; reflexivity. }
  destruct Hfacts as (Hcases & Hpos & Hnz & Hdiv & Hlt0 & Hfrac & Hn0).
  split; [ exact Hcases | ]. split; [ exact Hpos | ].
  split; [ intros w; unfold TwoTier.interpolate; now rewrite Hnz | ].
  split; [ exact Hdiv | ].
  eexists _, _. split; [ reflexivity | ]. cbv beta iota delta [weeks].
  split.
  - rewrite nth_error_map, (weekIndices_nth_lt n 0 Hn0). reflexivity.
  - intros Hfin. cbn [plannedHours].
    rewrite hoursOfWeek_ramp, Hfrac by assumption.
    assert (Hfp : nf (TwoTier.peakHours data)) by now apply is_finite_nf.
    assert (Hfa : nf (TwoTier.avgHours data)).
    { apply nn_below_top; [ exact Hna | ].
      pose proof (nf_ford_range _ Hfp). lia. }
    now rewrite ramp_start.
Qed.

Lemma peak_index_positive_and_first_week_witness :
  let now := JsDate.mk (20000 * 86400000 + 3600000) in
  let data :=
    TwoTier.mkFormData (Some (JsDate.mk (20240 * 86400000))) 8 10 15
                       ["Sat"%string] in
  let peakWeekIndex := JsNumber.Math_floor (8 * 0.65)%float in
  (peakWeekIndex = 5 \/ peakWeekIndex = 7 \/ peakWeekIndex = 10)%float
  /\ flt 0 peakWeekIndex
  /\ (forall w,
         TwoTier.interpolate w 0 peakWeekIndex 10 15
         = (10 + (15 - 10) * ((w - 0) / (peakWeekIndex - 0)))%float)
  /\ (peakWeekIndex - 0 =? 0)%float = false
  /\ exists plan first,
      TwoTier.buildPlaceholderPlan JsNumber.pow_by_multiplication JsDate.utc 16 data
      = Returned plan
      /\ nth_error (weeks plan) 0 = Some first
      /\ plannedHours first = round1 10.
Proof.
  cbv zeta.
  destruct (peak_index_positive_and_first_week
              JsNumber.pow_by_multiplication JsDate.utc 16
              (JsDate.mk (20000 * 86400000 + 3600000))
              (TwoTier.mkFormData (Some (JsDate.mk (20240 * 86400000))) 8 10 15
                                  ["Sat"%string])
              (le_n 16) eq_refl)
    as (H1 & H2 & H3 & H4 & plan & first & H5 & H6 & H7).
  repeat (split; [ assumption | ]).
  exists plan, first. repeat (split; [ assumption | ]).
  apply H7. reflexivity.
Defined.

(** C10 as stated fails in its last part: with [peakHours = Infinity],
    a record that passes the validator, the first week's planned hours
    are NaN and not [round1 avgHours = 10]. *)
Lemma first_week_nan_for_infinite_peak :
  let now := JsDate.mk (20000 * 86400000 + 3600000) in
  let data :=
    TwoTier.mkFormData (Some (JsDate.mk (20240 * 86400000))) 12 10 infinity
                       ["Mon"; "Sat"]%string in
  TwoTier.validate JsDate.utc now data = []
  /\ exists plan first,
      TwoTier.buildPlaceholderPlan JsNumber.pow_by_multiplication JsDate.utc 16 data
      = Returned plan
      /\ nth_error (weeks plan) 0 = Some first
      /\ plannedHours first = nan
      /\ round1 (TwoTier.avgHours data) = 10%float
      /\ plannedHours first <> round1 (TwoTier.avgHours data).
Proof.
  cbv zeta. split; [ reflexivity | ].
  eexists _, _. split; [ vm_compute; reflexivity | ].
  split; [ reflexivity | ]. split; [ reflexivity | ].
  split; [ reflexivity | ].
  intros H. apply (f_equal PrimFloat.is_nan) in H. vm_compute in H.
  discriminate.
Qed.

(** ** Rounding to one decimal place *)

(* an integer below 2^53 is a binary64 value: rounding it is exact *)
Lemma Rounds_small_integer n f :
  Rounds (IZR n) f -> 0 <= n < 2 ^ 53 -> nnf f /\ SF2R f = IZR n.
Proof.
  intros Hr Hn.
  assert (Hfin : sford f < ordTop).
  { assert (Hv : valid_binary (S754_finite false 4503599627370496 1) = true)
      by reflexivity.
    pose proof (Rounds_mono _ _ _ _ Hr (Rounds_exact _ _ Hv)) as Hm.
    cbn [sford] in Hm. unfold ordTop. pow_consts.
    enough (sford f <= (1 + 1074) * 4503599627370496 + 4503599627370496)
      by lia.
    apply Hm. unfold F2R. rewrite bpow_1.
    replace (IZR 4503599627370496 * 2)%R with (IZR 9007199254740992)
      by (rewrite <- (mult_IZR 4503599627370496 2); reflexivity).
    apply IZR_le. lia. }
  destruct Hr as (mrs & E & Hc & ->).
  destruct Hc as (Hb & Hm & HE).
  destruct (finish_value mrs E Hm HE Hfin) as (Hnnf & Hval & _).
  split; [ exact Hnnf | ]. rewrite Hval.
  destruct (canonical_digits _ _ Hm HE) as (_ & _ & Hnorm & _).
  assert (HE0 : E <= 0).
  { destruct (Z_le_gt_dec E 0) as [ | Hgt]; [ assumption | exfalso ].
    specialize (Hnorm ltac:(lia)).
    pose proof (inbetween_bounds _ _ _ Hb) as [Hlo _].
    assert (Hh : (bpow (- E) <= / 2)%R).
    { replace (/ 2)%R with (bpow (- (1))) by (rewrite bpow_opp, bpow_1; reflexivity).
      apply bpow_le. lia. }
    pose proof (bpow_gt_0 (- E)) as Hp.
    assert (H0 : (0 <= IZR n)%R) by (apply IZR_le; lia).
    assert (H1 : (IZR n <= IZR 9007199254740991)%R) by (apply IZR_le; pow_consts; lia).
    assert (H2 : (IZR 4503599627370496 <= IZR (shr_m mrs))%R)
      by (apply IZR_le; pow_consts; lia).
    assert (H3 : (IZR n * bpow (- E) <= IZR 9007199254740991 * / 2)%R) by nra.
    assert (H4 : (IZR 9007199254740991 * / 2 < IZR 4503599627370496)%R).
    { replace (IZR 9007199254740991)
        with (2 * IZR 4503599627370496 - 1)%R; [ lra | ].
      rewrite <- (mult_IZR 2 4503599627370496), <- minus_IZR. reflexivity. }
    lra. }
  unfold inbetween_rec in Hb.
  rewrite (bpow_IZR (- E)), <- mult_IZR in Hb by lia.
  destruct (inbetween_integer _ _ _ Hb) as [HK Hl].
  assert (Hrnd : rnd mrs = shr_m mrs) by (unfold rnd; now rewrite Hl).
  rewrite Hrnd, <- HK. unfold F2R.
  rewrite mult_IZR, <- bpow_IZR by lia.
  rewrite Rmult_assoc, (Rmult_comm (bpow (- E))), bpow_opp_r. ring.
Qed.

(* Math.round of a fraction-carrying value stays below 2^53 *)
Lemma roundZ_small m e :
  valid_binary (S754_finite false m e) = true -> e < 0 ->
  0 <= roundZ (S754_finite false m e) < 2 ^ 53.
Proof.
  intros Hv He.
  assert (Hn : nnf (S754_finite false m e)) by (cbn; tauto).
  split; [ now apply roundZ_nonneg | ].
  rewrite (roundZ_floor _ Hn). cbn [SF2R].
  destruct (valid_finite_facts m e Hv) as (_ & _ & Hlt & _).
  apply lt_IZR.
  eapply Rle_lt_trans; [ apply (proj1 (Zfloor_bound _)) | ].
  assert (Hm : (IZR (Z.pos m) <= IZR 9007199254740991)%R)
    by (apply IZR_le; pow_consts; lia).
  assert (Hh : (bpow e <= / 2)%R).
  { replace (/ 2)%R with (bpow (- (1))) by (rewrite bpow_opp, bpow_1; reflexivity).
    apply bpow_le. lia. }
  pose proof (bpow_gt_0 e) as Hp.
  assert (H0 : (0 < IZR (Z.pos m))%R) by (apply IZR_lt; lia).
  unfold F2R.
  assert (H1 : (IZR (Z.pos m) * bpow e <= IZR 9007199254740991 * / 2)%R) by nra.
  assert (H2 : (IZR 9007199254740991 * / 2 + / 2 < IZR (2 ^ 53))%R).
  { pow_consts.
    replace (IZR 9007199254740992) with (IZR 9007199254740991 + 1)%R
      by (rewrite <- plus_IZR; reflexivity).
    assert (0 < IZR 9007199254740991)%R by (apply IZR_lt; lia). lra. }
  lra.
Qed.

(* Math.round returns floor (y + 1/2), exactly *)
Lemma Math_round_value y :
  nf y ->
  nf (JsNumber.Math_round y)
  /\ B2R (JsNumber.Math_round y) = IZR (Zfloor (B2R y + / 2)).
Proof.
  intros Hy. pose proof (Math_round_Rounds y Hy) as Hr.
  unfold B2R at 2. rewrite <- (roundZ_floor _ Hy).
  unfold nf in Hy.
  destruct (Prim2SF y) as [s | s | | s m e] eqn:Ey; cbn [nnf] in Hy;
    try tauto.
  - assert (Hrz : JsNumber.Math_round y = y)
      by (unfold JsNumber.Math_round; now rewrite Ey).
    rewrite Hrz. unfold nf, B2R. rewrite Ey. cbn. split; [ exact Hy | reflexivity ].
  - destruct Hy as [-> Hv].
    destruct (Z_le_gt_dec 0 e) as [He | He].
    + assert (Hrz : JsNumber.Math_round y = y).
      { unfold JsNumber.Math_round. rewrite Ey.
        apply Z.leb_le in He. now rewrite He. }
      rewrite Hrz. unfold nf, B2R. rewrite Ey. cbn [nnf SF2R roundZ].
      split; [ tauto | ].
      apply Z.leb_le in He. rewrite He. cbn [JsNumber.signed].
      apply Z.leb_le in He. unfold F2R. now rewrite mult_IZR, bpow_IZR.
    + apply (Rounds_small_integer _ _ Hr). apply roundZ_small; [ exact Hv | lia ].
Qed.

Lemma B2R_10 : B2R 10 = 10%R.
Proof.
  unfold B2R.
  change (Prim2SF 10) with (S754_finite false 5629499534213120 (- 49)).
  cbn [SF2R]. change 5629499534213120 with (10 * 2 ^ 49).
  change (- 49) with (0 - 49).
  rewrite (F2R_bpow_shift 10 0 49) by lia.
  unfold F2R. rewrite bpow_0. ring.
Qed.

(* a half-integer below 2^52 is a binary64 value: rounding it is exact *)
Lemma Rounds_small_half n f :
  Rounds (IZR n / 2) f -> 0 <= n < 2 ^ 53 -> nnf f /\ SF2R f = (IZR n / 2)%R.
Proof.
  intros Hr Hn.
  assert (H0 : (0 <= IZR n)%R) by (apply IZR_le; lia).
  assert (H1 : (IZR n <= IZR 9007199254740991)%R) by (apply IZR_le; pow_consts; lia).
  assert (Hfin : sford f < ordTop).
  { assert (Hv : valid_binary (S754_finite false 4503599627370496 1) = true)
      by reflexivity.
    pose proof (Rounds_mono _ _ _ _ Hr (Rounds_exact _ _ Hv)) as Hm.
    cbn [sford] in Hm. unfold ordTop. pow_consts.
    enough (sford f <= (1 + 1074) * 4503599627370496 + 4503599627370496)
      by lia.
    apply Hm. unfold F2R. rewrite bpow_1.
    replace (IZR 4503599627370496 * 2)%R with (IZR 9007199254740992)
      by (rewrite <- (mult_IZR 4503599627370496 2); reflexivity).
    assert (IZR 9007199254740991 <= IZR 9007199254740992)%R by (apply IZR_le; lia).
    lra. }
  destruct Hr as (mrs & E & Hc & ->).
  destruct Hc as (Hb & Hm & HE).
  destruct (finish_value mrs E Hm HE Hfin) as (Hnnf & Hval & _).
  split; [ exact Hnnf | ]. rewrite Hval.
  destruct (canonical_digits _ _ Hm HE) as (_ & _ & Hnorm & _).
  assert (HE0 : E <= - 1).
  { destruct (Z_le_gt_dec E (- 1)) as [ | Hgt]; [ assumption | exfalso ].
    specialize (Hnorm ltac:(lia)).
    pose proof (inbetween_bounds _ _ _ Hb) as [Hlo _].
    assert (Hh : (bpow (- E) <= 1)%R).
    { rewrite <- bpow_0. apply bpow_le. lia. }
    pose proof (bpow_gt_0 (- E)) as Hp.
    assert (H2 : (IZR 4503599627370496 <= IZR (shr_m mrs))%R)
      by (apply IZR_le; pow_consts; lia).
    assert (H3 : (IZR n / 2 * bpow (- E) <= IZR 9007199254740991 / 2)%R) by nra.
    assert (H4 : (IZR 9007199254740991 / 2 < IZR 4503599627370496)%R).
    { replace (IZR 9007199254740991)
        with (2 * IZR 4503599627370496 - 1)%R; [ lra | ].
      rewrite <- (mult_IZR 2 4503599627370496), <- minus_IZR. reflexivity. }
    lra. }
  unfold inbetween_rec in Hb.
  assert (Hx : (IZR n / 2 * bpow (- E))%R = IZR (n * 2 ^ (- E - 1))).
  { rewrite mult_IZR, <- bpow_IZR by lia.
    replace (- E) with (1 + (- E - 1)) at 1 by lia.
    rewrite bpow_add, bpow_1. field. }
  rewrite Hx in Hb.
  destruct (inbetween_integer _ _ _ Hb) as [HK Hl].
  assert (Hrnd : rnd mrs = shr_m mrs) by (unfold rnd; now rewrite Hl).
  rewrite Hrnd, <- HK. unfold F2R.
  rewrite mult_IZR, <- bpow_IZR by lia.
  rewrite Rmult_assoc, <- bpow_add.
  replace (- E - 1 + E) with (- (1)) by lia.
  rewrite bpow_opp, bpow_1. field.
Qed.

(* the Number of a half-integer below 2^52 *)
Lemma half_integer_value (K : Z) :
  0 <= K -> 2 * K + 1 < 2 ^ 53 ->
  nf (JsNumber.of_Z (2 * K + 1) / 2)
  /\ B2R (JsNumber.of_Z (2 * K + 1) / 2) = (IZR K + / 2)%R.
Proof.
  intros HK Hlt.
  destruct (Rounds_small_integer _ _ (of_Z_Rounds (2 * K + 1) ltac:(lia))
                                 ltac:(lia)) as [Hf Hv].
  fold (nf (JsNumber.of_Z (2 * K + 1))) in Hf.
  fold (B2R (JsNumber.of_Z (2 * K + 1))) in Hv.
  assert (H2 : nf 2 /\ 0 < ford 2 /\ B2R 2 = 2%R).
  { split; [ now apply (nn_sign 2 false 4503599627370496 (- 51)) | ].
    split; [ reflexivity | ].
    unfold B2R. change (Prim2SF 2) with (S754_finite false 4503599627370496 (- 51)).
    cbn [SF2R]. change 4503599627370496 with (2 * 2 ^ 51).
    change (- 51) with (0 - 51).
    rewrite (F2R_bpow_shift 2 0 51) by lia.
    unfold F2R. rewrite bpow_0. ring. }
  destruct H2 as (Hf2 & Hp2 & Hv2).
  pose proof (div_Rounds _ 2 Hf Hf2 Hp2) as Hd. rewrite Hv, Hv2 in Hd.
  destruct (Rounds_small_half _ _ Hd ltac:(lia)) as [Hh Hhv].
  split; [ exact Hh | ]. unfold B2R. rewrite Hhv.
  rewrite plus_IZR, mult_IZR. field.
Qed.

(* rounding does not cross a half-integer *)
Lemma tie_compare (x : R) (y : float) (K : Z) :
  Rounds x (Prim2SF y) -> nf y -> 0 <= K -> 2 * K + 1 < 2 ^ 53 ->
  ((x <= IZR K + / 2)%R -> (B2R y <= IZR K + / 2)%R)
  /\ ((IZR K + / 2 <= x)%R -> (IZR K + / 2 <= B2R y)%R).
Proof.
  intros Hr Hy HK Hlt.
  destruct (half_integer_value K HK Hlt) as [Hh Hhv].
  pose proof (nf_Rounds _ Hh) as Hrh. rewrite Hhv in Hrh.
  split; intros Hx; rewrite <- Hhv; apply nf_B2R_le; try assumption.
  - apply (Rounds_mono _ _ _ _ Hr Hrh Hx).
  - apply (Rounds_mono _ _ _ _ Hrh Hr Hx).
Qed.

Lemma B2R_2p51 :
  nf 2251799813685248 /\ B2R 2251799813685248 = IZR 2251799813685248.
Proof.
  split; [ now apply (nn_sign _ false 4503599627370496 (- 1)) | ].
  unfold B2R.
  change (Prim2SF 2251799813685248) with (S754_finite false 4503599627370496 (- 1)).
  cbn [SF2R]. unfold F2R. change (bpow (-1)) with (bpow (Z.opp 1)).
  rewrite bpow_opp, bpow_1.
  replace (IZR 4503599627370496) with (2 * IZR 2251799813685248)%R
    by (rewrite <- mult_IZR; reflexivity).
  field.
Qed.

(* the tenfold of a Number, as long as it stays below 2^51 *)
Lemma tenfold_facts (v : float) :
  nn v -> flt (v * 10) 2251799813685248 ->
  nf v /\ nf (v * 10)
  /\ Rounds (10 * B2R v) (Prim2SF (v * 10))
  /\ (0 <= 10 * B2R v < IZR 2251799813685248)%R.
Proof.
  intros Hv Hlt. destruct nf_10 as [H10 H10']. destruct B2R_2p51 as [Hc Hcv].
  destruct (mul_mono v v 10 10 Hv Hv H10 H10 H10' (Z.le_refl _) (Z.le_refl _))
    as (Hy & _ & _).
  apply (ltb_ford _ _ Hy (nf_nn _ Hc)) in Hlt.
  pose proof (nf_ford_range _ Hc) as Hcr.
  assert (Hyf : nf (v * 10))
    by (apply nn_below_top;
        [ exact Hy | eapply Z.lt_trans; [ exact Hlt | apply Hcr ] ]).
  assert (Hvf : nf v).
  { destruct (nn_cases v Hv) as [ | Hinf]; [ assumption | exfalso ].
    assert (Hm : Prim2SF (v * 10) = S754_infinity false)
      by (rewrite mul_spec, Hinf; reflexivity).
    unfold ford in Hlt, Hcr. rewrite Hm in Hlt. cbn [sford] in Hlt. lia. }
  pose proof (mul_Rounds v 10 Hvf H10) as Hr. rewrite B2R_10 in Hr.
  rewrite Rmult_comm in Hr.
  split; [ exact Hvf | ]. split; [ exact Hyf | ]. split; [ exact Hr | ].
  pose proof (B2R_nonneg v Hvf). split; [ lra | ].
  destruct (Rlt_le_dec (10 * B2R v) (IZR 2251799813685248)) as [ | Hge];
    [ assumption | exfalso ].
  pose proof (nf_Rounds _ Hc) as Hrc. rewrite Hcv in Hrc.
  pose proof (Rounds_mono _ _ _ _ Hrc Hr Hge). unfold ford in Hlt. lia.
Qed.

(* Math.round (v * 10) against half-up rounding of the exact tenfold *)
Lemma round_tenfold (v : float) :
  nn v -> flt (v * 10) 2251799813685248 ->
  let N := Zfloor (10 * B2R v + / 2) in
  exists n : Z,
    B2R (JsNumber.Math_round (v * 10)) = IZR n
    /\ (n = N
        \/ (n = N + 1 /\ B2R (v * 10) = (IZR N + / 2)%R
            /\ (10 * B2R v < IZR N + / 2)%R))
    /\ (B2R (v * 10) = (10 * B2R v)%R -> n = N)
    /\ Rounds (IZR n / 10) (Prim2SF (round1 v))
    /\ finite (round1 v).
Proof.
  intros Hv Hlt. cbv zeta.
  destruct (tenfold_facts v Hv Hlt) as (Hvf & Hyf & Hr & Hx0 & Hx1).
  destruct nf_10 as [H10 H10'].
  destruct (Math_round_value _ Hyf) as [Hrf Hrv].
  set (x := (10 * B2R v)%R) in *. set (y := B2R (v * 10)) in *.
  set (N := Zfloor (x + / 2)).
  pose proof (Zfloor_bound (x + / 2)) as [HN1 HN2]. fold N in HN1, HN2.
  assert (HN0 : 0 <= N).
  { assert (H : (IZR (- 1) < IZR N)%R) by (cbn; lra).
    apply lt_IZR in H. lia. }
  assert (HNtop : N <= 2251799813685248).
  { assert (H : (IZR N < IZR (2251799813685248 + 1))%R)
      by (rewrite plus_IZR; lra).
    apply lt_IZR in H. lia. }
  assert (Hy0 : (0 <= y)%R) by (apply B2R_nonneg; exact Hyf).
  assert (Hup : (y <= IZR N + / 2)%R).
  { apply (tie_compare x (v * 10) N Hr Hyf HN0); [ pow_consts; lia | lra ]. }
  assert (Hlow : (IZR N <= y + / 2)%R).
  { destruct (Z.eq_dec N 0) as [-> | Hnz]; [ cbn; lra | ].
    assert (H : (IZR (N - 1) + / 2 <= y)%R).
    { apply (tie_compare x (v * 10) (N - 1) Hr Hyf); [ lia | pow_consts; lia | ].
      rewrite minus_IZR. lra. }
    rewrite minus_IZR in H. lra. }
  exists (Zfloor (y + / 2)).
  split; [ exact Hrv | ].
  assert (Hcases : Zfloor (y + / 2) = N
                   \/ (Zfloor (y + / 2) = N + 1 /\ y = (IZR N + / 2)%R
                       /\ (x < IZR N + / 2)%R)).
  { destruct (Rlt_le_dec y (IZR N + / 2)) as [Hbelow | Hat].
    - left. apply Zfloor_eq. lra.
    - right. assert (Ey : y = (IZR N + / 2)%R) by lra.
      split; [ | split; [ exact Ey | lra ] ].
      apply Zfloor_eq. rewrite plus_IZR, Ey. lra. }
  split; [ exact Hcases | ].
  split; [ intros E; unfold N; now rewrite E | ].
  pose proof (div_Rounds _ 10 Hrf H10 H10') as Hd.
  rewrite B2R_10, Hrv in Hd. fold (round1 v) in Hd. fold y in Hd.
  split; [ exact Hd | ].
  apply nf_is_finite. apply nn_below_top; [ apply (Rounds_nn _ _ Hd) | ].
  pose proof (nf_Rounds _ Hrf) as Hr'. rewrite Hrv in Hr'. fold y in Hr'.
  pose proof (B2R_nonneg _ Hrf) as Hpos. rewrite Hrv in Hpos. fold y in Hpos.
  assert (Hle : (IZR (Zfloor (y + / 2)) / 10 <= IZR (Zfloor (y + / 2)))%R) by lra.
  pose proof (Rounds_mono _ _ _ _ Hd Hr' Hle) as Ho.
  pose proof (nf_ford_range _ Hrf). unfold ford in *. lia.
Qed.

Lemma B2R_8_35 : B2R 8.35 = (IZR 4700632111067955 / IZR 562949953421312)%R.
Proof.
  unfold B2R. change (Prim2SF 8.35) with (S754_finite false 4700632111067955 (- 49)).
  cbn [SF2R]. unfold F2R. change (bpow (-49)) with (bpow (Z.opp 49)).
  rewrite bpow_opp, (bpow_IZR 49) by lia.
  change (2 ^ 49) with 562949953421312. reflexivity.
Qed.
(** C7, as amended.  [round1 v] is [Math.round (v * 10) / 10].  On a
    non-negative [v] whose binary64 product [v * 10] is below [2^51],
    [Math.round] returns an integer [n], and [round1 v] is the binary64
    rounding of [n / 10], a finite Number.  With [N] the integer that
    half-up rounding gives for the exact tenfold of [v],
    [N = floor (10 v + 1/2)], [n] is [N], except when the exact tenfold
    is below the tie [N + 1/2] and the binary64 product is rounded up
    onto it: then [n = N + 1].  When the product is exact, [n = N].
    In particular [round1 2.45 = 2.5], [round1 2.449 = 2.4] and
    [round1] of the Number just below [2.45] is [2.4].  In both
    generators every week's planned hours are [round1] of the hours
    computed for that week. *)
Theorem round1_half_up_one_decimal
        (Math_pow : float -> float -> float) (zone : JsDate.TimeZone)
        (fuel : nat)
        (now : JsDate.t) (data : TwoTier.FormData)
        (single : SingleTier.FormData) (v : float) :
  (16 <= fuel)%nat ->
  nn v -> flt (v * 10) 2251799813685248 ->
  (round1 2.45 = 2.5 /\ round1 2.449 = 2.4
   /\ round1 2.4499999999999997 = 2.4)%float
  /\ (let N := Zfloor (10 * B2R v + / 2) in
      exists n : Z,
        B2R (JsNumber.Math_round (v * 10)) = IZR n
        /\ (n = N
            \/ (n = N + 1 /\ B2R (v * 10) = (IZR N + / 2)%R
                /\ (10 * B2R v < IZR N + / 2)%R))
        /\ (B2R (v * 10) = (10 * B2R v)%R -> n = N)
        /\ Rounds (IZR n / 10) (Prim2SF (round1 v))
        /\ finite (round1 v))
  /\ (TwoTier.validate zone now data = [] ->
      let peakWeekIndex :=
        JsNumber.Math_floor (TwoTier.planLengthWeeks data * 0.65)%float in
      exists plan,
        TwoTier.buildPlaceholderPlan Math_pow zone fuel data = Returned plan
        /\ forall (i : nat) (entry : WeekEntry),
            nth_error (weeks plan) i = Some entry ->
            plannedHours entry
            = round1 (TwoTier.hoursOfWeek Math_pow data peakWeekIndex
                                          (JsNumber.of_nat i)))
  /\ (SingleTier.validateDataInput single = [] ->
      exists plan,
        SingleTier.buildPlaceholderPlan zone fuel single = Returned plan
        /\ forall entry,
            In entry (weeks plan) ->
            plannedHours entry = round1 (SingleTier.avgHours single)).
Proof.
  intros Hfuel Hv Hbelow.
  split; [ repeat split; reflexivity | ].
  split; [ now apply round_tenfold | ]. split.
  - intros Hvalid. cbv zeta.
    apply validate_nil_iff in Hvalid.
    destruct Hvalid as ((target & Htarget & _) & Hlen & _).
    destruct (plan_length_cases _ Hlen) as (n & Hn & Hlen').
    rewrite (twoTier_plan Math_pow zone fuel n data target Hn Hlen' Htarget Hfuel).
    rewrite Hlen'. fold (TwoTier.peakWeekIndexOf (JsNumber.of_nat n)).
    eexists. split; [ reflexivity | ]. cbv beta iota delta [weeks].
    intros i entry Hi. rewrite nth_error_map in Hi.
    destruct (nth_error (weekIndices n) i) as [w | ] eqn:Ew;
      [ | discriminate ].
    destruct (weekIndices_nth _ _ _ Ew) as [_ ->].
    cbn [option_map] in Hi. injection Hi as <-. reflexivity.
  - intros Hvalid.
    apply validateDataInput_nil_iff in Hvalid.
    destruct Hvalid as (Hdate & Hlen & _).
    destruct (SingleTier.targetDate single) as [target | ] eqn:Htarget;
      [ | congruence ].
    destruct (plan_length_cases _ Hlen) as (n & Hn & Hlen').
    rewrite (singleTier_plan zone fuel n single target Hn Hlen' Htarget Hfuel).
    eexists. split; [ reflexivity | ]. cbv beta iota delta [weeks].
    intros entry Hin. apply in_map_iff in Hin.
    destruct Hin as (w & <- & _). reflexivity.
Qed.

Lemma round1_half_up_one_decimal_witness :
  let now := JsDate.mk (20000 * 86400000 + 3600000) in
  let target := JsDate.mk (20240 * 86400000) in
  let data := TwoTier.mkFormData (Some target) 8 10 15 ["Sat"%string] in
  let single :=
    SingleTier.mkFormData (Some target) 12 8 ["Mon"; "Wed"; "Sat"]%string in
  let v := 12.25%float in
  (nn v /\ flt (v * 10) 2251799813685248)
  /\ (exists n : Z,
         B2R (JsNumber.Math_round (v * 10)) = IZR n
         /\ (n = Zfloor (10 * B2R v + / 2)
             \/ (n = Zfloor (10 * B2R v + / 2) + 1
                 /\ B2R (v * 10) = (IZR (Zfloor (10 * B2R v + / 2)) + / 2)%R
                 /\ (10 * B2R v < IZR (Zfloor (10 * B2R v + / 2)) + / 2)%R))
         /\ (B2R (v * 10) = (10 * B2R v)%R -> n = Zfloor (10 * B2R v + / 2))
         /\ Rounds (IZR n / 10) (Prim2SF (round1 v))
         /\ finite (round1 v))
  /\ (exists plan,
         TwoTier.buildPlaceholderPlan JsNumber.pow_by_multiplication JsDate.utc
                                      16 data
         = Returned plan
         /\ forall (i : nat) (entry : WeekEntry),
             nth_error (weeks plan) i = Some entry ->
             plannedHours entry
             = round1 (TwoTier.hoursOfWeek
                         JsNumber.pow_by_multiplication data
                         (JsNumber.Math_floor (8 * 0.65)%float)
                         (JsNumber.of_nat i)))
  /\ (exists plan,
         SingleTier.buildPlaceholderPlan JsDate.utc 16 single = Returned plan
         /\ forall entry,
             In entry (weeks plan) -> plannedHours entry = round1 8).
Proof.
  cbv zeta.
  assert (Hnn : nn 12.25) by (vm_compute; split; reflexivity).
  assert (Hbelow : flt (12.25 * 10) 2251799813685248) by reflexivity.
  split; [ split; assumption | ].
  destruct (round1_half_up_one_decimal
              JsNumber.pow_by_multiplication JsDate.utc 16
              (JsDate.mk (20000 * 86400000 + 3600000))
              (TwoTier.mkFormData (Some (JsDate.mk (20240 * 86400000)))
                                  8 10 15 ["Sat"%string])
              (SingleTier.mkFormData (Some (JsDate.mk (20240 * 86400000)))
                                     12 8 ["Mon"; "Wed"; "Sat"]%string)
              12.25 (le_n 16) Hnn Hbelow)
    as (_ & Hround & Htwo & Hsingle).
  split; [ exact Hround | ].
  split; [ apply Htwo | apply Hsingle ]; reflexivity.
Defined.

(** C7 as stated fails in two ways.  The Number [8.35] is below the
    tie 8.35, so that half-up rounding of its tenths gives 8.3; yet
    the binary64 product [8.35 * 10] is rounded up to exactly 83.5 and
    [round1] returns 8.4, on a record that the single-tier validator
    accepts, in every week of its plan.  And where the product
    overflows, as for the finite whole Number [1e308] on a record that
    the two-tier validator accepts, [round1] returns [Infinity]. *)
Lemma round1_is_not_half_up_on_tenths :
  let v := 8.35%float in
  let single :=
    SingleTier.mkFormData (Some (JsDate.mk (20240 * 86400000))) 12 v
                          ["Mon"; "Wed"; "Sat"]%string in
  let now := JsDate.mk (20000 * 86400000 + 3600000) in
  let data :=
    TwoTier.mkFormData (Some (JsDate.mk (20240 * 86400000))) 8 1e308 1e308
                       ["Sat"%string] in
  (SingleTier.validateDataInput single = []
   /\ (B2R v < 835 / 100)%R
   /\ Zfloor (10 * B2R v + / 2) = 83
   /\ (v * 10 = 83.5)%float
   /\ JsNumber.Math_round (v * 10) = 84%float
   /\ round1 v = 8.4%float
   /\ exists plan,
       SingleTier.buildPlaceholderPlan JsDate.utc 16 single = Returned plan
       /\ List.length (weeks plan) = 12%nat
       /\ forall entry,
           In entry (weeks plan) -> plannedHours entry = 8.4%float)
  /\ (TwoTier.validate JsDate.utc now data = []
      /\ finite 1e308
      /\ JsNumber.Math_floor 1e308 = 1e308%float
      /\ round1 1e308 = infinity
      /\ exists plan first,
          TwoTier.buildPlaceholderPlan JsNumber.pow_by_multiplication
                                       JsDate.utc 16 data
          = Returned plan
          /\ nth_error (weeks plan) 0 = Some first
          /\ plannedHours first = infinity).
Proof.
  cbv zeta. split.
  - split; [ reflexivity | ]. rewrite B2R_8_35.
    split; [ lra | ]. split; [ apply Zfloor_eq; lra | ].
    repeat (split; [ reflexivity | ]).
    eexists. split; [ vm_compute; reflexivity | ].
    split; [ reflexivity | ].
    cbn [weeks In]. intros entry Hin.
    repeat (destruct Hin as [<- | Hin]; [ reflexivity | ]). contradiction.
  - repeat (split; [ reflexivity | ]).
    eexists _, _. split; [ vm_compute; reflexivity | ].
    split; reflexivity.
Qed.


(* ================================================================== *)
(** * Part III.  Properties of the rest of the page code               *)
(* ================================================================== *)

Local Open Scope string_scope.

(** ** Escaping markup *)

Lemma isMarkupChar_cases (ch : ascii) :
  isMarkupChar ch = true ->
  ch = "&"%char \/ ch = "<"%char \/ ch = ">"%char
  \/ ch = JsString.dquote \/ ch = "'"%char.
Proof.
  unfold isMarkupChar, markupChars. cbn [existsb].
  rewrite !orb_true_iff, !Ascii.eqb_eq. intuition discriminate.
Qed.

Lemma isMarkupChar_In (ch : ascii) :
  isMarkupChar ch = true <-> In ch markupChars.
Proof.
  unfold isMarkupChar. rewrite existsb_exists. split.
  - intros (x & Hin & Heq). apply Ascii.eqb_eq in Heq. now subst.
  - intros Hin. exists ch. split; [ exact Hin | apply Ascii.eqb_refl ].
Qed.

(** What [escapeHtml] puts in place of one character. *)
Lemma escapeHtml_cons (ch : ascii) (rest : string) :
  escapeHtml (String ch rest)
  = (if isMarkupChar ch then entityOf ch else String ch EmptyString)
    ++ escapeHtml rest.
Proof. reflexivity. Qed.

Lemma escapeHtml_cons_plain (ch : ascii) (rest : string) :
  isMarkupChar ch = false ->
  escapeHtml (String ch rest) = String ch (escapeHtml rest).
Proof. intros H. rewrite escapeHtml_cons, H. reflexivity. Qed.

Lemma string_app_assoc (a b c : string) : (a ++ b) ++ c = a ++ (b ++ c).
Proof. induction a as [ | x a IH]; cbn; [ reflexivity | now rewrite IH ]. Qed.

Lemma string_app_nil_r (a : string) : a ++ "" = a.
Proof. induction a as [ | x a IH]; cbn; [ reflexivity | now rewrite IH ]. Qed.

Lemma string_length_app (a b : string) :
  String.length (a ++ b) = (String.length a + String.length b)%nat.
Proof. induction a as [ | x a IH]; cbn; [ reflexivity | now rewrite IH ]. Qed.

Lemma chars_app (a b : string) :
  list_ascii_of_string (a ++ b)
  = (list_ascii_of_string a ++ list_ascii_of_string b)%list.
Proof. induction a as [ | x a IH]; cbn; [ reflexivity | now rewrite IH ]. Qed.

(** Where a character of [piece ++ rest] lies. *)
Lemma string_app_split (pre post piece rest : string) (ch : ascii) :
  pre ++ String ch post = piece ++ rest ->
  (exists mid, piece = pre ++ String ch mid /\ post = mid ++ rest)
  \/ (exists pre', pre = piece ++ pre' /\ rest = pre' ++ String ch post).
Proof.
  revert piece. induction pre as [ | x pre IH]; intros piece H.
  - destruct piece as [ | y piece]; cbn in H.
    + right. exists "". split; [ reflexivity | now rewrite <- H ].
    + injection H as -> ->. left. now exists piece.
  - destruct piece as [ | y piece]; cbn in H.
    + right. exists (String x pre). split; [ reflexivity | now rewrite <- H ].
    + injection H as -> H. destruct (IH _ H) as [(mid & -> & ->) | (pre' & -> & ->)].
      * left. now exists mid.
      * right. now exists pre'.
Qed.

(** The piece that replaces a character either is that character, which
    is no markup character, or is an entity. *)
Lemma piece_cases (ch : ascii) :
  (isMarkupChar ch = false)
  \/ (isMarkupChar ch = true
      /\ exists tail, In tail entityTails /\ entityOf ch = String "&" tail
                      /\ forall c, In c (list_ascii_of_string tail) ->
                                   isMarkupChar c = false).
Proof.
  destruct (isMarkupChar ch) eqn:E; [ right | now left ].
  split; [ reflexivity | ].
  destruct (isMarkupChar_cases ch E) as [-> | [-> | [-> | [-> | ->]]]];
    cbv [entityOf lookupProperty entities];
    match goal with
    | |- exists tail, _ /\ ?e = _ /\ _ =>
        let e' := eval vm_compute in e in
        match e' with
        | String _ ?t => exists t
        end
    end;
    (split; [ cbn; tauto | ]);
    (split; [ reflexivity | ]);
    intros c Hc; cbn in Hc;
    repeat (destruct Hc as [<- | Hc]; [ reflexivity | ]); contradiction.
Qed.

(** X1.  The result of [escapeHtml] holds no angle bracket and no
    quote, and every ampersand in it starts one of the five entities
    [&amp;], [&lt;], [&gt;], [&quot;], [&#39;]; no character is ever
    replaced by the text [undefined]. *)
Theorem escapeHtml_leaves_no_markup (str : string) :
  (forall ch, In ch (list_ascii_of_string (escapeHtml str)) ->
              ch <> "<"%char /\ ch <> ">"%char
              /\ ch <> JsString.dquote /\ ch <> "'"%char)
  /\ (forall pre post,
         escapeHtml str = pre ++ String "&" post ->
         exists tail rest, In tail entityTails /\ post = tail ++ rest)
  /\ (forall ch, isMarkupChar ch = true ->
                 lookupProperty entities ch <> None).
Proof.
  split; [ | split ].
  - induction str as [ | c str IH]; intros ch Hin; [ contradiction | ].
    rewrite escapeHtml_cons, chars_app in Hin. apply in_app_or in Hin.
    destruct Hin as [Hin | Hin]; [ | now apply IH ].
    assert (Hplain : isMarkupChar ch = false \/ ch = "&"%char).
    { destruct (piece_cases c) as [Hc | (Hc & tail & _ & Ht & Hplain)];
        rewrite Hc in Hin.
      - destruct Hin as [<- | []]. now left.
      - rewrite Ht in Hin. destruct Hin as [<- | Hin]; [ now right | ].
        left. now apply Hplain. }
    destruct Hplain as [Hplain | ->];
      [ | repeat split; discriminate ].
    repeat split; intros ->; discriminate.
  - induction str as [ | c str IH]; intros pre post H.
    + destruct pre; discriminate.
    + rewrite escapeHtml_cons in H. symmetry in H.
      destruct (string_app_split _ _ _ _ _ H)
        as [(mid & Hpiece & ->) | (pre' & -> & Hrest)].
      * destruct (piece_cases c) as [Hc | (Hc & tail & Hin & Ht & Hplain)];
          rewrite Hc in Hpiece.
        -- destruct pre as [ | x pre].
           ++ injection Hpiece as -> _. discriminate.
           ++ destruct pre; discriminate.
        -- rewrite Ht in Hpiece. destruct pre as [ | x pre].
           ++ injection Hpiece as <-. now exists tail, (escapeHtml str).
           ++ injection Hpiece as _ Htail. exfalso.
              assert (Hamp : In "&"%char (list_ascii_of_string tail)).
              { rewrite Htail, chars_app. apply in_or_app. right. now left. }
              specialize (Hplain _ Hamp). discriminate.
      * now apply (IH pre' post).
  - intros ch Hch.
    destruct (isMarkupChar_cases ch Hch) as [-> | [-> | [-> | [-> | ->]]]];
      discriminate.
Qed.

Lemma piece_inj (c1 c2 : ascii) (r1 r2 : string) :
  (if isMarkupChar c1 then entityOf c1 else String c1 EmptyString) ++ r1
  = (if isMarkupChar c2 then entityOf c2 else String c2 EmptyString) ++ r2 ->
  c1 = c2 /\ r1 = r2.
Proof.
  destruct (isMarkupChar c1) eqn:E1, (isMarkupChar c2) eqn:E2.
  - destruct (isMarkupChar_cases c1 E1) as [-> | [-> | [-> | [-> | ->]]]];
      destruct (isMarkupChar_cases c2 E2) as [-> | [-> | [-> | [-> | ->]]]];
      cbn; intros H; try discriminate; injection H as ->; split; reflexivity.
  - destruct (isMarkupChar_cases c1 E1) as [-> | [-> | [-> | [-> | ->]]]];
      cbn; intros H; injection H as <- _; discriminate.
  - destruct (isMarkupChar_cases c2 E2) as [-> | [-> | [-> | [-> | ->]]]];
      cbn; intros H; injection H as -> _; discriminate.
  - cbn. intros H. injection H as -> ->. split; reflexivity.
Qed.

Lemma piece_nonempty (c : ascii) (r : string) :
  (if isMarkupChar c then entityOf c else String c EmptyString) ++ r <> "".
Proof.
  destruct (piece_cases c) as [-> | (-> & tail & _ & -> & _)]; discriminate.
Qed.

Lemma escapeHtml_inj (a b : string) :
  escapeHtml a = escapeHtml b -> a = b.
Proof.
  revert b. induction a as [ | x a IH]; intros [ | y b] H.
  - reflexivity.
  - rewrite escapeHtml_cons in H. symmetry in H.
    now apply piece_nonempty in H.
  - rewrite escapeHtml_cons in H. now apply piece_nonempty in H.
  - rewrite !escapeHtml_cons in H. apply piece_inj in H.
    destruct H as [-> H]. now rewrite (IH _ H).
Qed.

(** X2.  [escapeHtml] loses nothing: two texts with the same escaped
    form are the same text. *)
Theorem escapeHtml_injective (a b : string) :
  escapeHtml a = escapeHtml b -> a = b.
Proof. apply escapeHtml_inj. Qed.

Lemma escapeHtml_injective_witness :
  escapeHtml "a<b" = escapeHtml "a<b" /\ "a<b" = "a<b".
Proof.
  split; [ reflexivity | ].
  apply (escapeHtml_injective "a<b" "a<b"). reflexivity.
Defined.

Lemma escapeHtml_length_ge (str : string) :
  (String.length str <= String.length (escapeHtml str))%nat.
Proof.
  induction str as [ | c str IH]; [ apply le_n | ].
  rewrite escapeHtml_cons, string_length_app.
  destruct (piece_cases c) as [-> | (-> & tail & _ & -> & _)]; cbn; lia.
Qed.

(** X3.  [escapeHtml] works character by character, so it distributes
    over concatenation; it returns its argument unchanged exactly when
    the argument holds no markup character; and escaping twice gives
    the same as escaping once only in that case. *)
Theorem escapeHtml_concat_and_fixed_points (a b : string) :
  escapeHtml (a ++ b) = escapeHtml a ++ escapeHtml b
  /\ (escapeHtml a = a
      <-> forall ch, In ch (list_ascii_of_string a) -> isMarkupChar ch = false)
  /\ (escapeHtml (escapeHtml a) = escapeHtml a <-> escapeHtml a = a).
Proof.
  assert (Hfix : forall s,
             escapeHtml s = s
             <-> forall ch, In ch (list_ascii_of_string s) ->
                            isMarkupChar ch = false).
  { induction s as [ | c s IH].
    - split; [ intros _ ch [] | reflexivity ].
    - split.
      + intros H ch Hin.
        destruct (isMarkupChar c) eqn:Ec.
        * exfalso. rewrite escapeHtml_cons, Ec in H.
          apply (f_equal String.length) in H.
          rewrite string_length_app in H. cbn [String.length] in H.
          pose proof (escapeHtml_length_ge s).
          destruct (piece_cases c) as [Hc | (_ & tail & Hin' & Ht & _)];
            [ congruence | ].
          rewrite Ht in H. cbn [String.length] in H.
          assert (1 <= String.length tail)%nat.
          { cbn in Hin'.
            repeat (destruct Hin' as [<- | Hin']; [ cbn; lia | ]).
            contradiction. }
          lia.
        * rewrite escapeHtml_cons_plain in H by assumption.
          injection H as H. destruct Hin as [<- | Hin]; [ assumption | ].
          now apply IH.
      + intros H.
        rewrite escapeHtml_cons_plain by (apply H; now left).
        f_equal. apply IH. intros ch Hin. apply H. now right. }
  split; [ | split ].
  - induction a as [ | c a IH]; [ reflexivity | ].
    cbn [append]. rewrite !escapeHtml_cons, IH. now rewrite string_app_assoc.
  - apply Hfix.
  - split; intros H.
    + now apply escapeHtml_inj.
    + now rewrite H.
Qed.

Local Close Scope string_scope.

(** *** The text of a date *)

Lemma ofInteger_inj (a b : Z) :
  JsString.ofInteger a = JsString.ofInteger b -> a = b.
Proof.
  unfold JsString.ofInteger. intros H.
  assert (Hn : forall z, Z.to_int z <> Decimal.Pos Decimal.Nil
                         /\ Z.to_int z <> Decimal.Neg Decimal.Nil).
  { intros [ | p | p]; cbn; split; try discriminate;
      intros E; injection E; apply Unsigned.to_uint_nonnil. }
  apply (f_equal NilZero.int_of_string) in H.
  rewrite !NilZero.isi in H by apply Hn.
  injection H as H. now apply DecimalZ.to_int_inj.
Qed.

Lemma string_app_inv (a b c d : string) :
  (a ++ b = c ++ d)%string -> String.length a = String.length c ->
  a = c /\ b = d.
Proof.
  revert c. induction a as [ | x a IH]; intros [ | y c] H Hl;
    cbn in *; try discriminate.
  - now split.
  - injection H as -> H. injection Hl as Hl.
    destruct (IH _ H Hl) as [-> ->]. now split.
Qed.

Lemma string_app_inv_tail (a b c d : string) :
  (a ++ b = c ++ d)%string -> String.length b = String.length d ->
  a = c /\ b = d.
Proof.
  intros H Hl. apply string_app_inv; [ exact H | ].
  apply (f_equal String.length) in H.
  rewrite !string_length_app in H. lia.
Qed.

(** The [count] integers from [lo] all satisfy [check]. *)
Lemma range_check (check : Z -> bool) (lo count : Z) :
  forallb (fun k => check (lo + Z.of_nat k)) (seq 0 (Z.to_nat count)) = true ->
  forall n, lo <= n < lo + count -> check n = true.
Proof.
  intros H n Hn. rewrite forallb_forall in H.
  specialize (H (Z.to_nat (n - lo))).
  replace (lo + Z.of_nat (Z.to_nat (n - lo))) with n in H by lia.
  apply H. apply in_seq. lia.
Qed.

Lemma twoDigits_facts (n : Z) :
  1 <= n <= 31 ->
  String.length (twoDigits n) = 2%nat /\ allDigits (twoDigits n) = true.
Proof.
  intros Hn.
  pose proof (range_check
                (fun n => (String.length (twoDigits n) =? 2)%nat
                          && allDigits (twoDigits n))
                1 31 eq_refl n ltac:(lia)) as H.
  apply andb_true_iff in H. destruct H as [H1 H2].
  apply Nat.eqb_eq in H1. now split.
Qed.

Lemma twoDigits_inj (a b : Z) :
  1 <= a <= 31 -> 1 <= b <= 31 -> twoDigits a = twoDigits b -> a = b.
Proof.
  intros Ha Hb H.
  pose proof (range_check
                (fun a => forallb
                            (fun k => implb (String.eqb (twoDigits a)
                                               (twoDigits (1 + Z.of_nat k)))
                                            (a =? 1 + Z.of_nat k))
                            (seq 0 (Z.to_nat 31)))
                1 31 eq_refl a ltac:(lia)) as Hc.
  cbv beta in Hc.
  pose proof (range_check
                (fun b => implb (String.eqb (twoDigits a) (twoDigits b))
                                (a =? b))
                1 31 Hc b ltac:(lia)) as Hab.
  cbv beta in Hab.
  apply String.eqb_eq in H. rewrite H in Hab. now apply Z.eqb_eq.
Qed.

(** The day number of a date is fixed by its three fields. *)
Lemma day_of_fields (day : Z) :
  day = JsCalendar.MakeDay (JsCalendar.YearFromDay day)
                           (JsCalendar.MonthFromDay day)
                           (JsCalendar.DateFromDay day).
Proof.
  pose proof (MakeDay_fields day 0) as H. rewrite !Z.sub_0_r in H.
  now rewrite H.
Qed.

Lemma fields_ranges (d : JsDate.t) :
  1 <= JsDateFields.getMonth d + 1 <= 12
  /\ 1 <= JsDateFields.getDate d <= 31.
Proof.
  destruct (month_date_facts (JsDate.Day (JsDate.timeValue d)))
    as (Hm & Hd & _).
  unfold JsDateFields.getMonth, JsDateFields.getDate. lia.
Qed.

Lemma same_fields_same_day (a b : JsDate.t) :
  JsDateFields.getFullYear a = JsDateFields.getFullYear b ->
  JsDateFields.getMonth a + 1 = JsDateFields.getMonth b + 1 ->
  JsDateFields.getDate a = JsDateFields.getDate b ->
  JsDate.Day (JsDate.timeValue a) = JsDate.Day (JsDate.timeValue b).
Proof.
  unfold JsDateFields.getFullYear, JsDateFields.getMonth, JsDateFields.getDate.
  intros Hy Hm Hd.
  rewrite (day_of_fields (JsDate.Day (JsDate.timeValue a))).
  rewrite (day_of_fields (JsDate.Day (JsDate.timeValue b))).
  rewrite Hy, Hd. f_equal. lia.
Qed.

Local Open Scope string_scope.

(** X6.  In both files [formatDate] gives two dates the same text
    exactly when they fall on the same calendar day, and never gives a
    valid date the text [NaN-NaN-NaN] of the Invalid Date. *)
Theorem formatDate_one_text_per_day (a b : JsDate.t) :
  (TwoTierPage.formatDate (Some a) = TwoTierPage.formatDate (Some b)
   <-> JsDate.Day (JsDate.timeValue a) = JsDate.Day (JsDate.timeValue b))
  /\ (SingleTierPage.formatDate (Some a) = SingleTierPage.formatDate (Some b)
      <-> JsDate.Day (JsDate.timeValue a) = JsDate.Day (JsDate.timeValue b))
  /\ TwoTierPage.formatDate None = "NaN-NaN-NaN"
  /\ SingleTierPage.formatDate None = "NaN-NaN-NaN"
  /\ TwoTierPage.formatDate (Some a) <> TwoTierPage.formatDate None
  /\ SingleTierPage.formatDate (Some a) <> SingleTierPage.formatDate None.
Proof.
  destruct (fields_ranges a) as [Hma Hda], (fields_ranges b) as [Hmb Hdb].
  destruct (twoDigits_facts (JsDateFields.getMonth a + 1) ltac:(lia)) as [Lma _].
  destruct (twoDigits_facts (JsDateFields.getMonth b + 1) ltac:(lia)) as [Lmb _].
  destruct (twoDigits_facts _ Hda) as [Lda _], (twoDigits_facts _ Hdb) as [Ldb _].
  assert (Hsame : JsDate.Day (JsDate.timeValue a) = JsDate.Day (JsDate.timeValue b) ->
                  JsDateFields.getFullYear a = JsDateFields.getFullYear b
                  /\ JsDateFields.getMonth a = JsDateFields.getMonth b
                  /\ JsDateFields.getDate a = JsDateFields.getDate b).
  { unfold JsDateFields.getFullYear, JsDateFields.getMonth, JsDateFields.getDate.
    now intros ->. }
  split; [ | split; [ | split; [ reflexivity | split; [ reflexivity | split ] ] ] ].
  - unfold TwoTierPage.formatDate. cbv zeta. split.
    + intros H.
      rewrite <- !string_app_assoc in H.
      apply string_app_inv_tail in H; [ | congruence ]. destruct H as [H Hd].
      apply string_app_inv_tail in H; [ | reflexivity ]. destruct H as [H _].
      apply string_app_inv_tail in H; [ | congruence ]. destruct H as [H Hm].
      apply string_app_inv_tail in H; [ | reflexivity ]. destruct H as [Hy _].
      apply same_fields_same_day.
      * now apply ofInteger_inj.
      * apply twoDigits_inj; [ lia | lia | assumption ].
      * now apply twoDigits_inj.
    + intros H. destruct (Hsame H) as (-> & -> & ->). reflexivity.
  - unfold SingleTierPage.formatDate. cbv zeta. split.
    + intros H.
      apply string_app_inv in H; [ | congruence ]. destruct H as [Hd H].
      apply string_app_inv in H; [ | reflexivity ]. destruct H as [_ H].
      apply string_app_inv in H; [ | congruence ]. destruct H as [Hm H].
      apply string_app_inv in H; [ | reflexivity ]. destruct H as [_ Hy].
      apply same_fields_same_day.
      * now apply ofInteger_inj.
      * apply twoDigits_inj; [ lia | lia | assumption ].
      * now apply twoDigits_inj.
    + intros H. destruct (Hsame H) as (-> & -> & ->). reflexivity.
  - change (TwoTierPage.formatDate None) with ("NaN-NaN-N" ++ "aN").
    unfold TwoTierPage.formatDate. cbv zeta. intros H.
    rewrite <- !string_app_assoc in H.
    apply string_app_inv_tail in H; [ | exact Lda ]. destruct H as [H _].
    change "NaN-NaN-N" with ("NaN-NaN-" ++ "N") in H.
    apply string_app_inv_tail in H; [ | reflexivity ]. destruct H as [_ H].
    discriminate.
  - change (SingleTierPage.formatDate None) with ("Na" ++ "N-NaN-NaN").
    unfold SingleTierPage.formatDate. cbv zeta. intros H.
    apply string_app_inv in H; [ | exact Lda ]. destruct H as [_ H].
    discriminate.
Qed.

Local Close Scope string_scope.

Lemma year_text_check :
  forallb (fun k => (String.length (JsString.ofInteger (1000 + Z.of_nat k)) =? 4)%nat
                    && allDigits (JsString.ofInteger (1000 + Z.of_nat k)))
          (seq 0 (Z.to_nat 9000)) = true.
Proof. vm_compute. reflexivity. Qed.

Lemma year_text_facts (y : Z) :
  1000 <= y <= 9999 ->
  String.length (JsString.ofInteger y) = 4%nat
  /\ allDigits (JsString.ofInteger y) = true.
Proof.
  intros Hy.
  pose proof (range_check
                (fun y => (String.length (JsString.ofInteger y) =? 4)%nat
                          && allDigits (JsString.ofInteger y))
                1000 9000 year_text_check y ltac:(lia)) as H.
  apply andb_true_iff in H. destruct H as [H1 H2].
  apply Nat.eqb_eq in H1. now split.
Qed.

Lemma string_length_2 (s : string) :
  String.length s = 2%nat -> exists c1 c2, s = String c1 (String c2 "").
Proof.
  destruct s as [ | c1 [ | c2 [ | c3 s]]]; cbn; try discriminate.
  intros _. now exists c1, c2.
Qed.

Lemma string_length_4 (s : string) :
  String.length s = 4%nat ->
  exists c1 c2 c3 c4, s = String c1 (String c2 (String c3 (String c4 ""))).
Proof.
  destruct s as [ | c1 [ | c2 [ | c3 [ | c4 [ | c5 s]]]]]; cbn;
    try discriminate.
  intros _. now exists c1, c2, c3, c4.
Qed.

Local Open Scope string_scope.

(** X7.  For a date in the years 1000 to 9999 both files give a text of
    ten characters made of the four digits of the year, the two digits
    of the month and the two digits of the day of the month, joined by
    two hyphens: year first in the two-tier file, day first in
    [src/app.js]. *)
Theorem formatDate_layout (d : JsDate.t) :
  1000 <= JsDateFields.getFullYear d <= 9999 ->
  let yyyy := JsString.ofInteger (JsDateFields.getFullYear d) in
  let mm := twoDigits (JsDateFields.getMonth d + 1) in
  let dd := twoDigits (JsDateFields.getDate d) in
  let yearFirst := TwoTierPage.formatDate (Some d) in
  let dayFirst := SingleTierPage.formatDate (Some d) in
  (String.length yyyy = 4%nat /\ allDigits yyyy = true)
  /\ (String.length mm = 2%nat /\ allDigits mm = true)
  /\ (String.length dd = 2%nat /\ allDigits dd = true)
  /\ (String.length yearFirst = 10%nat
      /\ String.substring 0 4 yearFirst = yyyy
      /\ String.substring 4 1 yearFirst = "-"
      /\ String.substring 5 2 yearFirst = mm
      /\ String.substring 7 1 yearFirst = "-"
      /\ String.substring 8 2 yearFirst = dd)
  /\ (String.length dayFirst = 10%nat
      /\ String.substring 0 2 dayFirst = dd
      /\ String.substring 2 1 dayFirst = "-"
      /\ String.substring 3 2 dayFirst = mm
      /\ String.substring 5 1 dayFirst = "-"
      /\ String.substring 6 4 dayFirst = yyyy).
Proof.
  intros Hy. cbv zeta.
  destruct (fields_ranges d) as [Hm Hd].
  pose proof (year_text_facts _ Hy) as Fy.
  pose proof (twoDigits_facts (JsDateFields.getMonth d + 1) ltac:(lia)) as Fm.
  pose proof (twoDigits_facts _ Hd) as Fd.
  split; [ exact Fy | ]. split; [ exact Fm | ]. split; [ exact Fd | ].
  unfold TwoTierPage.formatDate, SingleTierPage.formatDate. cbv zeta.
  destruct (string_length_4 _ (proj1 Fy)) as (y1 & y2 & y3 & y4 & ->).
  destruct (string_length_2 _ (proj1 Fm)) as (m1 & m2 & ->).
  destruct (string_length_2 _ (proj1 Fd)) as (d1 & d2 & ->).
  repeat split; reflexivity.
Qed.

Lemma formatDate_layout_witness :
  let d := JsDate.mk (20240 * 86400000 + 3600000) in
  JsDateFields.getFullYear d = 2025
  /\ TwoTierPage.formatDate (Some d) = "2025-06-01"
  /\ SingleTierPage.formatDate (Some d) = "01-06-2025"
  /\ String.length (TwoTierPage.formatDate (Some d)) = 10%nat
  /\ String.substring 6 4 (SingleTierPage.formatDate (Some d))
     = JsString.ofInteger (JsDateFields.getFullYear d).
Proof.
  cbv zeta.
  assert (Hy : 1000 <= JsDateFields.getFullYear
                         (JsDate.mk (20240 * 86400000 + 3600000)) <= 9999)
    by (vm_compute; split; discriminate).
  destruct (formatDate_layout (JsDate.mk (20240 * 86400000 + 3600000)) Hy)
    as (_ & _ & _ & (H1 & _) & (_ & _ & _ & _ & _ & H2)).
  split; [ reflexivity | ]. split; [ reflexivity | ].
  split; [ reflexivity | ]. split; [ exact H1 | exact H2 ].
Defined.

Local Close Scope string_scope.

(** ** The message area and the click handlers *)

Local Open Scope string_scope.

Lemma countChar_app (ch : ascii) (a b : string) :
  countChar ch (a ++ b) = (countChar ch a + countChar ch b)%nat.
Proof. unfold countChar. now rewrite chars_app, count_occ_app. Qed.

Lemma escapeHtml_countChar (ch : ascii) (s : string) :
  ch = "<"%char \/ ch = ">"%char \/ ch = JsString.dquote \/ ch = "'"%char ->
  countChar ch (escapeHtml s) = 0%nat.
Proof.
  intros Hch. unfold countChar. apply count_occ_not_In.
  induction s as [ | c s IH]; [ intros [] | ].
  rewrite escapeHtml_cons, chars_app. intros Hin.
  apply in_app_or in Hin. destruct Hin as [Hin | Hin]; [ | now apply IH ].
  assert (Hm : isMarkupChar ch = true)
    by (destruct Hch as [-> | [-> | [-> | ->]]]; reflexivity).
  destruct (piece_cases c) as [Hc | (Hc & tail & _ & Ht & Hplain)];
    rewrite Hc in Hin.
  - destruct Hin as [<- | []]. congruence.
  - rewrite Ht in Hin. destruct Hin as [<- | Hin].
    + destruct Hch as [E | [E | [E | E]]]; discriminate.
    + specialize (Hplain _ Hin). congruence.
Qed.

Lemma items_countChar (ch : ascii) (errors : list string) :
  ch = "<"%char \/ ch = ">"%char ->
  countChar ch
    (JsString.join "" (map (fun e => "<li>" ++ escapeHtml e ++ "</li>") errors))
  = (2 * List.length errors)%nat.
Proof.
  intros Hch. unfold JsString.join.
  induction errors as [ | e errors IH]; [ reflexivity | ].
  cbn [map List.length].
  replace (String.concat "" ((("<li>" ++ escapeHtml e ++ "</li>"))
                               :: map (fun e => "<li>" ++ escapeHtml e ++ "</li>")
                                      errors))
    with (("<li>" ++ escapeHtml e ++ "</li>")
          ++ String.concat "" (map (fun e => "<li>" ++ escapeHtml e ++ "</li>")
                                   errors)).
  - rewrite !countChar_app, IH.
    rewrite (escapeHtml_countChar ch e) by tauto.
    destruct Hch as [-> | ->]; cbn; lia.
  - destruct errors as [ | e' errors]; cbn [map String.concat].
    + now rewrite string_app_nil_r.
    + reflexivity.
Qed.

(** X8.  [showErrors] marks the message area as an error (the token
    [error] is present, [success] is not, the other tokens stay) and
    writes one list item per message; whatever the messages hold, the
    markup has no angle bracket besides those of its own [ul] and [li]
    tags, and the plan output is left as it was. *)
Theorem showErrors_markup (errors : list string) (page : Page) :
  let shown := showErrors errors page in
  (forall token,
      In token (classTokens (messagesEl shown))
      <-> (In token (classTokens (messagesEl page)) /\ token <> "success")
          \/ token = "error")
  /\ countChar "<" (innerHTML (messagesEl shown))
     = (2 + 2 * List.length errors)%nat
  /\ countChar ">" (innerHTML (messagesEl shown))
     = (2 + 2 * List.length errors)%nat
  /\ outputEl shown = outputEl page
  /\ focusCalls shown = focusCalls page.
Proof.
  cbv zeta. unfold showErrors. cbn [messagesEl outputEl focusCalls].
  split; [ | split; [ | split; [ | split; reflexivity ] ] ].
  - intros token. unfold setInnerHTML, classList_add.
    set (kept := classList_remove "success" (messagesEl page)).
    assert (Hkept : forall t, In t (classTokens kept)
                              <-> In t (classTokens (messagesEl page))
                                  /\ t <> "success").
    { intros t. unfold kept, classList_remove. cbn [classTokens].
      rewrite filter_In, negb_true_iff, String.eqb_neq. tauto. }
    destruct (existsb (String.eqb "error") (classTokens kept)) eqn:E;
      cbn [classTokens].
    + rewrite Hkept. split; [ tauto | ].
      intros [H | ->]; [ exact H | ].
      apply existsb_exists in E. destruct E as (t & Hin & Heq).
      apply String.eqb_eq in Heq. subst t. now apply Hkept.
    + rewrite in_app_iff, Hkept. cbn [In]. intuition congruence.
  - unfold setInnerHTML. cbn [innerHTML].
    rewrite !countChar_app, items_countChar by tauto. cbn. lia.
  - unfold setInnerHTML. cbn [innerHTML].
    rewrite !countChar_app, items_countChar by tauto. cbn. lia.
Qed.

Section Handlers.

Variable Number_toString : float -> string.
Variable Math_pow : float -> float -> float.
Variable zone : JsDate.TimeZone.

(** X9.  Both click handlers always complete: the generator and the
    rendering run only on a record that passed validation, on which
    neither throws nor loops.  When a rule is violated the message area
    becomes an error list with one item per message and the plan output
    keeps what it showed before; otherwise the message area is emptied
    (its only class token is [messages]), the plan is written to the
    output and the message area is focused once. *)
Theorem handleGenerate_outcomes
        (fuel : nat) (now : JsDate.t) (data : TwoTier.FormData)
        (single : SingleTier.FormData) (page : Page) :
  (16 <= fuel)%nat ->
  (exists page',
      TwoTierPage.handleGenerate Number_toString Math_pow zone fuel now data page
      = Returned page'
      /\ (TwoTier.validate zone now data <> [] ->
          page' = showErrors (TwoTier.validate zone now data) (clearMessages page)
          /\ classTokens (messagesEl page') = ["messages"; "error"]
          /\ outputEl page' = outputEl page
          /\ focusCalls page' = focusCalls page)
      /\ (TwoTier.validate zone now data = [] ->
          messagesEl page' = mkElement ["messages"] ""
          /\ focusCalls page' = S (focusCalls page)
          /\ exists plan,
              TwoTier.buildPlaceholderPlan Math_pow zone fuel data = Returned plan
              /\ TwoTierPage.renderPlan Number_toString plan data
                                        (clearMessages page)
                 = Returned (mkPage (messagesEl page') (outputEl page')
                                    (focusCalls page))))
  /\ (exists page',
         SingleTierPage.handleGenerate Number_toString zone fuel single page
         = Returned page'
         /\ (SingleTier.validateDataInput single <> [] ->
             page' = showErrors (SingleTier.validateDataInput single)
                                (clearMessages page)
             /\ classTokens (messagesEl page') = ["messages"; "error"]
             /\ outputEl page' = outputEl page
             /\ focusCalls page' = focusCalls page)
         /\ (SingleTier.validateDataInput single = [] ->
             messagesEl page' = mkElement ["messages"] ""
             /\ focusCalls page' = S (focusCalls page)
             /\ exists plan,
                 SingleTier.buildPlaceholderPlan zone fuel single = Returned plan
                 /\ SingleTierPage.renderPlan Number_toString plan single
                                              (clearMessages page)
                    = Returned (mkPage (messagesEl page') (outputEl page')
                                       (focusCalls page)))).
Proof.
  intros Hfuel. split.
  - unfold TwoTierPage.handleGenerate. cbv zeta.
    destruct (TwoTier.validate zone now data) as [ | e errors] eqn:Ev.
    + cbn [List.length Nat.eqb negb].
      pose proof Ev as Hvalid. apply validate_nil_iff in Hvalid.
      destruct Hvalid as ((target & Htarget & _) & Hlen & _).
      destruct (plan_length_cases _ Hlen) as (n & Hn & Hlen').
      rewrite (twoTier_plan Math_pow zone fuel n data target Hn Hlen' Htarget Hfuel).
      unfold TwoTierPage.renderPlan. rewrite Htarget. cbv zeta.
      eexists. split; [ reflexivity | ].
      split; [ intros H; now contradiction H | ].
      intros _. split; [ reflexivity | ]. split; [ reflexivity | ].
      eexists. split; reflexivity.
    + cbn [List.length Nat.eqb negb].
      eexists. split; [ reflexivity | ].
      split; [ | intros H; discriminate ].
      intros _. split; [ reflexivity | ].
      split; [ reflexivity | ]. split; reflexivity.
  - unfold SingleTierPage.handleGenerate. cbv zeta.
    destruct (SingleTier.validateDataInput single) as [ | e errors] eqn:Ev.
    + cbn [List.length Nat.eqb negb].
      pose proof Ev as Hvalid. apply validateDataInput_nil_iff in Hvalid.
      destruct Hvalid as (Hdate & Hlen & _).
      destruct (SingleTier.targetDate single) as [target | ] eqn:Htarget;
        [ | congruence ].
      destruct (plan_length_cases _ Hlen) as (n & Hn & Hlen').
      rewrite (singleTier_plan zone fuel n single target Hn Hlen' Htarget Hfuel).
      unfold SingleTierPage.renderPlan. rewrite Htarget. cbv zeta.
      eexists. split; [ reflexivity | ].
      split; [ intros H; now contradiction H | ].
      intros _. split; [ reflexivity | ]. split; [ reflexivity | ].
      eexists. split; reflexivity.
    + cbn [List.length Nat.eqb negb].
      eexists. split; [ reflexivity | ].
      split; [ | intros H; discriminate ].
      intros _. split; [ reflexivity | ].
      split; [ reflexivity | ]. split; reflexivity.
Qed.

End Handlers.

Lemma handleGenerate_outcomes_witness :
  let now := JsDate.mk (20000 * 86400000 + 3600000) in
  let target := JsDate.mk (20240 * 86400000) in
  let data := TwoTier.mkFormData (Some target) 8 10 15 ["Sat"] in
  let single := SingleTier.mkFormData None 12 8 ["Mon"; "Wed"; "Sat"] in
  let page := mkPage (mkElement ["messages"; "success"] "old")
                     (mkElement [] "old plan") 0 in
  let toText := fun _ : float => "n" in
  (exists page',
      TwoTierPage.handleGenerate toText JsNumber.pow_by_multiplication JsDate.utc
                                 16 now data page = Returned page'
      /\ messagesEl page' = mkElement ["messages"] ""
      /\ focusCalls page' = 1%nat)
  /\ (exists page',
         SingleTierPage.handleGenerate toText JsDate.utc 16 single page
         = Returned page'
         /\ classTokens (messagesEl page') = ["messages"; "error"]
         /\ outputEl page' = mkElement [] "old plan").
Proof.
  cbv zeta.
  destruct (handleGenerate_outcomes
              (fun _ : float => "n") JsNumber.pow_by_multiplication JsDate.utc 16
              (JsDate.mk (20000 * 86400000 + 3600000))
              (TwoTier.mkFormData (Some (JsDate.mk (20240 * 86400000)))
                                  8 10 15 ["Sat"])
              (SingleTier.mkFormData None 12 8 ["Mon"; "Wed"; "Sat"])
              (mkPage (mkElement ["messages"; "success"] "old")
                      (mkElement [] "old plan") 0)
              (le_n 16))
    as [(p2 & H2 & _ & Hok) (p1 & H1 & Hbad & _)].
  split.
  - exists p2. split; [ exact H2 | ].
    destruct (Hok eq_refl) as (Hm & Hf & _). split; assumption.
  - exists p1. split; [ exact H1 | ].
    destruct (Hbad ltac:(discriminate)) as (_ & Hc & Ho & _). split; assumption.
Defined.

(** ** The instructions panel *)

(** X10.  From the first click on, the button's [aria-expanded]
    attribute and its text agree with the panel: [true] and [Hide
    instructions] exactly when the panel is shown; and the panel is
    shown after an odd number of clicks exactly when it was hidden
    before them. *)
Theorem toggleGuide_keeps_button_in_step (g : Guide) (clicks : nat) :
  (1 <= clicks)%nat ->
  let g' := Nat.iter clicks toggleGuide g in
  ariaExpanded g' = Boolean_toString (negb (hidden g'))
  /\ textContent g'
     = (if hidden g' then "Show instructions" else "Hide instructions")
  /\ hidden g' = (if Nat.even clicks then hidden g else negb (hidden g)).
Proof.
  intros Hc. cbv zeta.
  assert (Hh : forall n, hidden (Nat.iter n toggleGuide g)
                         = if Nat.even n then hidden g else negb (hidden g)).
  { induction n as [ | n IH]; [ reflexivity | ].
    rewrite Nat.even_succ, <- Nat.negb_even.
    cbn [Nat.iter nat_rect]. unfold toggleGuide at 1. cbn [hidden].
    fold (Nat.iter n toggleGuide g). rewrite IH.
    destruct (Nat.even n), (hidden g); reflexivity. }
  assert (Hstep : forall g0,
             ariaExpanded (toggleGuide g0)
             = Boolean_toString (negb (hidden (toggleGuide g0)))
             /\ textContent (toggleGuide g0)
                = (if hidden (toggleGuide g0)
                   then "Show instructions" else "Hide instructions")).
  { intros g0. unfold toggleGuide. cbn [ariaExpanded textContent hidden].
    destruct (hidden g0); split; reflexivity. }
  destruct clicks as [ | n]; [ lia | ].
  change (Nat.iter (S n) toggleGuide g)
    with (toggleGuide (Nat.iter n toggleGuide g)) at 1 2 3 4.
  destruct (Hstep (Nat.iter n toggleGuide g)) as [H1 H2].
  split; [ exact H1 | ]. split; [ exact H2 | apply Hh ].
Qed.

Lemma toggleGuide_keeps_button_in_step_witness :
  let g := mkGuide false "stale" "stale" in
  let g' := Nat.iter 3 toggleGuide g in
  ariaExpanded g' = "false"
  /\ textContent g' = "Show instructions"
  /\ hidden g' = true.
Proof.
  cbv zeta.
  destruct (toggleGuide_keeps_button_in_step
              (mkGuide false "stale" "stale") 3 ltac:(repeat constructor))
    as (H1 & H2 & H3).
  repeat split; assumption.
Defined.

Local Close Scope string_scope.

(** ** How many messages the validators return *)

Ltac split_guards :=
  repeat match goal with
         | |- context [if ?b then _ else _] => destruct b
         | |- context [match ?d with None => _ | Some _ => _ end] => destruct d
         end.

(** X11.  The two-tier validator returns at most six of its eight
    messages: the missing-date and the not-in-the-future messages never
    come together, nor do the no-day and the low-per-day messages; six
    are reached.  A NaN average (an empty or unreadable field) gives the
    positive-number message and neither the peak-below-average nor the
    per-day message. *)
Theorem validate_message_count (zone : JsDate.TimeZone) (now : JsDate.t)
        (data : TwoTier.FormData) :
  let errors := TwoTier.validate zone now data in
  (List.length errors <= 6)%nat
  /\ ~ (In TwoTier.msgTargetDate errors /\ In TwoTier.msgFuture errors)
  /\ ~ (In TwoTier.msgNoDay errors /\ In TwoTier.msgPerDayLow errors)
  /\ (JsNumber.isNaN (TwoTier.avgHours data) = true ->
      In TwoTier.msgAvgPositive errors
      /\ ~ In TwoTier.msgPeakBelowAvg errors
      /\ ~ In TwoTier.msgPerDayLow errors)
  /\ exists zone' now' data',
      List.length (TwoTier.validate zone' now' data') = 6%nat.
Proof.
  cbv zeta. split; [ | split; [ | split; [ | split ] ] ].
  - unfold TwoTier.validate, push. cbv zeta.
    destruct (List.length (TwoTier.selectedDays data) =? 0)%nat;
      cbn [negb andb]; split_guards; cbn; lia.
  - intros [H1 H2].
    eapply validate_In in H1; [ | cbn; left; reflexivity ].
    eapply validate_In in H2; [ | cbn; right; left; reflexivity ].
    destruct (TwoTier.targetDate data); discriminate.
  - intros [H1 H2].
    eapply validate_In in H1; [ | cbn; do 6 right; left; reflexivity ].
    eapply validate_In in H2; [ | cbn; do 7 right; left; reflexivity ].
    rewrite H1 in H2. discriminate.
  - intros Hnan. split; [ | split ].
    + eapply validate_In; [ cbn; do 3 right; left; reflexivity | ].
      now rewrite Hnan.
    + intros H.
      eapply validate_In in H; [ | cbn; do 5 right; left; reflexivity ].
      rewrite Hnan in H. discriminate.
    + intros H.
      eapply validate_In in H; [ | cbn; do 7 right; left; reflexivity ].
      rewrite Hnan, andb_false_r in H. discriminate.
  - exists JsDate.utc, (JsDate.mk (20000 * 86400000)),
      (TwoTier.mkFormData (Some (JsDate.mk (19000 * 86400000))) 9 (-1) (-2)
                          ["Mon"%string]).
    reflexivity.
Qed.

(** X12.  The single-tier validator returns at most five of its nine
    messages, one for each group of rules (date, plan length, average,
    days, per-day average), and five are reached.  With no day selected
    no other day message and no per-day message is given; a NaN average
    gives the positive-number message only. *)
Theorem validateDataInput_message_count (data : SingleTier.FormData) :
  let errors := SingleTier.validateDataInput data in
  (List.length errors <= 5)%nat
  /\ ~ (In SingleTier.msgAvgPositive errors /\ In SingleTier.msgAvgMinimum errors)
  /\ ~ (In SingleTier.msgPerDayLow errors /\ In SingleTier.msgPerDayHigh errors)
  /\ (In SingleTier.msgNoDay errors ->
      ~ In SingleTier.msgMinDays errors /\ ~ In SingleTier.msgLongRun errors
      /\ ~ In SingleTier.msgPerDayLow errors
      /\ ~ In SingleTier.msgPerDayHigh errors)
  /\ (JsNumber.isNaN (SingleTier.avgHours data) = true ->
      In SingleTier.msgAvgPositive errors
      /\ ~ In SingleTier.msgAvgMinimum errors
      /\ ~ In SingleTier.msgPerDayLow errors
      /\ ~ In SingleTier.msgPerDayHigh errors)
  /\ exists data', List.length (SingleTier.validateDataInput data') = 5%nat.
Proof.
  cbv zeta.
  assert (Hg : forall k b m,
             nth_error (singleTierPushes data) k = Some (b, m) ->
             (In m (SingleTier.validateDataInput data) <-> b = true)).
  { intros k b m H. apply validateDataInput_In. eapply nth_error_In, H. }
  pose proof (Hg 2%nat _ _ eq_refl) as G2. pose proof (Hg 3%nat _ _ eq_refl) as G3.
  pose proof (Hg 4%nat _ _ eq_refl) as G4. pose proof (Hg 5%nat _ _ eq_refl) as G5.
  pose proof (Hg 6%nat _ _ eq_refl) as G6. pose proof (Hg 7%nat _ _ eq_refl) as G7.
  pose proof (Hg 8%nat _ _ eq_refl) as G8. clear Hg.
  split; [ | split; [ | split; [ | split; [ | split ] ] ] ].
  - unfold SingleTier.validateDataInput, push. cbv zeta.
    destruct (List.length (SingleTier.selectedDays data) =? 0)%nat;
      cbn [negb andb];
      destruct (JsNumber.isNaN (SingleTier.avgHours data)
                || (SingleTier.avgHours data <=? 0)%float);
      split_guards; cbn; lia.
  - rewrite G2, G3. intros [H1 H2]. rewrite H1 in H2. discriminate.
  - rewrite G7, G8. intros [H1 H2].
    apply andb_true_iff in H1. destruct H1 as [_ H1].
    rewrite H1, andb_false_r in H2. discriminate.
  - rewrite G4, G5, G6, G7, G8. intros ->. cbn. intuition discriminate.
  - rewrite G2, G3, G7, G8. intros ->.
    rewrite !andb_false_r. cbn. intuition discriminate.
  - exists (SingleTier.mkFormData None 9 1 ["Mon"%string]). reflexivity.
Qed.

(** ** More on the numbers of the plan *)

Lemma B2R_ford_le a b : nf a -> nf b -> (B2R a <= B2R b)%R -> ford a <= ford b.
Proof.
  intros Ha Hb H.
  apply (Rounds_mono (B2R a) (B2R b)); [ now apply nf_Rounds .. | exact H ].
Qed.

Lemma nf_B2R_inj a b : nf a -> nf b -> B2R a = B2R b -> a = b.
Proof.
  intros Ha Hb H.
  assert (Hab : ford a = ford b).
  { apply Z.le_antisymm; apply B2R_ford_le; try assumption; rewrite H; lra. }
  destruct (Z.eq_dec (ford b) 0) as [Hz | Hnz].
  - apply Prim2SF_inj.
    rewrite (sford_zero (Prim2SF a) (nf_nn a Ha)) by (unfold ford in *; lia).
    now rewrite (sford_zero (Prim2SF b) (nf_nn b Hb)).
  - pose proof (nf_ford_range b Hb).
    destruct (nf_positive_finite b Hb ltac:(lia)) as (m & e & Eb & _).
    apply (FloatFacts.eqb_finite_eq a b false m e Eb).
    apply eqb_ford; [ now apply nf_nn .. | exact Hab ].
Qed.

(** The whole numbers below [2^53] are Numbers. *)
Lemma of_nat_value (n : nat) :
  Z.of_nat n < 2 ^ 53 ->
  nf (JsNumber.of_nat n) /\ B2R (JsNumber.of_nat n) = IZR (Z.of_nat n).
Proof.
  intros Hn. unfold JsNumber.of_nat.
  apply (Rounds_small_integer (Z.of_nat n)); [ | lia ].
  apply of_Z_Rounds. lia.
Qed.

Lemma of_nat_succ (n : nat) :
  Z.of_nat n + 1 < 2 ^ 53 ->
  (JsNumber.of_nat n + 1)%float = JsNumber.of_nat (S n).
Proof.
  intros Hn.
  destruct (of_nat_value n ltac:(lia)) as [Hf Hv].
  destruct (of_nat_value (S n) ltac:(lia)) as [Hf' Hv'].
  destruct nf_1 as (H1 & _ & H1v).
  pose proof (add_Rounds _ _ Hf H1) as Hr. rewrite Hv, H1v in Hr.
  replace (IZR (Z.of_nat n) + 1)%R with (IZR (Z.of_nat n + 1)) in Hr
    by (rewrite plus_IZR; reflexivity).
  destruct (Rounds_small_integer _ _ Hr ltac:(lia)) as [Hs Hsv].
  apply nf_B2R_inj; [ exact Hs | exact Hf' | ].
  unfold B2R at 1. rewrite Hsv, Hv'. f_equal. lia.
Qed.

Lemma of_nat_ford_lt (i n : nat) :
  (i < n)%nat -> Z.of_nat n < 2 ^ 53 ->
  ford (JsNumber.of_nat i) < ford (JsNumber.of_nat n).
Proof.
  intros Hi Hn.
  destruct (of_nat_value i ltac:(lia)) as [Hf Hv].
  destruct (of_nat_value n Hn) as [Hf' Hv'].
  assert (Hle : ford (JsNumber.of_nat i) <= ford (JsNumber.of_nat n)).
  { apply B2R_ford_le; try assumption. rewrite Hv, Hv'. apply IZR_le. lia. }
  destruct (Z.eq_dec (ford (JsNumber.of_nat i)) (ford (JsNumber.of_nat n)))
    as [E | ]; [ exfalso | lia ].
  pose proof (nf_B2R_le _ _ Hf' Hf ltac:(lia)) as H.
  rewrite Hv, Hv' in H. apply le_IZR in H. lia.
Qed.

Lemma of_nat_ltb (i n : nat) :
  Z.of_nat i < 2 ^ 53 -> Z.of_nat n < 2 ^ 53 ->
  (JsNumber.of_nat i <? JsNumber.of_nat n)%float = (i <? n)%nat.
Proof.
  intros Hi Hn.
  destruct (of_nat_value i Hi) as [Hf _], (of_nat_value n Hn) as [Hf' _].
  destruct (Nat.ltb_spec i n) as [Hlt | Hge].
  - apply ltb_ford; [ now apply nf_nn .. | now apply of_nat_ford_lt ].
  - apply not_true_iff_false. intros H.
    apply ltb_ford in H; [ | now apply nf_nn .. ].
    destruct (Nat.eq_dec i n) as [-> | Hne]; [ lia | ].
    pose proof (of_nat_ford_lt n i ltac:(lia) Hi). lia.
Qed.

(** The loop variable takes the values [i, i + 1, ..., n - 1]. *)
Lemma loopValues_any_length (n : nat) :
  Z.of_nat n < 2 ^ 53 ->
  forall (m i : nat), (i + m = n)%nat ->
    loopValues (JsNumber.of_nat n) (JsNumber.of_nat i)
               (map JsNumber.of_nat (seq i m)).
Proof.
  intros Hn. induction m as [ | m IH]; intros i Him; cbn [seq map loopValues].
  - replace i with n by lia. rewrite of_nat_ltb by lia. apply Nat.ltb_irrefl.
  - split; [ reflexivity | ]. split.
    + rewrite of_nat_ltb by lia. apply Nat.ltb_lt. lia.
    + rewrite of_nat_succ by lia. apply IH. lia.
Qed.

Lemma weekNumbers_any_length (n : nat) :
  Z.of_nat n < 2 ^ 53 ->
  map (fun w => (w + 1)%float) (weekIndices n)
  = map JsNumber.of_nat (seq 1 n).
Proof.
  intros Hn. unfold weekIndices. rewrite <- seq_shift, !map_map.
  apply map_ext_in. intros i Hi. apply in_seq in Hi.
  apply of_nat_succ. lia.
Qed.

(** The loop while the array has room: from the counter [i] the loop
    makes [m] more rounds when its test holds at [i .. i + m - 1]. *)
Lemma twoTier_weeksLoop_count (Math_pow : float -> float -> float)
      (data : TwoTier.FormData) (totalWeeks peakWeekIndex : float) :
  forall (m i fuel : nat) (acc : list WeekEntry),
    Z.of_nat (i + m) < 2 ^ 53 ->
    (forall j, (i <= j < i + m)%nat ->
               (JsNumber.of_nat j <? totalWeeks)%float = true) ->
    Z.of_nat (List.length acc + m) <= 4294967295 ->
    TwoTier.weeksLoop Math_pow (m + fuel) data totalWeeks peakWeekIndex
                      (JsNumber.of_nat i) acc
    = TwoTier.weeksLoop
        Math_pow fuel data totalWeeks peakWeekIndex (JsNumber.of_nat (i + m))
        (acc ++ map (fun w =>
                       mkWeek (w + 1)%float
                              (round1 (TwoTier.hoursOfWeek
                                         Math_pow data peakWeekIndex w)))
                    (map JsNumber.of_nat (seq i m))).
Proof.
  induction m as [ | m IH]; intros i fuel acc Hi Htest Hroom.
  - rewrite Nat.add_0_r. cbn [seq map Nat.add]. now rewrite app_nil_r.
  - cbn [Nat.add TwoTier.weeksLoop seq map].
    rewrite (Htest i) by lia. cbv zeta.
    rewrite pushWeek_room by lia.
    rewrite of_nat_succ by lia.
    rewrite (IH (S i) fuel)
      by (try (intros j Hj; apply Htest); rewrite ?length_app; simpl; lia).
    rewrite <- app_assoc. cbn [app].
    now replace (S i + m)%nat with (i + S m)%nat by lia.
Qed.

Lemma singleTier_weeksLoop_count (data : SingleTier.FormData) :
  forall (m i fuel : nat) (acc : list WeekEntry),
    Z.of_nat (i + m) < 2 ^ 53 ->
    (forall j, (i <= j < i + m)%nat ->
               (JsNumber.of_nat j <? SingleTier.planLengthWeeks data)%float
               = true) ->
    Z.of_nat (List.length acc + m) <= 4294967295 ->
    SingleTier.weeksLoop (m + fuel) data (JsNumber.of_nat i) acc
    = SingleTier.weeksLoop
        fuel data (JsNumber.of_nat (i + m))
        (acc ++ map (fun w =>
                       mkWeek (w + 1)%float (round1 (SingleTier.avgHours data)))
                    (map JsNumber.of_nat (seq i m))).
Proof.
  induction m as [ | m IH]; intros i fuel acc Hi Htest Hroom.
  - rewrite Nat.add_0_r. cbn [seq map Nat.add]. now rewrite app_nil_r.
  - cbn [Nat.add SingleTier.weeksLoop seq map].
    rewrite (Htest i) by lia.
    rewrite pushWeek_room by lia.
    rewrite of_nat_succ by lia.
    rewrite (IH (S i) fuel)
      by (try (intros j Hj; apply Htest); rewrite ?length_app; simpl; lia).
    rewrite <- app_assoc. cbn [app].
    now replace (S i + m)%nat with (i + S m)%nat by lia.
Qed.

(** X13.  The generators are not tied to 8, 12 or 16 weeks: for every
    whole plan length [n] that an array can hold, up to [2^32 - 1], and
    a record with a target date, both return a plan of exactly [n]
    weeks, numbered [1] to [n] (an empty plan for [n = 0]); in
    [src/app.js] every week has [round1 avgHours]. *)
Theorem generators_return_any_whole_length
        (Math_pow : float -> float -> float) (zone : JsDate.TimeZone)
        (n fuel : nat)
        (data : TwoTier.FormData) (single : SingleTier.FormData) :
  Z.of_nat n <= 4294967295 ->
  (n <= fuel)%nat ->
  (TwoTier.targetDate data <> None ->
   TwoTier.planLengthWeeks data = JsNumber.of_nat n ->
   exists plan,
     TwoTier.buildPlaceholderPlan Math_pow zone fuel data = Returned plan
     /\ List.length (weeks plan) = n
     /\ map weekNumber (weeks plan) = map JsNumber.of_nat (seq 1 n))
  /\ (SingleTier.targetDate single <> None ->
      SingleTier.planLengthWeeks single = JsNumber.of_nat n ->
      exists plan,
        SingleTier.buildPlaceholderPlan zone fuel single = Returned plan
        /\ List.length (weeks plan) = n
        /\ map weekNumber (weeks plan) = map JsNumber.of_nat (seq 1 n)
        /\ forall entry, In entry (weeks plan) ->
                         plannedHours entry
                         = round1 (SingleTier.avgHours single)).
Proof.
  intros Hroom Hfuel.
  assert (Hn : Z.of_nat n < 2 ^ 53)
    by (change (2 ^ 53) with 9007199254740992; lia).
  pose proof (loopValues_any_length n Hn n 0%nat eq_refl) as Hloop.
  change (JsNumber.of_nat 0) with 0%float in Hloop.
  fold (weekIndices n) in Hloop.
  assert (Hlen : (List.length (weekIndices n) <= fuel)%nat).
  { unfold weekIndices. now rewrite length_map, length_seq. }
  assert (Hfits : Z.of_nat (List.length (@nil WeekEntry)
                            + List.length (weekIndices n)) <= 4294967295).
  { unfold weekIndices. rewrite length_map, length_seq. cbn [List.length]. lia. }
  split; intros Htarget Hlength.
  - unfold TwoTier.buildPlaceholderPlan.
    destruct (TwoTier.targetDate data) as [target | ]; [ | congruence ].
    cbv zeta. rewrite Hlength.
    rewrite (twoTier_weeksLoop_run _ _ _ _ (weekIndices n) fuel 0%float []
               Hloop Hlen Hfits).
    eexists. split; [ reflexivity | ]. cbv beta iota delta [weeks]. cbn [app].
    split.
    + unfold weekIndices. now rewrite !length_map, length_seq.
    + rewrite map_map. cbn [weekNumber]. now apply weekNumbers_any_length.
  - unfold SingleTier.buildPlaceholderPlan.
    destruct (SingleTier.targetDate single) as [target | ]; [ | congruence ].
    cbv zeta.
    rewrite (singleTier_weeksLoop_run single (weekIndices n) fuel 0%float []);
      [ | now rewrite Hlength | exact Hlen | exact Hfits ].
    eexists. split; [ reflexivity | ]. cbv beta iota delta [weeks]. cbn [app].
    split; [ | split ].
    + unfold weekIndices. now rewrite !length_map, length_seq.
    + rewrite map_map. cbn [weekNumber]. now apply weekNumbers_any_length.
    + intros entry Hin. apply in_map_iff in Hin.
      destruct Hin as (w & <- & _). reflexivity.
Qed.

Lemma generators_return_any_whole_length_witness :
  let target := JsDate.mk (20240 * 86400000) in
  let data := TwoTier.mkFormData (Some target) 3 10 15 ["Sat"%string] in
  let single := SingleTier.mkFormData (Some target) 20 8 [] in
  (exists plan,
      TwoTier.buildPlaceholderPlan JsNumber.pow_by_multiplication JsDate.utc 3 data
      = Returned plan
      /\ List.length (weeks plan) = 3%nat
      /\ map weekNumber (weeks plan) = [1; 2; 3]%float)
  /\ (exists plan,
         SingleTier.buildPlaceholderPlan JsDate.utc 20 single = Returned plan
         /\ List.length (weeks plan) = 20%nat).
Proof.
  cbv zeta.
  assert (H3 : Z.of_nat 3 <= 4294967295) by (vm_compute; discriminate).
  assert (H20 : Z.of_nat 20 <= 4294967295) by (vm_compute; discriminate).
  split.
  - destruct (generators_return_any_whole_length
                JsNumber.pow_by_multiplication JsDate.utc 3 3
                (TwoTier.mkFormData (Some (JsDate.mk (20240 * 86400000)))
                                    3 10 15 ["Sat"%string])
                (SingleTier.mkFormData None 0 0 [])
                H3 (le_n 3)) as [H _].
    destruct (H ltac:(discriminate) eq_refl) as (plan & Hp & Hl & Hw).
    exists plan. repeat split; assumption.
  - destruct (generators_return_any_whole_length
                JsNumber.pow_by_multiplication JsDate.utc 20 20
                (TwoTier.mkFormData None 0 0 0 [])
                (SingleTier.mkFormData (Some (JsDate.mk (20240 * 86400000)))
                                       20 8 [])
                H20 (le_n 20)) as [_ H].
    destruct (H ltac:(discriminate) eq_refl) as (plan & Hp & Hl & _).
    exists plan. split; assumption.
Defined.

Lemma isNaN_eq (x : float) : JsNumber.isNaN x = true -> x = nan.
Proof.
  intros H. apply Prim2SF_inj.
  now apply FloatFacts.is_nan_spec in H.
Qed.

(** The day of the month minus a NaN is no day of the month. *)
Lemma truncate_sub_nan (g : float) :
  JsNumber.truncate (g - nan * 7)%float = None.
Proof.
  unfold JsNumber.truncate. rewrite sub_spec.
  change (Prim2SF (nan * 7)) with S754_nan.
  destruct (Prim2SF g) as [ [ | ] | [ | ] | | [ | ] m e]; reflexivity.
Qed.

(** A Number above [2^32 - 1] is above every length of an array. *)
Lemma above_array_lengths (total : float) (N : nat) :
  Z.of_nat N = 4294967295 -> flt 4294967295 total ->
  forall j, (j <= N)%nat -> (JsNumber.of_nat j <? total)%float = true.
Proof.
  intros HN Hflt j Hj.
  assert (Hc : JsNumber.of_nat N = 4294967295%float)
    by (unfold JsNumber.of_nat; rewrite HN; reflexivity).
  assert (HN53 : Z.of_nat N < 2 ^ 53)
    by (change (2 ^ 53) with 9007199254740992; lia).
  destruct (of_nat_value N HN53) as [HfN _].
  destruct (of_nat_value j ltac:(lia)) as [Hfj _].
  assert (Htotal : nn total).
  { unfold flt in Hflt. rewrite FloatAxioms.ltb_spec in Hflt. unfold nn.
    pose proof (Prim2SF_valid total) as Hv.
    change (Prim2SF 4294967295)
      with (S754_finite false 9007199252643840 (- 21)) in Hflt.
    unfold SFltb in Hflt.
    destruct (Prim2SF total) as [s | s | | s m e]; cbn in Hflt;
      try discriminate; destruct s; try discriminate;
      cbn [nonneg_valid]; tauto. }
  apply (ltb_ford _ _ (nf_nn _ Hfj) Htotal).
  rewrite <- Hc in Hflt. apply (ltb_ford _ _ (nf_nn _ HfN) Htotal) in Hflt.
  destruct (Nat.eq_dec j N) as [-> | Hne]; [ exact Hflt | ].
  pose proof (of_nat_ford_lt j N ltac:(lia) HN53). lia.
Qed.

(** X14.  Outside the validated lengths: without a target date both
    generators throw a TypeError; with a NaN plan length they return an
    empty plan whose start date is the Invalid Date; and with a plan
    length above [2^32 - 1], [Infinity] included, the push that would
    bring the array of weeks to the length [2^32] throws a RangeError,
    so that no plan is returned. *)
Theorem generators_edge_lengths
        (Math_pow : float -> float -> float) (zone : JsDate.TimeZone)
        (fuel : nat)
        (data : TwoTier.FormData) (single : SingleTier.FormData) :
  (TwoTier.targetDate data = None ->
   TwoTier.buildPlaceholderPlan Math_pow zone fuel data = Threw "TypeError")
  /\ (SingleTier.targetDate single = None ->
      SingleTier.buildPlaceholderPlan zone fuel single = Threw "TypeError")
  /\ (TwoTier.targetDate data <> None ->
      (JsNumber.isNaN (TwoTier.planLengthWeeks data) = true ->
       TwoTier.buildPlaceholderPlan Math_pow zone fuel data
       = Returned (mkPlan None []))
      /\ (flt 4294967295 (TwoTier.planLengthWeeks data) ->
          4294967296 <= Z.of_nat fuel ->
          TwoTier.buildPlaceholderPlan Math_pow zone fuel data
          = Threw "RangeError"))
  /\ (SingleTier.targetDate single <> None ->
      (JsNumber.isNaN (SingleTier.planLengthWeeks single) = true ->
       SingleTier.buildPlaceholderPlan zone fuel single
       = Returned (mkPlan None []))
      /\ (flt 4294967295 (SingleTier.planLengthWeeks single) ->
          4294967296 <= Z.of_nat fuel ->
          SingleTier.buildPlaceholderPlan zone fuel single
          = Threw "RangeError"))
  /\ flt 4294967295 infinity.
Proof.
  split; [ | split; [ | split; [ | split ] ] ].
  - intros H. unfold TwoTier.buildPlaceholderPlan. now rewrite H.
  - intros H. unfold SingleTier.buildPlaceholderPlan. now rewrite H.
  - intros Ht. unfold TwoTier.buildPlaceholderPlan.
    destruct (TwoTier.targetDate data) as [target | ]; [ | congruence ].
    cbv zeta. split.
    + intros Hl. apply isNaN_eq in Hl. rewrite Hl.
      unfold JsDateFields.setDate. rewrite truncate_sub_nan.
      destruct fuel; reflexivity.
    + intros Hflt Hfuel.
      remember (Z.to_nat 4294967295) as N eqn:EN.
      assert (HN : Z.of_nat N = 4294967295) by lia. clear EN.
      replace fuel with (N + S (fuel - N - 1))%nat by lia.
      change 0%float with (JsNumber.of_nat 0).
      rewrite (twoTier_weeksLoop_count
                 Math_pow data _ _ N 0 (S (fuel - N - 1)) []);
        [ | change (2 ^ 53) with 9007199254740992; lia
          | intros j Hj; apply (above_array_lengths _ N HN Hflt); lia
          | cbn [List.length]; lia ].
      cbn [TwoTier.weeksLoop Nat.add].
      rewrite (above_array_lengths _ N HN Hflt N (le_n N)). cbv zeta.
      rewrite pushWeek_full; [ reflexivity | ].
      cbn [app]. rewrite !length_map, length_seq. lia.
  - intros Ht. unfold SingleTier.buildPlaceholderPlan.
    destruct (SingleTier.targetDate single) as [target | ]; [ | congruence ].
    cbv zeta. split.
    + intros Hl. apply isNaN_eq in Hl.
      assert (Hloop : SingleTier.weeksLoop fuel single 0 [] = Returned []).
      { destruct fuel; cbn [SingleTier.weeksLoop]; rewrite Hl; reflexivity. }
      rewrite Hloop, Hl.
      unfold JsDateFields.setDate. now rewrite truncate_sub_nan.
    + intros Hflt Hfuel.
      remember (Z.to_nat 4294967295) as N eqn:EN.
      assert (HN : Z.of_nat N = 4294967295) by lia. clear EN.
      replace fuel with (N + S (fuel - N - 1))%nat by lia.
      change 0%float with (JsNumber.of_nat 0).
      rewrite (singleTier_weeksLoop_count single N 0 (S (fuel - N - 1)) []);
        [ | change (2 ^ 53) with 9007199254740992; lia
          | intros j Hj; apply (above_array_lengths _ N HN Hflt); lia
          | cbn [List.length]; lia ].
      cbn [SingleTier.weeksLoop Nat.add].
      rewrite (above_array_lengths _ N HN Hflt N (le_n N)).
      rewrite pushWeek_full; [ reflexivity | ].
      cbn [app]. rewrite !length_map, length_seq. lia.
  - reflexivity.
Qed.

(** X15.  [round1] keeps the order of the non-negative Numbers: if
    [a <= b] then [round1 a <= round1 b], and neither result is NaN. *)
Theorem round1_preserves_order (a b : float) :
  nn a -> nn b -> fle a b ->
  fle (round1 a) (round1 b)
  /\ JsNumber.isNaN (round1 a) = false
  /\ JsNumber.isNaN (round1 b) = false.
Proof.
  intros Ha Hb Hab.
  destruct (round1_mono a b Ha Hb (leb_nn_ford a b Ha Hb Hab)) as (H1 & H2 & H3).
  split; [ now apply ford_leb | ].
  split; now apply is_nan_nn.
Qed.

Lemma round1_preserves_order_witness :
  nn 2.449 /\ nn 2.45 /\ fle 2.449 2.45
  /\ fle (round1 2.449) (round1 2.45).
Proof.
  assert (Ha : nn 2.449) by (vm_compute; split; reflexivity).
  assert (Hb : nn 2.45) by (vm_compute; split; reflexivity).
  assert (Hab : fle 2.449 2.45) by reflexivity.
  repeat (split; [ assumption | ]).
  apply (round1_preserves_order 2.449 2.45 Ha Hb Hab).
Defined.

(** The per-day ceiling bounds the weekly average: with [n] days, an
    average above [c] has a per-day average above 3.5, where
    [next_up c / n > 3.5]. *)
Lemma per_day_ceiling (avg c : float) (n : nat) :
  nn avg -> nn c -> nn (next_up c) -> ford (next_up c) = ford c + 1 ->
  nf (JsNumber.of_nat n) -> 0 < ford (JsNumber.of_nat n) ->
  (3.5 <? next_up c / JsNumber.of_nat n)%float = true ->
  ~ flt 3.5 (avg / JsNumber.of_nat n) ->
  ford avg <= ford c.
Proof.
  intros Ha Hc Hc' Hnext Hn Hn0 Hup Hnot.
  destruct (Z_le_gt_dec (ford avg) (ford c)) as [ | Hgt]; [ assumption | ].
  exfalso. apply Hnot.
  destruct (div_mono (next_up c) avg (JsNumber.of_nat n) Hc' Ha Hn Hn0
                     ltac:(lia)) as (H1 & H2 & H3).
  destruct (flt_0_nn 3.5 eq_refl) as [H35 _].
  apply ltb_ford; [ exact H35 | exact H2 | ].
  apply ltb_ford in Hup; [ lia | exact H35 | exact H1 ].
Qed.

(** X16.  A record accepted by the single-tier validator gives a plan
    in which every week has the same planned hours, [round1 avgHours],
    never below 6; with at most seven days selected they are at most
    24.5. *)
Theorem singleTier_hours_between_6_and_24_5
        (zone : JsDate.TimeZone) (fuel : nat) (single : SingleTier.FormData) :
  (16 <= fuel)%nat ->
  SingleTier.validateDataInput single = [] ->
  exists plan,
    SingleTier.buildPlaceholderPlan zone fuel single = Returned plan
    /\ forall entry,
        In entry (weeks plan) ->
        plannedHours entry = round1 (SingleTier.avgHours single)
        /\ fle 6 (plannedHours entry)
        /\ ((List.length (SingleTier.selectedDays single) <= 7)%nat ->
            fle (plannedHours entry) 24.5).
Proof.
  intros Hfuel Hvalid.
  apply validateDataInput_nil_iff in Hvalid.
  destruct Hvalid as (Hdate & Hlen & Hpos & Hmin & _ & Hdays & _ & _ & Hhigh).
  destruct (SingleTier.targetDate single) as [target | ] eqn:Htarget;
    [ | congruence ].
  destruct (plan_length_cases _ Hlen) as (n & Hn & Hlen').
  rewrite (singleTier_plan zone fuel n single target Hn Hlen' Htarget Hfuel).
  eexists. split; [ reflexivity | ]. cbv beta iota delta [weeks].
  intros entry Hin. apply in_map_iff in Hin. destruct Hin as (w & <- & _).
  cbn [plannedHours]. split; [ reflexivity | ].
  set (avg := SingleTier.avgHours single) in *.
  destruct (flt_0_nn avg Hpos) as [Ha _].
  destruct (flt_0_nn 6 eq_refl) as [H6 _].
  destruct (flt_0_nn 24.5 eq_refl) as [H24 _].
  assert (Hlow : ford 6 <= ford avg).
  { destruct (Z_le_gt_dec (ford 6) (ford avg)) as [ | Hgt]; [ assumption | ].
    exfalso. apply Hmin. apply ltb_ford; [ exact Ha | exact H6 | lia ]. }
  split.
  - destruct (round1_mono 6 avg H6 Ha Hlow) as (H1 & H2 & H3).
    change (round1 6) with 6%float in H1, H3. now apply ford_leb.
  - intros Hseven.
    set (days := List.length (SingleTier.selectedDays single)) in *.
    assert (Hup : ford avg <= ford 24.5).
    { assert (Hc : days = 3%nat \/ days = 4%nat \/ days = 5%nat
                   \/ days = 6%nat \/ days = 7%nat) by lia.
      assert (Hstep : forall c : float,
                 nn c -> nn (next_up c) -> ford (next_up c) = ford c + 1 ->
                 nf (JsNumber.of_nat days) -> 0 < ford (JsNumber.of_nat days) ->
                 (3.5 <? next_up c / JsNumber.of_nat days)%float = true ->
                 ford c <= ford 24.5 -> ford avg <= ford 24.5).
      { intros c H1 H2 H3 H4 H5 H6' H7.
        pose proof (per_day_ceiling avg c days Ha H1 H2 H3 H4 H5 H6' Hhigh).
        lia. }
      destruct Hc as [E | [E | [E | [E | E]]]]; rewrite E in Hstep.
      - apply (Hstep 10.5%float); try reflexivity;
          try (vm_compute; split; reflexivity); vm_compute; discriminate.
      - apply (Hstep 14%float); try reflexivity;
          try (vm_compute; split; reflexivity); vm_compute; discriminate.
      - apply (Hstep 17.5%float); try reflexivity;
          try (vm_compute; split; reflexivity); vm_compute; discriminate.
      - apply (Hstep 21%float); try reflexivity;
          try (vm_compute; split; reflexivity); vm_compute; discriminate.
      - apply (Hstep 24.5%float); try reflexivity;
          try (vm_compute; split; reflexivity); vm_compute; discriminate. }
    destruct (round1_mono avg 24.5 Ha H24 Hup) as (H1 & H2 & H3).
    change (round1 24.5) with 24.5%float in H2, H3. now apply ford_leb.
Qed.

Lemma singleTier_hours_between_6_and_24_5_witness :
  let single :=
    SingleTier.mkFormData (Some (JsDate.mk (20240 * 86400000))) 12 8.26
                          ["Mon"; "Wed"; "Sat"]%string in
  exists plan,
    SingleTier.buildPlaceholderPlan JsDate.utc 16 single = Returned plan
    /\ forall entry,
        In entry (weeks plan) ->
        plannedHours entry = round1 8.26
        /\ fle 6 (plannedHours entry)
        /\ fle (plannedHours entry) 24.5.
Proof.
  cbv zeta.
  destruct (singleTier_hours_between_6_and_24_5
              JsDate.utc 16
              (SingleTier.mkFormData (Some (JsDate.mk (20240 * 86400000)))
                                     12 8.26 ["Mon"; "Wed"; "Sat"]%string)
              (le_n 16) eq_refl) as (plan & Hp & Hw).
  exists plan. split; [ exact Hp | ].
  intros entry Hin. destruct (Hw entry Hin) as (H1 & H2 & H3).
  split; [ exact H1 | ]. split; [ exact H2 | ].
  apply H3. cbn. lia.
Defined.

(** The ramp grows with the fraction of the way to the peak. *)
Lemma ramp_mono (avg peak t t' : float) :
  nf avg -> nf peak -> ford avg <= ford peak ->
  nf t -> nf t' -> ford t <= ford t' -> ford t' <= ford 0.9375 ->
  ford (avg + (peak - avg) * t) <= ford (avg + (peak - avg) * t').
Proof.
  intros Ha Hp Hap Ht Ht' Htt Hmax.
  pose proof (nf_B2R_le avg peak Ha Hp Hap) as HAP.
  pose proof (sub_Rounds peak avg Hp Ha HAP) as Hd.
  assert (Hdf : nf (peak - avg)).
  { apply nn_below_top; [ apply (Rounds_nn _ _ Hd) | ].
    assert (ford (peak - avg) <= ford peak).
    { apply (Rounds_mono _ _ _ _ Hd (nf_Rounds peak Hp)).
      pose proof (B2R_nonneg avg Ha). lra. }
    pose proof (nf_ford_range peak Hp). lia. }
  assert (H1 : ford 0.9375 <= ford 1) by discriminate.
  destruct (mul_le_one (peak - avg) t Hdf Ht ltac:(lia)) as [Hm _].
  destruct (mul_le_one (peak - avg) t' Hdf Ht' ltac:(lia)) as [Hm' _].
  assert (Hmm : ford ((peak - avg) * t) <= ford ((peak - avg) * t')).
  { apply (Rounds_mono _ _ _ _ (mul_Rounds _ _ Hdf Ht) (mul_Rounds _ _ Hdf Ht')).
    pose proof (nf_B2R_le t t' Ht Ht' Htt).
    pose proof (B2R_nonneg _ Hdf). nra. }
  apply (Rounds_mono _ _ _ _ (add_Rounds _ _ Ha Hm) (add_Rounds _ _ Ha Hm')).
  pose proof (nf_B2R_le _ _ Hm Hm' Hmm). lra.
Qed.

Lemma fraction_mono (i j k : nat) :
  (i <= j)%nat -> (0 < k)%nat -> Z.of_nat j < 2 ^ 53 -> Z.of_nat k < 2 ^ 53 ->
  ford (JsNumber.of_nat i / JsNumber.of_nat k)
  <= ford (JsNumber.of_nat j / JsNumber.of_nat k).
Proof.
  intros Hij Hk Hj Hk'.
  destruct (of_nat_value i ltac:(lia)) as [Fi Vi].
  destruct (of_nat_value j Hj) as [Fj Vj].
  destruct (of_nat_value k Hk') as [Fk Vk].
  assert (Hpos : 0 < ford (JsNumber.of_nat k)).
  { pose proof (of_nat_ford_lt 0 k Hk Hk') as H.
    change (ford (JsNumber.of_nat 0)) with 0 in H. exact H. }
  apply (Rounds_mono _ _ _ _ (div_Rounds _ _ Fi Fk Hpos)
                     (div_Rounds _ _ Fj Fk Hpos)).
  rewrite Vi, Vj, Vk.
  assert (0 < IZR (Z.of_nat k))%R by (apply IZR_lt; lia).
  assert (IZR (Z.of_nat i) <= IZR (Z.of_nat j))%R by (apply IZR_le; lia).
  unfold Rdiv. apply Rmult_le_compat_r; [ | assumption ].
  left. now apply Rinv_0_lt_compat.
Qed.

(** X17.  On a valid two-tier record with a finite [peakHours] the
    planned hours never decrease from one week to a later one up to and
    including the peak week. *)
Theorem ramp_weeks_never_decrease
        (Math_pow : float -> float -> float) (zone : JsDate.TimeZone)
        (fuel : nat)
        (now : JsDate.t) (data : TwoTier.FormData) :
  (16 <= fuel)%nat ->
  TwoTier.validate zone now data = [] ->
  finite (TwoTier.peakHours data) ->
  let peakWeekIndex :=
    JsNumber.Math_floor (TwoTier.planLengthWeeks data * 0.65)%float in
  exists plan,
    TwoTier.buildPlaceholderPlan Math_pow zone fuel data = Returned plan
    /\ forall (i j : nat) (earlier later : WeekEntry),
        nth_error (weeks plan) i = Some earlier ->
        nth_error (weeks plan) j = Some later ->
        (i <= j)%nat ->
        fle (JsNumber.of_nat j) peakWeekIndex ->
        fle (plannedHours earlier) (plannedHours later).
Proof.
  intros Hfuel Hvalid Hfin. cbv zeta.
  destruct (valid_numbers zone now data Hvalid) as (Hna & Hpa & Hnp & Hap).
  assert (Hfp : nf (TwoTier.peakHours data)) by now apply is_finite_nf.
  assert (Hfa : nf (TwoTier.avgHours data)).
  { apply nn_below_top; [ exact Hna | ].
    pose proof (nf_ford_range _ Hfp). lia. }
  apply validate_nil_iff in Hvalid.
  destruct Hvalid as ((target & Htarget & _) & Hlen & _).
  destruct (plan_length_cases _ Hlen) as (n & Hn & Hlen').
  rewrite (twoTier_plan Math_pow zone fuel n data target Hn Hlen' Htarget Hfuel).
  rewrite Hlen'. fold (TwoTier.peakWeekIndexOf (JsNumber.of_nat n)).
  eexists. split; [ reflexivity | ]. cbv beta iota delta [weeks].
  destruct (peakWeekIndex_cases n Hn) as (k & Hk & ->).
  intros i j earlier later Hi Hj Hij Hjk.
  rewrite nth_error_map in Hi, Hj.
  destruct (nth_error (weekIndices n) i) as [wi | ] eqn:Ei; [ | discriminate ].
  destruct (nth_error (weekIndices n) j) as [wj | ] eqn:Ej; [ | discriminate ].
  apply weekIndices_nth in Ei, Ej.
  destruct Ei as [Hin ->], Ej as [Hjn ->].
  injection Hi as <-. injection Hj as <-. cbn [plannedHours].
  assert (Hknz : (JsNumber.of_nat k =? 0)%float = false).
  { destruct Hk as [[_ ->] | [[_ ->] | [_ ->]]]; reflexivity. }
  assert (Hk53 : (0 < k)%nat /\ Z.of_nat k < 2 ^ 53)
    by (destruct Hk as [[_ ->] | [[_ ->] | [_ ->]]]; split; try lia; reflexivity).
  assert (Hmono : forall h h', nn h -> nn h' -> ford h <= ford h' ->
                               fle (round1 h) (round1 h')).
  { intros h h' Hh Hh' Hle.
    destruct (round1_mono _ _ Hh Hh' Hle) as (H1 & H2 & H3).
    now apply ford_leb. }
  destruct (index_cases n k j Hk Hjn)
    as [(Hjk' & J1 & _) | [(-> & J1 & J2 & _) | (_ & _ & _ & J3 & _)]].
  - (* both weeks on the ramp *)
    assert (Hik : (i < k)%nat) by lia.
    destruct (index_cases n k i Hk Hin)
      as [(_ & I1 & _) | [(-> & _) | (Hki & _)]]; try lia.
    rewrite !hoursOfWeek_ramp by assumption.
    destruct (ramp_fraction_cases k i ltac:(lia) Hik) as [Ti Ti'].
    destruct (ramp_fraction_cases k j ltac:(lia) Hjk') as [Tj Tj'].
    destruct (ramp_bounds _ _ _ Hfa Hfp Hap Ti Ti') as (Ri & _).
    destruct (ramp_bounds _ _ _ Hfa Hfp Hap Tj Tj') as (Rj & _).
    apply Hmono; [ now apply nf_nn | now apply nf_nn | ].
    apply ramp_mono; try assumption.
    apply fraction_mono; lia.
  - (* the later week is the peak week *)
    rewrite (hoursOfWeek_peak Math_pow data _ _ J1 J2).
    destruct (index_cases n k i Hk Hin)
      as [(Hik & I1 & _) | [(-> & I1 & I2 & _) | (Hki & _)]]; try lia.
    + rewrite hoursOfWeek_ramp by assumption.
      destruct (ramp_fraction_cases k i ltac:(lia) Hik) as [Ti Ti'].
      destruct (ramp_bounds _ _ _ Hfa Hfp Hap Ti Ti') as (Ri & _ & Hup).
      apply Hmono; [ now apply nf_nn | assumption | assumption ].
    + rewrite (hoursOfWeek_peak Math_pow data _ _ I1 I2).
      apply Hmono; [ assumption | assumption | lia ].
  - (* a week after the peak is excluded *)
    exfalso. unfold fle in Hjk.
    destruct (FloatFacts.leb_not_nan _ _ Hjk) as [N1 N2].
    rewrite (FloatFacts.leb_negb_ltb _ _ N1 N2), J3 in Hjk. discriminate.
Qed.

Lemma ramp_weeks_never_decrease_witness :
  let now := JsDate.mk (20000 * 86400000 + 3600000) in
  let data :=
    TwoTier.mkFormData (Some (JsDate.mk (20240 * 86400000))) 12 7.3 12.25
                       ["Tue"; "Sat"]%string in
  exists plan,
    TwoTier.buildPlaceholderPlan JsNumber.pow_by_multiplication JsDate.utc 16 data
    = Returned plan
    /\ forall (i j : nat) (earlier later : WeekEntry),
        nth_error (weeks plan) i = Some earlier ->
        nth_error (weeks plan) j = Some later ->
        (i <= j)%nat ->
        fle (JsNumber.of_nat j) (JsNumber.Math_floor (12 * 0.65)%float) ->
        fle (plannedHours earlier) (plannedHours later).
Proof.
  cbv zeta.
  apply (ramp_weeks_never_decrease
           JsNumber.pow_by_multiplication JsDate.utc 16
           (JsDate.mk (20000 * 86400000 + 3600000))
           (TwoTier.mkFormData (Some (JsDate.mk (20240 * 86400000)))
                               12 7.3 12.25 ["Tue"; "Sat"]%string)
           (le_n 16)); reflexivity.
Defined.

(** X18.  In [src/app.js] the six-hour minimum only matters with three
    days: with four or more days selected, an average below 6 also has
    a per-day average below 1.5, so the minimum message never comes
    without the low-per-day message. *)
Theorem minimum_message_implies_per_day_message (data : SingleTier.FormData) :
  let errors := SingleTier.validateDataInput data in
  let days := List.length (SingleTier.selectedDays data) in
  (4 <= days)%nat -> Z.of_nat days < 2 ^ 53 ->
  In SingleTier.msgAvgMinimum errors ->
  In SingleTier.msgPerDayLow errors.
Proof.
  cbv zeta. intros Hdays Hbig Hmin.
  assert (Hg : forall k b m,
             nth_error (singleTierPushes data) k = Some (b, m) ->
             (In m (SingleTier.validateDataInput data) <-> b = true)).
  { intros k b m H. apply validateDataInput_In. eapply nth_error_In, H. }
  apply (Hg 3%nat _ _ eq_refl) in Hmin. apply (Hg 7%nat _ _ eq_refl).
  clear Hg.
  set (avg := SingleTier.avgHours data) in *.
  set (n := List.length (SingleTier.selectedDays data)) in *.
  apply andb_true_iff in Hmin. destruct Hmin as [Hpos Hlt].
  apply negb_true_iff in Hpos. pose proof Hpos as Hnan.
  apply orb_false_iff in Hnan. destruct Hnan as [Hnan _].
  apply positive_guard in Hpos.
  destruct (flt_0_nn avg Hpos) as [Ha _].
  destruct (flt_0_nn 6 eq_refl) as [H6 _].
  apply ltb_ford in Hlt; [ | exact Ha | exact H6 ].
  assert (Hfa : nf avg).
  { apply nn_below_top; [ exact Ha | ].
    assert (ford 6 < ordTop) by reflexivity. lia. }
  destruct (of_nat_value n Hbig) as [Fn Vn].
  assert (Hn0 : 0 < ford (JsNumber.of_nat n)).
  { pose proof (of_nat_ford_lt 0 n ltac:(lia) Hbig) as H.
    change (ford (JsNumber.of_nat 0)) with 0 in H. exact H. }
  assert (Hnz : (n =? 0)%nat = false) by (apply Nat.eqb_neq; lia).
  rewrite Hnz, Hnan. cbn [negb andb].
  (* the largest Number below 6, divided by four *)
  assert (Hc : nf (next_down 6)) by (vm_compute; split; reflexivity).
  assert (Hco : ford (next_down 6) = ford 6 - 1) by reflexivity.
  destruct (of_nat_value 4 eq_refl) as [F4 V4].
  assert (H40 : 0 < ford (JsNumber.of_nat 4)) by reflexivity.
  pose proof (div_Rounds _ _ Hfa Fn Hn0) as Hq.
  pose proof (div_Rounds _ _ Hc F4 H40) as Hq'.
  assert (Hle : ford (avg / JsNumber.of_nat n)
                <= ford (next_down 6 / JsNumber.of_nat 4)).
  { apply (Rounds_mono _ _ _ _ Hq Hq'). rewrite Vn, V4.
    pose proof (nf_B2R_le avg (next_down 6) Hfa Hc ltac:(lia)) as Hb.
    pose proof (B2R_nonneg avg Hfa) as H0.
    assert (H4n : (4 <= IZR (Z.of_nat n))%R) by (apply IZR_le; lia).
    change (IZR (Z.of_nat 4)) with 4%R.
    apply Rle_trans with (B2R avg / 4)%R.
    - unfold Rdiv. apply Rmult_le_compat_l; [ exact H0 | ].
      apply Rinv_le_contravar; lra.
    - lra. }
  apply ltb_ford; [ apply (Rounds_nn _ _ Hq) | now apply (flt_0_nn 1.5) | ].
  assert (ford (next_down 6 / JsNumber.of_nat 4) < ford 1.5) by reflexivity.
  lia.
Qed.

Lemma minimum_message_implies_per_day_message_witness :
  let data :=
    SingleTier.mkFormData None 8 5.5 ["Mon"; "Tue"; "Wed"; "Sat"]%string in
  In SingleTier.msgAvgMinimum (SingleTier.validateDataInput data)
  /\ In SingleTier.msgPerDayLow (SingleTier.validateDataInput data).
Proof.
  cbv zeta.
  assert (Hmin : In SingleTier.msgAvgMinimum
                    (SingleTier.validateDataInput
                       (SingleTier.mkFormData
                          None 8 5.5 ["Mon"; "Tue"; "Wed"; "Sat"]%string)))
    by (vm_compute; tauto).
  split; [ exact Hmin | ].
  apply (minimum_message_implies_per_day_message
           (SingleTier.mkFormData None 8 5.5
                                  ["Mon"; "Tue"; "Wed"; "Sat"]%string));
    [ cbn; lia | reflexivity | exact Hmin ].
Defined.

(** ** What the plan does not depend on *)

Lemma ford_inj a b : nf a -> nf b -> ford a = ford b -> a = b.
Proof.
  intros Ha Hb Hab. apply nf_B2R_inj; try assumption.
  apply Rle_antisym; apply nf_B2R_le; try assumption; lia.
Qed.

(** X19.  With [peakHours] equal to a finite [avgHours], and
    [Math.pow(0.8, k)] positive and at most 1 for [k = 1 .. 5], the
    two-tier generator gives the flat plan: every week has
    [round1 avgHours], and the plan is the one that the generator of
    [src/app.js] returns for the same target date, plan length and
    average. *)
Theorem equal_peak_and_average_give_the_flat_plan
        (Math_pow : float -> float -> float) (zone : JsDate.TimeZone)
        (fuel : nat)
        (now : JsDate.t) (data : TwoTier.FormData) :
  (16 <= fuel)%nat ->
  TwoTier.validate zone now data = [] ->
  finite (TwoTier.peakHours data) ->
  TwoTier.peakHours data = TwoTier.avgHours data ->
  taperFactorsBounded Math_pow ->
  let single :=
    SingleTier.mkFormData (TwoTier.targetDate data)
                          (TwoTier.planLengthWeeks data)
                          (TwoTier.avgHours data)
                          (TwoTier.selectedDays data) in
  exists plan,
    TwoTier.buildPlaceholderPlan Math_pow zone fuel data = Returned plan
    /\ SingleTier.buildPlaceholderPlan zone fuel single = Returned plan
    /\ forall entry,
        In entry (weeks plan) ->
        plannedHours entry = round1 (TwoTier.avgHours data).
Proof.
  intros Hfuel Hvalid Hfin Heq Hpow. cbv zeta.
  destruct (valid_numbers zone now data Hvalid) as (Hna & Hpa & Hnp & Hap).
  assert (Hfp : nf (TwoTier.peakHours data)) by now apply is_finite_nf.
  assert (Hfa : nf (TwoTier.avgHours data)) by now rewrite <- Heq.
  apply validate_nil_iff in Hvalid.
  destruct Hvalid as ((target & Htarget & _) & Hlen & _).
  destruct (plan_length_cases _ Hlen) as (n & Hn & Hlen').
  rewrite (twoTier_plan Math_pow zone fuel n data target Hn Hlen' Htarget Hfuel).
  rewrite (singleTier_plan
             zone fuel n
             (SingleTier.mkFormData (TwoTier.targetDate data)
                                    (TwoTier.planLengthWeeks data)
                                    (TwoTier.avgHours data)
                                    (TwoTier.selectedDays data))
             target Hn Hlen' Htarget Hfuel).
  cbn [SingleTier.avgHours].
  destruct (peakWeekIndex_cases n Hn) as (k & Hk & ->).
  assert (Hknz : (JsNumber.of_nat k =? 0)%float = false).
  { destruct Hk as [[_ ->] | [[_ ->] | [_ ->]]]; reflexivity. }
  assert (Hsame : ford (TwoTier.peakHours data) = ford (TwoTier.avgHours data))
    by now rewrite Heq.
  assert (Hhours : forall w, In w (weekIndices n) ->
             TwoTier.hoursOfWeek Math_pow data (JsNumber.of_nat k) w
             = TwoTier.avgHours data).
  { intros w Hin. apply In_nth_error in Hin. destruct Hin as [i Hi].
    apply weekIndices_nth in Hi. destruct Hi as [Hi ->].
    destruct (index_cases n k i Hk Hi)
      as [(Hik & H1 & _) | [(_ & H1 & H2 & _)
                           | (Hki & H1 & H2 & _ & H4 & H5)]].
    - rewrite hoursOfWeek_ramp by assumption.
      destruct (ramp_fraction_cases k i ltac:(lia) Hik) as [Ht Ht'].
      destruct (ramp_bounds _ _ _ Hfa Hfp Hap Ht Ht') as (Hr & Hlo & Hhi).
      apply ford_inj; [ exact Hr | exact Hfa | lia ].
    - rewrite hoursOfWeek_peak by assumption. exact Heq.
    - rewrite hoursOfWeek_taper, H4 by assumption.
      destruct (taperFactorsBounded_facts Math_pow Hpow (i - k) ltac:(lia))
        as (Fc & _ & Oc).
      destruct (mul_le_one _ _ Hfp Fc Oc) as [Hm Hmle].
      destruct (Math_max_nn (TwoTier.avgHours data) _ Hna (nf_nn _ Hm))
        as [Hx Hxo].
      assert (Hford : ford (JsNumber.Math_max
                              (TwoTier.avgHours data)
                              (TwoTier.peakHours data
                               * Math_pow 0.8 (JsNumber.of_nat (i - k)))%float)
                      = ford (TwoTier.avgHours data)) by lia.
      apply ford_inj; [ | exact Hfa | exact Hford ].
      apply nn_below_top; [ exact Hx | ].
      pose proof (nf_ford_range _ Hfa). lia. }
  assert (Hweeks :
            map (fun w => mkWeek (w + 1)%float
                            (round1 (TwoTier.hoursOfWeek
                                       Math_pow data (JsNumber.of_nat k) w)))
                (weekIndices n)
            = map (fun w => mkWeek (w + 1)%float
                              (round1 (TwoTier.avgHours data)))
                  (weekIndices n)).
  { apply map_ext_in. intros w Hin. now rewrite Hhours. }
  rewrite Hweeks.
  eexists. split; [ reflexivity | ]. split; [ reflexivity | ].
  cbv beta iota delta [weeks]. intros entry Hin.
  apply in_map_iff in Hin. destruct Hin as (w & <- & _). reflexivity.
Qed.

Lemma equal_peak_and_average_give_the_flat_plan_witness :
  let now := JsDate.mk (20000 * 86400000 + 3600000) in
  let target := JsDate.mk (20240 * 86400000) in
  let data := TwoTier.mkFormData (Some target) 16 9.37 9.37 ["Sat"%string] in
  let single := SingleTier.mkFormData (Some target) 16 9.37 ["Sat"%string] in
  exists plan,
    TwoTier.buildPlaceholderPlan JsNumber.pow_by_multiplication JsDate.utc 16 data
    = Returned plan
    /\ SingleTier.buildPlaceholderPlan JsDate.utc 16 single = Returned plan
    /\ forall entry,
        In entry (weeks plan) -> plannedHours entry = round1 9.37.
Proof.
  cbv zeta.
  apply (equal_peak_and_average_give_the_flat_plan
           JsNumber.pow_by_multiplication JsDate.utc 16
           (JsDate.mk (20000 * 86400000 + 3600000))
           (TwoTier.mkFormData (Some (JsDate.mk (20240 * 86400000)))
                               16 9.37 9.37 ["Sat"%string])
           (le_n 16)); reflexivity.
Defined.

Lemma twoTier_weeksLoop_days (Math_pow : float -> float -> float)
      (data data' : TwoTier.FormData) (totalWeeks peakWeekIndex : float) :
  TwoTier.avgHours data' = TwoTier.avgHours data ->
  TwoTier.peakHours data' = TwoTier.peakHours data ->
  forall (fuel : nat) (w : float) (acc : list WeekEntry),
    TwoTier.weeksLoop Math_pow fuel data' totalWeeks peakWeekIndex w acc
    = TwoTier.weeksLoop Math_pow fuel data totalWeeks peakWeekIndex w acc.
Proof.
  intros Ha Hp. induction fuel as [ | fuel IH]; intros w acc;
    cbn [TwoTier.weeksLoop]; [ reflexivity | ].
  destruct (w <? totalWeeks)%float; [ | reflexivity ].
  cbv zeta. unfold TwoTier.hoursOfWeek. rewrite Ha, Hp.
  destruct (pushWeek _ _); [ apply IH | reflexivity ].
Qed.

Lemma singleTier_weeksLoop_days (data data' : SingleTier.FormData) :
  SingleTier.avgHours data' = SingleTier.avgHours data ->
  SingleTier.planLengthWeeks data' = SingleTier.planLengthWeeks data ->
  forall (fuel : nat) (w : float) (acc : list WeekEntry),
    SingleTier.weeksLoop fuel data' w acc = SingleTier.weeksLoop fuel data w acc.
Proof.
  intros Ha Hl. induction fuel as [ | fuel IH]; intros w acc;
    cbn [SingleTier.weeksLoop]; rewrite Hl; [ reflexivity | ].
  destruct (w <? SingleTier.planLengthWeeks data)%float; [ | reflexivity ].
  rewrite Ha. destruct (pushWeek _ _); [ apply IH | reflexivity ].
Qed.

(** X20.  The selected days play no part in the plan: in both files
    [buildPlaceholderPlan] ends in the same way (the same plan or the
    same exception) whatever [selectedDays] holds. *)
Theorem plan_ignores_selected_days
        (Math_pow : float -> float -> float) (zone : JsDate.TimeZone)
        (fuel : nat)
        (data : TwoTier.FormData) (single : SingleTier.FormData)
        (days : list string) :
  TwoTier.buildPlaceholderPlan
    Math_pow zone fuel
    (TwoTier.mkFormData (TwoTier.targetDate data)
                        (TwoTier.planLengthWeeks data)
                        (TwoTier.avgHours data) (TwoTier.peakHours data) days)
  = TwoTier.buildPlaceholderPlan Math_pow zone fuel data
  /\ SingleTier.buildPlaceholderPlan
       zone fuel
       (SingleTier.mkFormData (SingleTier.targetDate single)
                              (SingleTier.planLengthWeeks single)
                              (SingleTier.avgHours single) days)
     = SingleTier.buildPlaceholderPlan zone fuel single.
Proof.
  split.
  - unfold TwoTier.buildPlaceholderPlan.
    cbn [TwoTier.targetDate TwoTier.planLengthWeeks].
    destruct (TwoTier.targetDate data); [ | reflexivity ]. cbv zeta.
    now rewrite (twoTier_weeksLoop_days Math_pow data).
  - unfold SingleTier.buildPlaceholderPlan.
    cbn [SingleTier.targetDate SingleTier.planLengthWeeks].
    destruct (SingleTier.targetDate single); [ | reflexivity ]. cbv zeta.
    now rewrite (singleTier_weeksLoop_days single).
Qed.

(** X21.  [src/app.js] never compares the target date with today: a
    record it accepts stays accepted with any other target date, past
    dates included, and the plan then has the same weeks; its start
    date is the local time of that date moved back by
    [planLengthWeeks * 7] days and stored through the time zone, which
    is that date minus [planLengthWeeks * 7] days where this local time
    exists in the zone. *)
Theorem singleTier_accepts_any_target_date
        (zone : JsDate.TimeZone) (fuel : nat)
        (single : SingleTier.FormData) (other : JsDate.t) :
  (16 <= fuel)%nat ->
  SingleTier.validateDataInput single = [] ->
  let moved :=
    SingleTier.mkFormData (Some other)
                          (SingleTier.planLengthWeeks single)
                          (SingleTier.avgHours single)
                          (SingleTier.selectedDays single) in
  SingleTier.validateDataInput moved = []
  /\ planShape zone (Some other) (SingleTier.planLengthWeeks single)
               (SingleTier.buildPlaceholderPlan zone fuel moved)
  /\ exists plan plan',
      SingleTier.buildPlaceholderPlan zone fuel single = Returned plan
      /\ SingleTier.buildPlaceholderPlan zone fuel moved = Returned plan'
      /\ weeks plan' = weeks plan.
Proof.
  intros Hfuel Hvalid. cbv zeta.
  assert (Hmoved : SingleTier.validateDataInput
                     (SingleTier.mkFormData (Some other)
                        (SingleTier.planLengthWeeks single)
                        (SingleTier.avgHours single)
                        (SingleTier.selectedDays single)) = []).
  { unfold SingleTier.validateDataInput in *.
    cbn [SingleTier.targetDate SingleTier.planLengthWeeks
         SingleTier.avgHours SingleTier.selectedDays].
    destruct (SingleTier.targetDate single); [ exact Hvalid | ].
    exfalso. revert Hvalid. unfold push. cbn [app]. cbv zeta.
    split_guards; discriminate. }
  split; [ exact Hmoved | ].
  apply validateDataInput_nil_iff in Hvalid.
  destruct Hvalid as (Hdate & Hlen & _).
  destruct (SingleTier.targetDate single) as [target | ] eqn:Htarget;
    [ | congruence ].
  destruct (plan_length_cases _ Hlen) as (n & Hn & Hlen').
  rewrite (singleTier_plan zone fuel n single target Hn Hlen' Htarget Hfuel).
  rewrite (singleTier_plan
             zone fuel n
             (SingleTier.mkFormData (Some other)
                                    (SingleTier.planLengthWeeks single)
                                    (SingleTier.avgHours single)
                                    (SingleTier.selectedDays single))
             other Hn Hlen' eq_refl Hfuel).
  cbn [SingleTier.avgHours]. split.
  - rewrite Hlen'. now apply planShape_intro.
  - eexists _, _. split; [ reflexivity | ]. split; reflexivity.
Qed.

Lemma singleTier_accepts_any_target_date_witness :
  let single :=
    SingleTier.mkFormData (Some (JsDate.mk (20240 * 86400000))) 12 8
                          ["Mon"; "Wed"; "Sat"]%string in
  let past := JsDate.mk (- 5 * 86400000) in
  let moved :=
    SingleTier.mkFormData (Some past) 12 8 ["Mon"; "Wed"; "Sat"]%string in
  SingleTier.validateDataInput moved = []
  /\ planShape JsDate.utc (Some past) 12
               (SingleTier.buildPlaceholderPlan JsDate.utc 16 moved)
  /\ localTimeExists JsDate.utc
                     (JsDate.timeValue past - 12 * 7 * JsDate.msPerDay).
Proof.
  cbv zeta.
  destruct (singleTier_accepts_any_target_date
              JsDate.utc 16
              (SingleTier.mkFormData (Some (JsDate.mk (20240 * 86400000))) 12 8
                                     ["Mon"; "Wed"; "Sat"]%string)
              (JsDate.mk (- 5 * 86400000)) (le_n 16) eq_refl)
    as (H1 & H2 & _).
  split; [ exact H1 | ]. split; [ exact H2 | reflexivity ].
Defined.

(** ** The futurity test as written *)

(** X22.  When neither the clock nor the target date is in the years 0
    to 99, the test [targetMidnight <= todayMidnight] of [validate], as
    written with the [Date] constructor, holds on the local midnights
    computed exactly when the target day is not after today; it is then
    the comparison of [JsDate.atMidnight].  With the clock in the year
    99 the test can hold for a target date that is after today.  And
    the test on the time values stored is the test on the local
    midnights, for dates at least two days inside the range of time
    values in a zone whose offsets are within a day. *)
Theorem futurity_test_as_written (now target : JsDate.t) :
  (~ 0 <= JsDateFields.getFullYear now <= 99 ->
   ~ 0 <= JsDateFields.getFullYear target <= 99 ->
   targetNotAfterToday now target
   = JsDate.leb (JsDate.atMidnight target) (JsDate.atMidnight now)
   /\ (targetNotAfterToday now target = true
       <-> JsDate.Day (JsDate.timeValue target)
           <= JsDate.Day (JsDate.timeValue now)))
  /\ (exists now' target',
         JsDateFields.getFullYear now' = 99
         /\ JsDate.Day (JsDate.timeValue now') < JsDate.Day (JsDate.timeValue target')
         /\ targetNotAfterToday now' target' = true)
  /\ (forall zone : JsDate.TimeZone,
         offsetsWithinADay zone ->
         wellInRange now -> wellInRange target ->
         yearAsWritten now -> yearAsWritten target ->
         midnightTest zone now target = targetNotAfterToday now target).
Proof.
  split; [ | split ].
  - intros Hnow Htarget.
    pose proof (ofFields_of_own_fields now) as En.
    pose proof (ofFields_of_own_fields target) as Et.
    unfold targetNotAfterToday. cbv zeta.
    rewrite (En Hnow), (Et Htarget). split; [ reflexivity | ].
    unfold JsDate.leb, JsDate.atMidnight, JsDate.MakeDate, JsDate.msPerDay.
    cbn [JsDate.timeValue]. rewrite Z.leb_le. lia.
  - exists (JsDate.mk ((JsCalendar.DayFromYear 100 - 1) * 86400000)),
      (JsDate.mk (JsCalendar.DayFromYear 100 * 86400000)).
    vm_compute. repeat split; discriminate.
  - intros zone. apply midnightTest_local.
Qed.

Lemma futurity_test_as_written_witness :
  let now := JsDate.mk (20000 * 86400000 + 3600000) in
  let target := JsDate.mk (20240 * 86400000) in
  targetNotAfterToday now target
  = JsDate.leb (JsDate.atMidnight target) (JsDate.atMidnight now)
  /\ targetNotAfterToday now target = false.
Proof.
  cbv zeta.
  destruct (futurity_test_as_written
              (JsDate.mk (20000 * 86400000 + 3600000))
              (JsDate.mk (20240 * 86400000))) as [H _].
  destruct H as [H1 _].
  - vm_compute. intros [_ H]. now apply H.
  - vm_compute. intros [_ H]. now apply H.
  - split; [ exact H1 | reflexivity ].
Defined.
